(** * Slack channel exporter: a shallow embedding of [main.py]

    The exporter pages through the history of one channel, expands the
    threads it finds, resolves the authors and writes one JSON document.
    Every function of [main.py] that talks to the Slack client is embedded
    here as a computation over an explicit world (the state of the client
    object, the observable trace of requests and sleeps, the files written),
    with Python exceptions made explicit in the result. The library
    functions the exporter relies on ([int], [datetime], the Asia/Tokyo
    zone of [pytz]) are modelled as far as it uses them. *)

From Stdlib Require Import ZArith String Ascii List Lia Bool.
From stdpp Require Import gmap strings list.

Local Open Scope string_scope.
Local Open Scope Z_scope.

(** ** Python primitives used by the exporter *)

Module Py.

(** [d.get(key, default)] on a key that is either absent or bound. *)
Definition get_default {A} (o : option A) (default : A) : A :=
  match o with
  | Some v => v
  | None => default
  end.

(** Truthiness of [d.get(key)] for a string-valued entry: an absent key
    gives [None] and the empty string is falsy as well. *)
Definition truthy (o : option string) : bool :=
  match o with
  | Some s => negb (String.eqb s "")
  | None => false
  end.

(** [a or b] where [a] is an optional string. *)
Definition or_else (o : option string) (b : string) : string :=
  match o with
  | Some s => if String.eqb s "" then b else s
  | None => b
  end.

(** Characters removed by [str.strip()] (ASCII range). *)
Definition is_space (c : ascii) : bool :=
  let n := N_of_ascii c in
  ((9 <=? n) && (n <=? 13) || (28 <=? n) && (n <=? 32))%N.

Definition digit_of (c : ascii) : option Z :=
  let n := Z.of_N (N_of_ascii c) in
  if (48 <=? n) && (n <=? 57) then Some (n - 48) else None.

Fixpoint lstrip (s : list ascii) : list ascii :=
  match s with
  | c :: s' => if is_space c then lstrip s' else s
  | [] => []
  end.

Definition strip (s : list ascii) : list ascii :=
  rev (lstrip (rev (lstrip s))).

(** Decimal digits with single underscores allowed between digits. *)
Fixpoint int_digits (acc : Z) (after_digit : bool) (s : list ascii) : option Z :=
  match s with
  | [] => if after_digit then Some acc else None
  | c :: s' =>
      if Ascii.eqb c "_"%char then
        if after_digit then int_digits acc false s' else None
      else
        match digit_of c with
        | Some d => int_digits (10 * acc + d) true s'
        | None => None
        end
  end.

(** The builtin [int(s)] on an ASCII string, base ten: surrounding
    whitespace is dropped, one sign is allowed, anything else is a
    [ValueError] ([None]). *)
Definition int (s : string) : option Z :=
  match strip (list_ascii_of_string s) with
  | "-"%char :: ds => Z.opp <$> int_digits 0 false ds
  | "+"%char :: ds => int_digits 0 false ds
  | ds => int_digits 0 false ds
  end.

End Py.

(** ** Data model *)

(** A raw message as the API returns it: a dictionary of which the
    exporter reads the keys [ts], [user], [text] and [thread_ts], any of
    which may be absent. *)
Record RawMessage := {
  m_ts : option string;
  m_user : option string;
  m_text : option string;
  m_thread_ts : option string
}.

Record ThreadReply := {
  tr_timestamp : string;
  tr_readable_time : string;
  tr_user : string;
  tr_text : string
}.

Record SlackMessage := {
  sm_timestamp : string;
  sm_readable_time : string;
  sm_user : string;
  sm_text : string;
  sm_thread_replies : list ThreadReply
}.

Record UserInfo := {
  name : string;
  display_name : string
}.

Record SlackExport := {
  start_date : string;
  end_date : string;
  users : gmap string UserInfo;
  chat : list SlackMessage
}.

(** ** Exceptions and the client interface *)

(** The response carried by a [SlackApiError]: its error code and the
    [Retry-After] header, when the server sent one. *)
Record ErrorResponse := {
  e_error : string;
  e_retry_after : option string
}.

(** Exceptions (subclasses of [Exception]) that can travel through the
    exporter. [OtherError] stands for any class not listed. *)
Inductive exn :=
  | SlackApiError (r : ErrorResponse)
  | KeyError (key : string)
  | ValueError (msg : string)
  | OverflowError
  | RecursionError
  | OSError (msg : string)
  | OtherError (cls : string).

Inductive Outcome (A : Type) :=
  | Returns (a : A)
  | Raises (e : exn).
Arguments Returns {A} a.
Arguments Raises {A} e.

Record HistoryRequest := {
  rq_channel : string;
  rq_limit : Z;
  rq_oldest : Z;
  rq_latest : Z;
  rq_cursor : option string
}.

(** Response of [conversations_history]; [h_next_cursor] is
    [response["response_metadata"]["next_cursor"]], absent when either key
    is. *)
Record HistoryResponse := {
  h_ok : bool;
  h_messages : option (list RawMessage);
  h_has_more : bool;
  h_next_cursor : option string;
  h_error : option string
}.

Record RepliesResponse := {
  r_ok : bool;
  r_messages : option (list RawMessage)
}.

Record Profile := {
  p_real_name : option string;
  p_display_name : option string
}.

Record User := {
  u_name : option string;
  u_profile : option Profile
}.

Record UsersInfoResponse := {
  ui_ok : bool;
  ui_user : option User
}.

(** The client is an object with three request methods; a call may return
    a response or raise, and may change the client's own state. *)
Class Transport (Client : Type) := {
  conversations_history :
    Client -> HistoryRequest -> Outcome HistoryResponse * Client;
  conversations_replies :
    Client -> string -> string -> Outcome RepliesResponse * Client;
  users_info :
    Client -> string -> Outcome UsersInfoResponse * Client
}.

(** What an observer of one run sees, in order. *)
Inductive Event :=
  | EvHistory (rq : HistoryRequest)
  | EvReplies (channel ts : string)
  | EvUsersInfo (user : string)
  | EvSleep (seconds : Z).

Record World (Client : Type) := {
  client : Client;
  trace : list Event;
  disk : gmap string SlackExport
}.
Arguments client {Client} w.
Arguments trace {Client} w.
Arguments disk {Client} w.

(** ** Computations: state passing with exceptions *)

Definition M (Client A : Type) : Type :=
  World Client -> Outcome A * World Client.

Definition ret {Client A} (a : A) : M Client A :=
  fun w => (Returns a, w).

Definition raise {Client A} (e : exn) : M Client A :=
  fun w => (Raises e, w).

Definition bind {Client A B} (m : M Client A) (k : A -> M Client B) : M Client B :=
  fun w =>
    match m w with
    | (Returns a, w') => k a w'
    | (Raises e, w') => (Raises e, w')
    end.

Notation "'let*' x ':=' m 'in' k" := (bind m (fun x => k))
  (at level 10, x name, m at level 100, k at level 200).

Definition emit {Client} (ev : Event) : M Client unit :=
  fun w => (Returns tt,
            {| client := client w; trace := trace w ++ [ev]; disk := disk w |}).

(** [time.sleep(seconds)]; a negative length is a [ValueError]. *)
Definition sleep {Client} (seconds : Z) : M Client unit :=
  if seconds <? 0 then raise (ValueError "sleep length must be non-negative")
  else emit (EvSleep seconds).

(** [try: m except ...: handler]. *)
Definition try_except {Client A} (m : M Client A) (handler : exn -> M Client A)
  : M Client A :=
  fun w =>
    match m w with
    | (Returns a, w') => (Returns a, w')
    | (Raises e, w') => handler e w'
    end.

(** ** Dates and times, as the [datetime] module computes them

    The calendar arithmetic follows [datetime.py] ([_ymd2ord], [_ord2ymd]
    and their tables) on the proleptic Gregorian calendar. *)

Module DateTime.

Record datetime := {
  year : Z; month : Z; day : Z;
  hour : Z; minute : Z; second : Z
}.

Definition is_leap (y : Z) : bool :=
  (y mod 4 =? 0) && (negb (y mod 100 =? 0) || (y mod 400 =? 0)).

Definition days_before_year (y : Z) : Z :=
  let y' := y - 1 in y' * 365 + y' / 4 - y' / 100 + y' / 400.

Definition DAYS_IN_MONTH (m : Z) : Z :=
  match m with
  | 1 => 31 | 2 => 28 | 3 => 31 | 4 => 30 | 5 => 31 | 6 => 30
  | 7 => 31 | 8 => 31 | 9 => 30 | 10 => 31 | 11 => 30 | 12 => 31
  | _ => -1
  end.

Definition DAYS_BEFORE_MONTH (m : Z) : Z :=
  match m with
  | 1 => 0 | 2 => 31 | 3 => 59 | 4 => 90 | 5 => 120 | 6 => 151
  | 7 => 181 | 8 => 212 | 9 => 243 | 10 => 273 | 11 => 304 | 12 => 334
  | _ => -1
  end.

Definition days_in_month (y m : Z) : Z :=
  if (m =? 2) && is_leap y then 29 else DAYS_IN_MONTH m.

Definition days_before_month (y m : Z) : Z :=
  DAYS_BEFORE_MONTH m + (if (2 <? m) && is_leap y then 1 else 0).

Definition ymd2ord (y m d : Z) : Z :=
  days_before_year y + days_before_month y m + d.

Definition DI400Y := 146097.
Definition DI100Y := 36524.
Definition DI4Y := 1461.

Definition ord2ymd (n : Z) : Z * Z * Z :=
  let n := n - 1 in
  let n400 := n / DI400Y in let n := n mod DI400Y in
  let y := n400 * 400 + 1 in
  let n100 := n / DI100Y in let n := n mod DI100Y in
  let n4 := n / DI4Y in let n := n mod DI4Y in
  let n1 := n / 365 in let n := n mod 365 in
  let y := y + n100 * 100 + n4 * 4 + n1 in
  if (n1 =? 4) || (n100 =? 4) then (y - 1, 12, 31)
  else
    let leapyear := (n1 =? 3) && (negb (n4 =? 24) || (n100 =? 3)) in
    let m := Z.shiftr (n + 50) 5 in
    let preceding := DAYS_BEFORE_MONTH m + (if (2 <? m) && leapyear then 1 else 0) in
    if n <? preceding then
      let m := m - 1 in
      let preceding := preceding - (DAYS_IN_MONTH m + (if (m =? 2) && leapyear then 1 else 0)) in
      (y, m, n - preceding + 1)
    else (y, m, n - preceding + 1).

Definition valid_date (y m d : Z) : bool :=
  (1 <=? y) && (y <=? 9999) && (1 <=? m) && (m <=? 12) && (1 <=? d) && (d <=? days_in_month y m).




(** Naive datetimes are handled through their position on the naive time
    line, in seconds from 1970-01-01 00:00:00. *)
Definition to_seconds (dt : datetime) : Z :=
  (ymd2ord (year dt) (month dt) (day dt) - 719163) * 86400
  + hour dt * 3600 + minute dt * 60 + second dt.

(** [datetime.min] and [datetime.max] (whole seconds). *)
Definition MIN_SECONDS : Z := -62135596800.
Definition MAX_SECONDS : Z := 253402300799.

Definition in_range (z : Z) : bool :=
  (MIN_SECONDS <=? z) && (z <=? MAX_SECONDS).

Definition of_seconds (z : Z) : datetime :=
  let '(y, m, d) := ord2ymd (z / 86400 + 719163) in
  let r := z mod 86400 in
  {| year := y; month := m; day := d;
     hour := r / 3600; minute := r mod 3600 / 60; second := r mod 60 |}.

(** [dt + timedelta(seconds=delta)]: an [OverflowError] outside
    [datetime.min .. datetime.max]. *)
Definition add_seconds (z delta : Z) : Outcome Z :=
  if in_range (z + delta) then Returns (z + delta) else Raises OverflowError.

Definition digit_char (d : Z) : ascii := ascii_of_N (Z.to_N (48 + d)).

Definition digit_of := Py.digit_of.

Definition pad2 (n : Z) (rest : string) : string :=
  String (digit_char (n / 10 mod 10)) (String (digit_char (n mod 10)) rest).

Definition pad4 (n : Z) (rest : string) : string :=
  String (digit_char (n / 1000 mod 10)) (String (digit_char (n / 100 mod 10))
    (pad2 n rest)).

Definition sep (c : ascii) (rest : string) : string := String c rest.

(** [dt.strftime("%Y-%m-%d %H:%M:%S")]; the year is written with four
    digits (below the year 1000 the C library decides on the padding). *)
Definition strftime (dt : datetime) : string :=
  pad4 (year dt) (sep "-" (pad2 (month dt) (sep "-" (pad2 (day dt) (sep " "
    (pad2 (hour dt) (sep ":" (pad2 (minute dt) (sep ":" (pad2 (second dt) "")))))))))).

(** [dt.strftime("%Y%m%d-%H%M%S")] *)
Definition strftime_compact (dt : datetime) : string :=
  pad4 (year dt) (pad2 (month dt) (pad2 (day dt) (sep "-"
    (pad2 (hour dt) (pad2 (minute dt) (pad2 (second dt) "")))))).

(** Exactly [n] decimal digits at the head of [s]. *)
Fixpoint digits (n : nat) (acc : Z) (s : string) : option (Z * string) :=
  match n with
  | O => Some (acc, s)
  | S n' =>
      match s with
      | String c s' =>
          match digit_of c with
          | Some d => digits n' (10 * acc + d) s'
          | None => None
          end
      | EmptyString => None
      end
  end.

Definition lit (c : ascii) (s : string) : option string :=
  match s with
  | String c' s' => if Ascii.eqb c c' then Some s' else None
  | EmptyString => None
  end.

Definition parse_ymd (s : string) : option (Z * Z * Z * string) :=
  '(y, s) ← digits 4 0 s; s ← lit "-" s;
  '(m, s) ← digits 2 0 s; s ← lit "-" s;
  '(d, s) ← digits 2 0 s; Some (y, m, d, s).

Definition parse_hms (s : string) : option (Z * Z * Z * string) :=
  '(h, s) ← digits 2 0 s; s ← lit ":" s;
  '(mi, s) ← digits 2 0 s; s ← lit ":" s;
  '(sec, s) ← digits 2 0 s; Some (h, mi, sec, s).

Definition valid_time (h mi s : Z) : bool :=
  (h <=? 23) && (mi <=? 59) && (s <=? 59).

(** [datetime.strptime(s, "%Y-%m-%d %H:%M:%S")] on zero-padded input;
    [None] is the [ValueError] of a string that does not match the format
    or names no calendar date. The shorter spellings that [strptime] also
    accepts (one-digit fields, runs of white space) are treated as not
    matching. *)
Definition strptime (s : string) : option datetime :=
  '(y, m, d, s) ← parse_ymd s; s ← lit " " s;
  '(h, mi, sec, s) ← parse_hms s;
  match s with
  | EmptyString =>
      if valid_date y m d && valid_time h mi sec then
        Some {| year := y; month := m; day := d;
                hour := h; minute := mi; second := sec |}
      else None
  | _ => None
  end.


(** All six fields within their Python ranges. *)
Definition valid_datetime (dt : datetime) : bool :=
  valid_date (year dt) (month dt) (day dt)
  && (0 <=? hour dt) && (0 <=? minute dt) && (0 <=? second dt)
  && valid_time (hour dt) (minute dt) (second dt).

(** A [YYYY-MM-DD] string naming a calendar date of the years 1 to 9999. *)
Definition well_formed_date (s : string) : bool :=
  match parse_ymd s with
  | Some (y, m, d, EmptyString) => valid_date y m d
  | _ => false
  end.

(** An [HH:MM:SS] string naming a time of day. *)
Definition well_formed_time (s : string) : bool :=
  match parse_hms s with
  | Some (h, mi, sec, EmptyString) => valid_time h mi sec
  | _ => false
  end.

End DateTime.

(** ** The reference time zone, as [pytz.timezone("Asia/Tokyo")] *)

Module Pytz.

Import DateTime.

Record ttinfo := {
  utcoffset : Z;
  dst : Z;
  tzname : string
}.

Definition LMT := {| utcoffset := 33540; dst := 0; tzname := "LMT" |}.
Definition JST := {| utcoffset := 32400; dst := 0; tzname := "JST" |}.
Definition JDT := {| utcoffset := 36000; dst := 3600; tzname := "JDT" |}.

(** [_utc_transition_times] zipped with [_transition_info], instants in
    epoch seconds, as the tz database gives them for Asia/Tokyo: summer
    time was observed from 1948 to 1951, each time from a Sunday 00:00
    standard time to a Sunday 01:00 summer time. Local mean time (rounded
    to the minute) applies before the first instant of the 32-bit table. *)
Definition transitions : list (Z * ttinfo) :=
  [ (-2147483648, JST);
    (-683802000, JDT); (-672310800, JST);
    (-654771600, JDT); (-640861200, JST);
    (-620298000, JDT); (-609411600, JST);
    (-588848400, JDT); (-577962000, JST) ].

(** [self._transition_info[max(0, bisect_right(times, t) - 1)]] *)
Fixpoint info_from (cur : ttinfo) (l : list (Z * ttinfo)) (t : Z) : ttinfo :=
  match l with
  | [] => cur
  | (t0, inf) :: l' => if t0 <=? t then info_from inf l' t else cur
  end.

Definition info_at (t : Z) : ttinfo := info_from LMT transitions t.

(** An aware datetime: wall-clock reading and the [tzinfo] attached. *)
Record aware := {
  wall : Z;
  tz : ttinfo
}.

Definition utc_of (a : aware) : Z := wall a - utcoffset (tz a).

(** [JST.fromutc(dt)] *)
Definition fromutc (utc : Z) : Outcome aware :=
  let inf := info_at utc in
  match add_seconds utc (utcoffset inf) with
  | Returns l => Returns {| wall := l; tz := inf |}
  | Raises e => Raises e
  end.

(** [tzinfo.normalize(dt.replace(tzinfo=tzinfo))] *)
Definition normalize (dt : Z) (inf : ttinfo) : Outcome aware :=
  match add_seconds dt (- utcoffset inf) with
  | Returns utc => fromutc utc
  | Raises e => Raises e
  end.

(** One round of the search for "possible" local times in [localize]:
    the [tzinfo] in force one day before or after is tried. *)
Definition candidate (dt delta : Z) : Outcome (option aware) :=
  match add_seconds dt delta with
  | Raises e => Raises e
  | Returns loc_dt =>
      match normalize dt (info_at loc_dt) with
      | Raises e => Raises e
      | Returns a => Returns (if wall a =? dt then Some a else None)
      end
  end.

(** The set [possible_loc_dt]; aware datetimes are equal when they denote
    the same instant. *)
Definition possible (c1 c2 : option aware) : list aware :=
  match c1, c2 with
  | Some a, Some b => if utc_of a =? utc_of b then [a] else [a; b]
  | Some a, None => [a]
  | None, Some b => [b]
  | None, None => []
  end.

Definition latest (a b : aware) : aware :=
  if utc_of a <? utc_of b then b else a.

(** [JST.localize(dt)] with the default [is_dst=False]; [depth] is the
    room left on the interpreter stack. *)
Fixpoint localize_rec (depth : nat) (dt : Z) : Outcome aware :=
  match depth with
  | O => Raises RecursionError
  | S depth' =>
      match candidate dt (-86400) with
      | Raises e => Raises e
      | Returns c1 =>
          match candidate dt 86400 with
          | Raises e => Raises e
          | Returns c2 =>
              match possible c1 c2 with
              | [a] => Returns a
              | [] =>
                  match add_seconds dt (-21600) with
                  | Raises e => Raises e
                  | Returns dt' =>
                      match localize_rec depth' dt' with
                      | Raises e => Raises e
                      | Returns a =>
                          match add_seconds (wall a) 21600 with
                          | Raises e => Raises e
                          | Returns l => Returns {| wall := l; tz := tz a |}
                          end
                      end
                  end
              | a :: b :: _ =>
                  match filter (fun p => dst (tz p) = 0) [a; b] with
                  | [p] => Returns p
                  | _ => Returns (latest a b)
                  end
              end
          end
      end
  end.

Definition localize (dt : Z) : Outcome aware := localize_rec 1000 dt.

(** [datetime.datetime.fromtimestamp(ts, JST)], [ts] a whole number of
    seconds. *)
Definition fromtimestamp (ts : Z) : Outcome aware :=
  if in_range ts then fromutc ts else Raises OverflowError.


(** 1902-01-01 00:00:00 on the naive time line; the table above is
    relied on from this reading onwards only. *)
Definition START : Z := -2145916800.

(** Wall-clock readings skipped when summer time starts. *)
Definition in_gap (L : Z) : bool :=
  existsb (fun t => (t + 32400 <=? L) && (L <? t + 36000))
    [-683802000; -654771600; -620298000; -588848400].

(** The four nights on which the clocks went from 00:00 to 01:00. *)
Definition summer_time_start (y m d : Z) : bool :=
  existsb (fun '(y', m', d') => (y =? y') && (m =? m') && (d =? d'))
    [(1948, 5, 2); (1949, 4, 3); (1950, 5, 7); (1951, 5, 6)].

(** The date and time strings [convert_datetime_to_timestamp] is stated
    for: from 1902 on, not the last day of year 9999 (where [localize]
    looks one day ahead) and not inside a skipped hour. *)
Definition in_window (date_str time_str : string) : bool :=
  match parse_ymd date_str, parse_hms time_str with
  | Some (y, m, d, _), Some (h, _, _, _) =>
      (1902 <=? y)
      && negb ((y =? 9999) && (m =? 12) && (d =? 31))
      && negb (summer_time_start y m d && (h =? 0))
  | _, _ => false
  end.

End Pytz.

(** ** [convert_datetime_to_timestamp] and its inverse

    The timestamp is a float in Python; it is a whole number of seconds
    well inside the range where floats are exact, and is kept as an
    integer here. A [ValueError] is turned into [None]; any other
    exception leaves the function. *)
Definition convert_datetime_to_timestamp (date_str time_str : string)
  : Outcome (option Z) :=
  match DateTime.strptime (date_str ++ " " ++ time_str) with
  | None => Returns None
  | Some dt_naive =>
      match Pytz.localize (DateTime.to_seconds dt_naive) with
      | Returns dt_jst => Returns (Some (Pytz.utc_of dt_jst))
      | Raises (ValueError _) => Returns None
      | Raises e => Raises e
      end
  end.

(** [datetime.fromtimestamp(ts, JST).strftime("%Y-%m-%d %H:%M:%S")], which
    is also what [fromtimestamp(ts, pytz.UTC).astimezone(JST)] formats to. *)
Definition readable_time (ts : Z) : Outcome string :=
  match Pytz.fromtimestamp ts with
  | Returns dt_jst => Returns (DateTime.strftime (DateTime.of_seconds (Pytz.wall dt_jst)))
  | Raises e => Raises e
  end.
Section Exporter.

Context {Client : Type} `{Transport Client}.

(** Three facts of the environment the exporter runs in: the order in
    which Python iterates over a set of strings, the whole seconds of the
    instant [float(ts)] denotes once [fromtimestamp] has rounded it to
    microseconds (or the exception raised on the way), and whether a file
    can be opened for writing. *)
Variable iter_order : gset string -> list string.
Variable float_seconds : string -> Outcome Z.
Variable writable : string -> bool.

Definition call_history (rq : HistoryRequest) : M Client HistoryResponse :=
  fun w =>
    let '(o, c) := conversations_history (client w) rq in
    (o, {| client := c; trace := trace w ++ [EvHistory rq]; disk := disk w |}).

Definition call_replies (channel ts : string) : M Client RepliesResponse :=
  fun w =>
    let '(o, c) := conversations_replies (client w) channel ts in
    (o, {| client := c; trace := trace w ++ [EvReplies channel ts]; disk := disk w |}).

Definition call_users_info (user : string) : M Client UsersInfoResponse :=
  fun w =>
    let '(o, c) := users_info (client w) user in
    (o, {| client := c; trace := trace w ++ [EvUsersInfo user]; disk := disk w |}).

(** ** History paginator: [fetch_messages_for_period] *)

(** The local variables the [while True] loop updates. *)
Record Locals := {
  all_messages : list RawMessage;
  cursor : option string
}.

(** How the [try] block of one iteration ends when nothing is raised. *)
Inductive Control := Next | Stop.

(** The arguments of [conversations_history]; the two bounds are passed
    as the numbers that [str(oldest_ts)] and [str(latest_ts)] print. *)
Definition history_request (channel_id : string) (oldest_ts latest_ts : Z)
    (st : Locals) : HistoryRequest :=
  {| rq_channel := channel_id; rq_limit := 200;
     rq_oldest := oldest_ts; rq_latest := latest_ts;
     rq_cursor := cursor st |}.

(** The [try] block. The locals are returned next to the outcome: what
    [all_messages.extend] appended before an exception stays appended. *)
Definition history_try (channel_id : string) (oldest_ts latest_ts : Z)
    (st : Locals) (w : World Client) : Locals * Outcome Control * World Client :=
  match call_history (history_request channel_id oldest_ts latest_ts st) w with
  | (Raises e, w1) => (st, Raises e, w1)
  | (Returns response, w1) =>
      if h_ok response then
        match h_messages response with
        | None => (st, Raises (KeyError "messages"), w1)
        | Some messages =>
            let st1 := {| all_messages := all_messages st ++ messages;
                          cursor := cursor st |} in
            if h_has_more response then
              match h_next_cursor response with
              | None => (st1, Raises (KeyError "next_cursor"), w1)
              | Some c =>
                  let st2 := {| all_messages := all_messages st1;
                                cursor := Some c |} in
                  match sleep 1 w1 with
                  | (Returns _, w2) => (st2, Returns Next, w2)
                  | (Raises e, w2) => (st2, Raises e, w2)
                  end
              end
            else (st1, Returns Stop, w1)
        end
      else
        match h_error response with
        | None => (st, Raises (KeyError "error"), w1)
        | Some _ => (st, Returns Stop, w1)
        end
  end.

(** One iteration: the [try] block followed by its two handlers. An
    exception raised inside a handler is not caught by the other one. *)
Definition history_iteration (channel_id : string) (oldest_ts latest_ts : Z)
    (st : Locals) (w : World Client) : Outcome (Control * Locals) * World Client :=
  match history_try channel_id oldest_ts latest_ts st w with
  | (st', Returns ctl, w') => (Returns (ctl, st'), w')
  | (st', Raises (SlackApiError r), w') =>
      if Py.truthy (e_retry_after r) then
        match Py.int (Py.get_default (e_retry_after r) "") with
        | None =>
            (Raises (ValueError "invalid literal for int() with base 10"), w')
        | Some retry_after =>
            match sleep retry_after w' with
            | (Returns _, w2) => (Returns (Next, st'), w2)
            | (Raises e, w2) => (Raises e, w2)
            end
        end
      else (Returns (Stop, st'), w')
  | (st', Raises _, w') => (Returns (Stop, st'), w')
  end.

(** The loop, with [fuel] bounding the iterations. The first component
    is [None] when the bound is reached while the loop is still running;
    the world is the one reached at that point. *)
Fixpoint history_loop (fuel : nat) (channel_id : string) (oldest_ts latest_ts : Z)
    (st : Locals) (w : World Client)
  : option (Outcome (list RawMessage)) * World Client :=
  match fuel with
  | O => (None, w)
  | S fuel' =>
      match history_iteration channel_id oldest_ts latest_ts st w with
      | (Returns (Next, st'), w') =>
          history_loop fuel' channel_id oldest_ts latest_ts st' w'
      | (Returns (Stop, st'), w') => (Some (Returns (all_messages st')), w')
      | (Raises e, w') => (Some (Raises e), w')
      end
  end.

(** The function from its [while True] on. The log lines before the loop
    format the two bounds as dates; [main] passes timestamps it has just
    formatted the same way, and they are left out here. *)
Definition fetch_messages_for_period (fuel : nat) (channel_id : string)
    (oldest_ts latest_ts : Z) (w : World Client)
  : option (Outcome (list RawMessage)) * World Client :=
  history_loop fuel channel_id oldest_ts latest_ts
    {| all_messages := []; cursor := None |} w.

(** ** Thread expander: [fetch_thread_messages] *)

Definition fetch_thread_messages (channel_id thread_ts : string)
  : M Client (list RawMessage) :=
  try_except
    (let* response := call_replies channel_id thread_ts in
     if r_ok response then
       match r_messages response with
       | Some messages => ret (drop 1 messages)
       | None => raise (KeyError "messages")
       end
     else ret [])
    (fun e =>
       match e with
       | SlackApiError _ => ret []
       | _ => raise e
       end).


(** ** Identity resolver: [fetch_user_info] *)

Definition Unknown_User : UserInfo :=
  {| name := ""; display_name := "Unknown User" |}.

Definition empty_profile : Profile :=
  {| p_real_name := None; p_display_name := None |}.

(** The [UserInfo] built from the [user] object of a successful lookup. *)
Definition user_info_of (user : User) : UserInfo :=
  let profile := Py.get_default (u_profile user) empty_profile in
  let user_name := Py.or_else (u_name user) "" in
  let display_name_val :=
    Py.or_else (p_real_name profile) (Py.or_else (p_display_name profile) "") in
  {| name := user_name; display_name := display_name_val |}.

(** The body of the [for] loop. Only [users_info] can raise a
    [SlackApiError], and it does so before the dictionary is touched. *)
Definition resolve_user (user_info : gmap string UserInfo) (user_id : string)
  : M Client (gmap string UserInfo) :=
  try_except
    (let* response := call_users_info user_id in
     let* user_info' :=
       (if ui_ok response then
          match ui_user response with
          | Some user => ret (<[user_id := user_info_of user]> user_info)
          | None => raise (KeyError "user")
          end
        else ret user_info) in
     let* _ := sleep 1 in
     ret user_info')
    (fun e =>
       match e with
       | SlackApiError _ => ret (<[user_id := Unknown_User]> user_info)
       | _ => raise e
       end).

Fixpoint fetch_user_info_from (user_info : gmap string UserInfo)
    (user_ids : list string) : M Client (gmap string UserInfo) :=
  match user_ids with
  | [] => ret user_info
  | user_id :: rest =>
      let* user_info' := resolve_user user_info user_id in
      fetch_user_info_from user_info' rest
  end.

(** [user_ids] is the set in the order the [for] loop visits it. *)
Definition fetch_user_info (user_ids : list string)
  : M Client (gmap string UserInfo) :=
  fetch_user_info_from ∅ user_ids.

(** ** Export assembler: [save_messages_to_file] *)

Definition user_of (msg : RawMessage) : string :=
  Py.get_default (m_user msg) "Unknown User".

(** [msg.get("thread_ts") and msg.get("thread_ts") == msg.get("ts")] *)
Definition is_thread_root (msg : RawMessage) : bool :=
  Py.truthy (m_thread_ts msg) && bool_decide (m_thread_ts msg = m_ts msg).

(** [fetch_thread_messages(client, channel_id, msg["ts"])] *)
Definition expand_thread (channel_id : string) (msg : RawMessage)
  : M Client (list RawMessage) :=
  match m_ts msg with
  | Some ts => fetch_thread_messages channel_id ts
  | None => raise (KeyError "ts")
  end.

Definition add_users (user_ids : gset string) (replies : list RawMessage)
  : gset string :=
  foldl (fun ids reply => ids ∪ {[ user_of reply ]}) user_ids replies.

(** First pass: the identifiers handed to [fetch_user_info]. *)
Fixpoint collect_user_ids (channel_id : string) (user_ids : gset string)
    (messages : list RawMessage) : M Client (gset string) :=
  match messages with
  | [] => ret user_ids
  | msg :: rest =>
      let user_ids1 := user_ids ∪ {[ user_of msg ]} in
      let* user_ids2 :=
        (if is_thread_root msg then
           let* thread_messages := expand_thread channel_id msg in
           ret (add_users user_ids1 thread_messages)
         else ret user_ids1) in
      collect_user_ids channel_id user_ids2 rest
  end.

Definition lift {A} (o : Outcome A) : M Client A :=
  fun w => (o, w).

(** [fromtimestamp(float(ts), pytz.UTC).astimezone(JST).strftime(...)] *)
Definition readable (ts : string) : M Client string :=
  let* seconds := lift (float_seconds ts) in
  lift (readable_time seconds).

Definition reply_data (reply : RawMessage) : M Client ThreadReply :=
  let* readable_time := readable (Py.get_default (m_ts reply) "0") in
  ret {| tr_timestamp := Py.get_default (m_ts reply) "";
         tr_readable_time := readable_time;
         tr_user := user_of reply;
         tr_text := Py.get_default (m_text reply) "" |}.

Fixpoint for_each {A B} (f : A -> M Client B) (l : list A) : M Client (list B) :=
  match l with
  | [] => ret []
  | x :: l' =>
      let* y := f x in
      let* ys := for_each f l' in
      ret (y :: ys)
  end.

Definition message_data (channel_id : string) (msg : RawMessage)
  : M Client SlackMessage :=
  let* thread_replies :=
    (if is_thread_root msg then
       let* thread_messages := expand_thread channel_id msg in
       for_each reply_data thread_messages
     else ret []) in
  let* readable_time := readable (Py.get_default (m_ts msg) "0") in
  ret {| sm_timestamp := Py.get_default (m_ts msg) "";
         sm_readable_time := readable_time;
         sm_user := user_of msg;
         sm_text := Py.get_default (m_text msg) "";
         sm_thread_replies := thread_replies |}.

(** Everything [save_messages_to_file] does before it opens the file. *)
Definition export_data (messages : list RawMessage) (channel_id : string)
    (start_date end_date : string) : M Client SlackExport :=
  let* user_ids := collect_user_ids channel_id ∅ messages in
  let* user_info := fetch_user_info (iter_order user_ids) in
  let* chat_data := for_each (message_data channel_id) (rev messages) in
  ret {| start_date := start_date; end_date := end_date;
         users := user_info; chat := chat_data |}.

(** [open(filename, "w")] followed by [json.dump]. *)
Definition write_file (filename : string) (doc : SlackExport) : M Client unit :=
  fun w =>
    if writable filename then
      (Returns tt, {| client := client w; trace := trace w;
                      disk := <[filename := doc]> (disk w) |})
    else (Raises (OSError "cannot open file"), w).

Definition save_messages_to_file (messages : list RawMessage)
    (channel_id filename start_date end_date : string) : M Client unit :=
  try_except
    (let* doc := export_data messages channel_id start_date end_date in
     write_file filename doc)
    (fun e =>
       match e with
       | OSError _ => ret tt
       | _ => raise e
       end).

(** ** Entry point *)

(** [now] is the clock reading, in epoch seconds, when the name is made. *)
Definition generate_output_filename (now : Z) (channel_id : string)
    (specified_output : option string) : Outcome string :=
  if Py.truthy specified_output then
    Returns (Py.get_default specified_output "")
  else
    match Pytz.fromtimestamp now with
    | Returns current_time =>
        Returns (channel_id ++ "-"
                 ++ DateTime.strftime_compact (DateTime.of_seconds (Pytz.wall current_time))
                 ++ ".json")%string
    | Raises e => Raises e
    end.

(** The parsed command line, after [parse_args] has filled in the end
    date. *)
Record Args := {
  arg_channel_id : string;
  arg_start_date : string;
  arg_end_date : string;
  arg_output : option string
}.

(** The [__main__] block; [fuel] bounds the iterations of the history
    loop as in [history_loop]. *)
Definition main (fuel : nat) (now : Z) (args : Args) (w : World Client)
  : option (Outcome unit) * World Client :=
  if String.eqb (arg_channel_id args) "" then (Some (Returns tt), w)
  else
    match convert_datetime_to_timestamp (arg_start_date args) "00:00:00",
          convert_datetime_to_timestamp (arg_end_date args) "23:59:59" with
    | Raises e, _ => (Some (Raises e), w)
    | Returns _, Raises e => (Some (Raises e), w)
    | Returns (Some oldest_timestamp), Returns (Some latest_timestamp) =>
        match readable_time oldest_timestamp, readable_time latest_timestamp with
        | Raises e, _ => (Some (Raises e), w)
        | Returns _, Raises e => (Some (Raises e), w)
        | Returns start_date_str, Returns end_date_str =>
            match fetch_messages_for_period fuel (arg_channel_id args)
                    oldest_timestamp latest_timestamp w with
            | (None, w1) => (None, w1)
            | (Some (Raises e), w1) => (Some (Raises e), w1)
            | (Some (Returns []), w1) => (Some (Returns tt), w1)
            | (Some (Returns all_messages), w1) =>
                match generate_output_filename now (arg_channel_id args)
                        (arg_output args) with
                | Raises e => (Some (Raises e), w1)
                | Returns output_filename =>
                    let '(o, w2) :=
                      save_messages_to_file all_messages (arg_channel_id args)
                        output_filename start_date_str end_date_str w1 in
                    (Some o, w2)
                end
            end
        end
    | Returns _, Returns _ => (Some (Returns tt), w)
    end.

(** A message whose timestamp the assembler can format. *)
Definition formattable (msg : RawMessage) : Prop :=
  exists seconds text,
    float_seconds (Py.get_default (m_ts msg) "0") = Returns seconds
    /\ readable_time seconds = Returns text.

(** A thread expansion that ends as the assembler provides for. *)
Definition replies_answered (o : Outcome RepliesResponse) : Prop :=
  match o with
  | Returns response =>
      r_ok response = false
      \/ exists messages,
           r_messages response = Some messages
           /\ Forall formattable (drop 1 messages)
  | Raises (SlackApiError _) => True
  | Raises _ => False
  end.

End Exporter.

(** ** A scripted client

    A client whose history responses are read off a list, one per call,
    and whose thread and user lookups are tables. *)

Record Scripted := {
  history_script : list (Outcome HistoryResponse);
  replies_table : string -> Outcome RepliesResponse;
  users_table : string -> Outcome UsersInfoResponse
}.

#[export] Instance scripted_transport : Transport Scripted := {
  conversations_history c rq :=
    match history_script c with
    | [] => (Raises (OtherError "ConnectionError"), c)
    | o :: rest =>
        (o, {| history_script := rest;
               replies_table := replies_table c;
               users_table := users_table c |})
    end;
  conversations_replies c channel ts := (replies_table c ts, c);
  users_info c user := (users_table c user, c)
}.

Definition start_world (c : Scripted) : World Scripted :=
  {| client := c; trace := []; disk := ∅ |}.

(** Worlds reached by one request or one sleep. *)
Definition after_request {Client} (w : World Client) (c : Client)
    (rq : HistoryRequest) : World Client :=
  {| client := c; trace := trace w ++ [EvHistory rq]; disk := disk w |}.

Definition after_replies {Client} (w : World Client) (c : Client)
    (channel ts : string) : World Client :=
  {| client := c; trace := trace w ++ [EvReplies channel ts]; disk := disk w |}.

Definition after_lookup {Client} (w : World Client) (c : Client)
    (user : string) : World Client :=
  {| client := c; trace := trace w ++ [EvUsersInfo user]; disk := disk w |}.

Definition after_sleep {Client} (w : World Client) (seconds : Z) : World Client :=
  {| client := client w; trace := trace w ++ [EvSleep seconds]; disk := disk w |}.

(** The entry a lookup leaves in the mapping, [prev] being what the
    mapping held for the identifier before. *)
Definition entry_after (o : Outcome UsersInfoResponse) (prev : option UserInfo)
  : option UserInfo :=
  match o with
  | Returns response =>
      if ui_ok response then
        match ui_user response with
        | Some user => Some (user_info_of user)
        | None => prev
        end
      else prev
  | Raises (SlackApiError _) => Some Unknown_User
  | Raises _ => prev
  end.

(** The outcomes the lookups of one batch get, in order. *)
Fixpoint lookups {Client} `{Transport Client} (c : Client) (user_ids : list string)
  : list (Outcome UsersInfoResponse) :=
  match user_ids with
  | [] => []
  | user_id :: rest =>
      let '(o, c') := users_info c user_id in
      o :: lookups c' rest
  end.

(** A lookup that ends as the resolver provides for: a response that is
    unsuccessful or carries the [user] object, or a [SlackApiError]. *)
Definition answered (o : Outcome UsersInfoResponse) : Prop :=
  match o with
  | Returns response => ui_ok response = false \/ is_Some (ui_user response)
  | Raises (SlackApiError _) => True
  | Raises _ => False
  end.

(** What a chat entry takes over from the raw message it is built from. *)
Definition emitted_from (msg : RawMessage) (entry : SlackMessage) : Prop :=
  sm_timestamp entry = Py.get_default (m_ts msg) ""
  /\ sm_user entry = Py.get_default (m_user msg) "Unknown User"
  /\ sm_text entry = Py.get_default (m_text msg) "".

Definition reply_emitted_from (reply : RawMessage) (entry : ThreadReply) : Prop :=
  tr_timestamp entry = Py.get_default (m_ts reply) ""
  /\ tr_user entry = Py.get_default (m_user reply) "Unknown User"
  /\ tr_text entry = Py.get_default (m_text reply) "".

(** ** Channel identifiers: [extract_channel_id] *)

Module Re.

(** [s] without its prefix [p], when it has it. *)
Fixpoint strip_prefix (p s : string) : option string :=
  match p, s with
  | EmptyString, _ => Some s
  | String a p', String b s' => if Ascii.eqb a b then strip_prefix p' s' else None
  | String _ _, EmptyString => None
  end.

(** The longest prefix of [s] made of characters of the class [f], and
    what follows it: a greedy [f+] or [f*]. *)
Fixpoint span (f : ascii -> bool) (s : string) : string * string :=
  match s with
  | String c s' =>
      if f c then let '(run, rest) := span f s' in (String c run, rest)
      else (EmptyString, s)
  | EmptyString => (EmptyString, EmptyString)
  end.

Fixpoint all (f : ascii -> bool) (s : string) : bool :=
  match s with
  | String c s' => f c && all f s'
  | EmptyString => true
  end.

(** The class [[^/]]. *)
Definition not_slash (c : ascii) : bool := negb (Ascii.eqb c "/").

(** The class [[A-Z0-9]]. *)
Definition upper_or_digit (c : ascii) : bool :=
  let n := N_of_ascii c in
  ((65 <=? n) && (n <=? 90) || (48 <=? n) && (n <=? 57))%N.

End Re.

(** [re.match(r"https://[^/]+/archives/([A-Z0-9]+)", channel_input)],
    giving group 1. The match is anchored at the start only. Each greedy
    class is followed by something no character of the class can match
    (a slash, or nothing), so the longest run is the only way to match.
    Strings are sequences of bytes here: a character outside ASCII is a
    run of bytes none of which is a slash, a capital or a digit, and
    matches as the character does. *)
Definition match_channel_url (channel_input : string) : option string :=
  match Re.strip_prefix "https://" channel_input with
  | None => None
  | Some s1 =>
      match Re.span Re.not_slash s1 with
      | (EmptyString, _) => None
      | (_, s2) =>
          match Re.strip_prefix "/archives/" s2 with
          | None => None
          | Some s3 =>
              match Re.span Re.upper_or_digit s3 with
              | (EmptyString, _) => None
              | (channel_id, _) => Some channel_id
              end
          end
      end
  end.

Definition extract_channel_id (channel_input : string) : string :=
  match match_channel_url channel_input with
  | Some channel_id => channel_id
  | None => channel_input
  end.

(** ** Concrete runs

    The environment and the scripted clients the examples below run in. *)

Definition elements_order (s : gset string) : list string := elements s.

(** [float_seconds] for timestamps written as whole numbers. *)
Definition whole_seconds (ts : string) : Outcome Z :=
  match Py.int ts with
  | Some z => Returns z
  | None => Raises (ValueError "could not convert string to float")
  end.

Definition always_writable (filename : string) : bool := true.

Definition raw (ts : string) : RawMessage :=
  {| m_ts := Some ts; m_user := None; m_text := None; m_thread_ts := None |}.

Definition no_replies (ts : string) : Outcome RepliesResponse :=
  Returns {| r_ok := true; r_messages := Some [] |}.

Definition no_users (user : string) : Outcome UsersInfoResponse :=
  Returns {| ui_ok := false; ui_user := None |}.

Definition history_only (script : list (Outcome HistoryResponse)) : Scripted :=
  {| history_script := script; replies_table := no_replies; users_table := no_users |}.

Definition page (messages : list RawMessage) (next : option string) : HistoryResponse :=
  {| h_ok := true; h_messages := Some messages;
     h_has_more := Py.truthy next; h_next_cursor := next; h_error := None |}.

(** Two pages, as in the repository's paginator test. *)
Definition two_page_client : Scripted :=
  history_only [Returns (page [raw "1"] (Some "cursor1")); Returns (page [raw "2"] None)].

Definition rate_limited (hint : option string) : exn :=
  SlackApiError {| e_error := "ratelimited"; e_retry_after := hint |}.

(** A rate limit with a hint of 30 seconds, then the only page. *)
Definition rate_limited_client : Scripted :=
  history_only [Raises (rate_limited (Some "30")); Returns (page [raw "1"] None)].

(** An API error without a [Retry-After] header. *)
Definition api_error_client : Scripted :=
  history_only [Raises (rate_limited None)].

(** A response that reports an error. *)
Definition not_ok_client : Scripted :=
  history_only [Returns {| h_ok := false; h_messages := None; h_has_more := false;
                           h_next_cursor := None; h_error := Some "channel_not_found" |}].

(** A [Retry-After] header in its HTTP-date form. *)
Definition http_date_client : Scripted :=
  history_only [Raises (rate_limited (Some "Wed, 21 Oct 2015 07:28:00 GMT"))].

(** A transport that fails on the first call. *)
Definition unreachable_client : Scripted := history_only [].

(** The thread of the repository's expander test: the root comes back
    first. *)
Definition thread_client : Scripted :=
  {| history_script := [];
     replies_table := fun ts =>
       Returns {| r_ok := true; r_messages := Some [raw ts; raw "r1"; raw "r2"] |};
     users_table := no_users |}.

Definition thread_not_ok_client : Scripted :=
  {| history_script := [];
     replies_table := fun ts => Returns {| r_ok := false; r_messages := None |};
     users_table := no_users |}.

Definition thread_error_client : Scripted :=
  {| history_script := [];
     replies_table := fun ts =>
       Raises (SlackApiError {| e_error := "error"; e_retry_after := None |});
     users_table := no_users |}.

Definition found (user : string) : UsersInfoResponse :=
  {| ui_ok := true;
     ui_user := Some {| u_name := Some ("name_" ++ user)%string;
                        u_profile := Some {| p_real_name := Some ("Real_" ++ user)%string;
                                             p_display_name := None |} |} |}.

(** The lookups of the repository's resolver test: [U_err] raises, every
    other identifier is found. *)
Definition users_client : Scripted :=
  {| history_script := [];
     replies_table := no_replies;
     users_table := fun user =>
       if String.eqb user "U_err"
       then Raises (SlackApiError {| e_error := "e"; e_retry_after := None |})
       else Returns (found user) |}.

(** A lookup answered with an unsuccessful response. *)
Definition user_not_found_client : Scripted :=
  {| history_script := [];
     replies_table := no_replies;
     users_table := fun user =>
       Returns {| ui_ok := false; ui_user := None |} |}.

(** The two messages of the repository's assembler test, the first a
    thread root with one reply; the reply and the second message carry no
    [user] field here. *)
Definition export_messages : list RawMessage :=
  [ {| m_ts := Some "100"; m_user := Some "U1"; m_text := Some "hello";
       m_thread_ts := Some "100" |};
    {| m_ts := Some "200"; m_user := None; m_text := Some "hi";
       m_thread_ts := None |} ].

Definition export_reply : RawMessage :=
  {| m_ts := Some "101"; m_user := None; m_text := Some "reply";
     m_thread_ts := Some "100" |}.

Definition export_client : Scripted :=
  {| history_script := [Returns (page export_messages None)];
     replies_table := fun ts =>
       Returns {| r_ok := true; r_messages := Some [raw ts; export_reply] |};
     users_table := fun user => Returns (found user) |}.

Definition export_args : Args :=
  {| arg_channel_id := "C123"; arg_start_date := "2023-01-01";
     arg_end_date := "2023-01-02"; arg_output := Some "out.json" |}.

(** What that export consists of, written out. *)
Definition export_chat : list SlackMessage :=
  [ {| sm_timestamp := "200"; sm_readable_time := "1970-01-01 09:03:20";
       sm_user := "Unknown User"; sm_text := "hi"; sm_thread_replies := [] |};
    {| sm_timestamp := "100"; sm_readable_time := "1970-01-01 09:01:40";
       sm_user := "U1"; sm_text := "hello";
       sm_thread_replies :=
         [ {| tr_timestamp := "101"; tr_readable_time := "1970-01-01 09:01:41";
              tr_user := "Unknown User"; tr_text := "reply" |} ] |} ].

Definition export_users : gmap string UserInfo :=
  <["Unknown User" := {| name := "name_Unknown User";
                         display_name := "Real_Unknown User" |}]>
    (<["U1" := {| name := "name_U1"; display_name := "Real_U1" |}]> ∅).

Definition export_doc : SlackExport :=
  {| start_date := "2023-01-01 00:00:00"; end_date := "2023-01-02 23:59:59";
     users := export_users; chat := export_chat |}.

Definition export_ids : gset string := {["U1"]} ∪ {["Unknown User"]}.

Definition world_with (c : Scripted) (events : list Event)
    (files : gmap string SlackExport) : World Scripted :=
  {| client := c; trace := events; disk := files |}.

(** A client whose history script has been used up. *)
Definition drained (c : Scripted) : Scripted :=
  {| history_script := []; replies_table := replies_table c;
     users_table := users_table c |}.

(** The locals and the request of a first iteration, and the worlds the
    export above goes through. *)
Definition first_locals : Locals := {| all_messages := []; cursor := None |}.

Definition first_request : HistoryRequest := history_request "C123" 0 10 first_locals.

Definition export_root : RawMessage :=
  {| m_ts := Some "100"; m_user := Some "U1"; m_text := Some "hello";
     m_thread_ts := Some "100" |}.

Definition export_second : RawMessage :=
  {| m_ts := Some "200"; m_user := None; m_text := Some "hi"; m_thread_ts := None |}.

Definition export_root_entry : SlackMessage :=
  {| sm_timestamp := "100"; sm_readable_time := "1970-01-01 09:01:40";
     sm_user := "U1"; sm_text := "hello";
     sm_thread_replies :=
       [ {| tr_timestamp := "101"; tr_readable_time := "1970-01-01 09:01:41";
            tr_user := "Unknown User"; tr_text := "reply" |} ] |}.

Definition after_collect : World Scripted :=
  world_with export_client [EvReplies "C123" "100"] ∅.

Definition after_lookups : World Scripted :=
  world_with export_client
    [EvReplies "C123" "100"; EvUsersInfo "U1"; EvSleep 1;
     EvUsersInfo "Unknown User"; EvSleep 1] ∅.

Definition after_export : World Scripted :=
  world_with export_client
    [EvReplies "C123" "100"; EvUsersInfo "U1"; EvSleep 1;
     EvUsersInfo "Unknown User"; EvSleep 1; EvReplies "C123" "100"] ∅.

(** The bounds of the run of the whole program: 2023-01-01 00:00:00 and
    2023-01-02 23:59:59 in Tokyo. *)
Definition run_oldest : Z := 1672498800.
Definition run_latest : Z := 1672671599.

Definition run_request : HistoryRequest :=
  history_request "C123" run_oldest run_latest first_locals.

Definition run_after_history : World Scripted :=
  world_with (drained export_client) [EvHistory run_request] ∅.

Definition run_after_export : World Scripted :=
  world_with (drained export_client)
    [EvHistory run_request;
     EvReplies "C123" "100"; EvUsersInfo "U1"; EvSleep 1;
     EvUsersInfo "Unknown User"; EvSleep 1; EvReplies "C123" "100"] ∅.

Definition run_unreachable : World Scripted :=
  world_with unreachable_client [EvHistory run_request] ∅.

(** ** What a run leaves in the trace *)

(** The events the history paginator may add: requests for the channel
    and the period it was called with, 200 messages a page, and sleeps. *)
Definition paginator_event (channel_id : string) (oldest_ts latest_ts : Z)
    (ev : Event) : Prop :=
  match ev with
  | EvHistory rq =>
      rq_channel rq = channel_id /\ rq_limit rq = 200
      /\ rq_oldest rq = oldest_ts /\ rq_latest rq = latest_ts
  | EvSleep seconds => 0 <= seconds
  | _ => False
  end.

(** Requests with a sleep between any two of them. *)
Fixpoint paced (events : list Event) : bool :=
  match events with
  | [] => true
  | [EvHistory _] => true
  | EvHistory _ :: EvSleep _ :: rest => paced rest
  | _ => false
  end.

(** The outcomes of a history request after which the loop goes round
    again: a page that announces another one and names its cursor, and a
    [SlackApiError] with a [Retry-After] header. *)
Definition continues (o : Outcome HistoryResponse) : bool :=
  match o with
  | Returns response =>
      h_ok response && bool_decide (is_Some (h_messages response))
      && h_has_more response && bool_decide (is_Some (h_next_cursor response))
  | Raises (SlackApiError r) => Py.truthy (e_retry_after r)
  | Raises _ => false
  end.

(** [Retry-After] headers that read as a number of seconds. *)
Definition numeric_hint (o : Outcome HistoryResponse) : Prop :=
  match o with
  | Raises (SlackApiError r) =>
      Py.truthy (e_retry_after r) = true ->
      exists n, Py.int (Py.get_default (e_retry_after r) "") = Some n /\ 0 <= n
  | _ => True
  end.

(** A successful response without its [messages]. *)
Definition no_messages_client : Scripted :=
  history_only [Returns {| h_ok := true; h_messages := None; h_has_more := false;
                           h_next_cursor := None; h_error := None |}].

(** A page that announces another one without naming its cursor. *)
Definition no_cursor_client : Scripted :=
  history_only [Returns {| h_ok := true; h_messages := Some [raw "1"];
                           h_has_more := true; h_next_cursor := None;
                           h_error := None |}].

(** A first page, then a transport that fails. *)
Definition page_then_failure_client : Scripted :=
  history_only [Returns (page [raw "1"] (Some "cursor1"))].

(** A server that answers every history request with a rate limit of
    one second. *)
Inductive Busy := busy.

#[export] Instance busy_transport : Transport Busy := {
  conversations_history c rq := (Raises (rate_limited (Some "1")), c);
  conversations_replies c channel ts := (Raises (OtherError "RuntimeError"), c);
  users_info c user := (Raises (OtherError "RuntimeError"), c)
}.

(** The locals after the first page of [two_page_client], and the client
    left to answer the second request. *)
Definition second_locals : Locals :=
  {| all_messages := [raw "1"]; cursor := Some "cursor1" |}.

Definition second_page_client : Scripted :=
  history_only [Returns (page [raw "2"] None)].

(** The responses a scripted client has left. *)
Definition responses_left (c : Scripted) : nat := length (history_script c).

(** Scripted clients whose rate limits all carry a numeric hint. *)
Definition numeric_hints (c : Scripted) : Prop :=
  Forall numeric_hint (history_script c).

(** What one lookup of the resolver adds to the trace: the request, and
    the one-second sleep that follows a response. *)
Definition lookup_events (user_id : string) (o : Outcome UsersInfoResponse)
  : list Event :=
  EvUsersInfo user_id ::
  match o with
  | Returns _ => [EvSleep 1]
  | Raises _ => []
  end.

(** A thread endpoint that is down, one that answers without [messages],
    and one that answers with an empty list. *)
Definition thread_down_client : Scripted :=
  {| history_script := [];
     replies_table := fun ts => Raises (OtherError "RuntimeError");
     users_table := no_users |}.

Definition thread_no_messages_client : Scripted :=
  {| history_script := [];
     replies_table := fun ts => Returns {| r_ok := true; r_messages := None |};
     users_table := no_users |}.

(** A user endpoint that finds [U1], answers for [U2] without the [user]
    object, and is down for everybody else. *)
Definition users_partly_down_client : Scripted :=
  {| history_script := [];
     replies_table := no_replies;
     users_table := fun user =>
       if String.eqb user "U1" then Returns (found user)
       else if String.eqb user "U2" then Returns {| ui_ok := true; ui_user := None |}
       else Raises (OtherError "RuntimeError") |}.

Definition found_U1 : gmap string UserInfo :=
  <["U1" := {| name := "name_U1"; display_name := "Real_U1" |}]> ∅.

Definition resolved_users : gmap string UserInfo :=
  <["U_err" := Unknown_User]> found_U1.

Definition after_U1 (c : Scripted) : World Scripted :=
  world_with c [EvUsersInfo "U1"; EvSleep 1] ∅.

(** The thread expansions and the user lookups among some events, in
    order. *)
Definition expansions (events : list Event) : list (string * string) :=
  omap (fun ev => match ev with
                  | EvReplies channel ts => Some (channel, ts)
                  | _ => None
                  end) events.

Definition looked_up (events : list Event) : list string :=
  omap (fun ev => match ev with
                  | EvUsersInfo user => Some user
                  | _ => None
                  end) events.

(** The timestamps of the thread roots among [messages], in order. *)
Definition thread_roots (messages : list RawMessage) : list string :=
  omap (fun msg => if is_thread_root msg then m_ts msg else None) messages.

(** A computation that leaves the files alone. *)
Definition keeps_disk {Client A} (m : M Client A) : Prop :=
  forall w, disk (snd (m w)) = disk w.

(** Scripted clients that answer thread and user requests as [c0]
    does. *)
Definition same_tables (c0 c : Scripted) : Prop :=
  replies_table c = replies_table c0 /\ users_table c = users_table c0.

(** A message without a timestamp. *)
Definition undated : RawMessage :=
  {| m_ts := None; m_user := Some "U1"; m_text := Some "hello";
     m_thread_ts := Some "100" |}.

(** No file can be opened. *)
Definition never_writable (filename : string) : bool := false.

(** A thread endpoint whose connection fails: in Python a
    [ConnectionError] is an [OSError]. *)
Definition thread_connection_client : Scripted :=
  {| history_script := [];
     replies_table := fun ts => Raises (OSError "connection failed");
     users_table := fun user => Returns (found user) |}.

(** ** Days *)

(** Dates from 1952 on, when summer time was over for good, other than
    the last day of the year 9999. *)
Definition after_summer_time (date_str : string) : bool :=
  match DateTime.parse_ymd date_str with
  | Some (y, m, d, _) =>
      (1952 <=? y) && negb ((y =? 9999) && (m =? 12) && (d =? 31))
  | None => false
  end.

(** The day number of a date, as [date.toordinal()] counts it. *)
Definition toordinal (date_str : string) : Z :=
  match DateTime.parse_ymd date_str with
  | Some (y, m, d, _) => DateTime.ymd2ord y m d
  | None => 0
  end.

(** The instants from which Tokyo has kept standard time without a
    break, up to the last one before the final day of the year 9999:
    1951-09-09 01:00:00 and 9999-12-30 23:59:59 on Tokyo's clocks. *)
Definition STANDARD_TIME : Z := -577958400.
Definition LAST_INSTANT : Z := 253402181999.

Definition standard_time (ts : Z) : bool :=
  (STANDARD_TIME <=? ts) && (ts <=? LAST_INSTANT).

(** * Properties *)

(** ** Dates, times and the reference time zone *)

Section DateTimeProps.

Import DateTime.

Lemma divmod_eq a b q r : 0 <= r < b -> a = b * q + r -> a / b = q /\ a mod b = r.
Proof.
  intros Hr ->. split.
  - symmetry. apply (Z.div_unique_pos _ _ q r); lia.
  - symmetry. apply (Z.mod_unique_pos _ _ q r); lia.
Qed.

Lemma year_digits y :
  1 <= y ->
  exists A B C E, 0 <= A /\ 0 <= B < 4 /\ 0 <= C < 25 /\ 0 <= E < 4 /\
    y = 400 * A + 100 * B + 4 * C + E + 1 /\
    days_before_year y = 146097 * A + 36524 * B + 1461 * C + 365 * E /\
    is_leap y = (E =? 3) && (negb (C =? 24) || (B =? 3)).
Proof.
  intros Hy.
  exists ((y - 1) / 400), ((y - 1) mod 400 / 100), ((y - 1) mod 100 / 4), ((y - 1) mod 4).
  unfold days_before_year, is_leap.
  Z.to_euclidean_division_equations.
  repeat split; lia.
Qed.

Lemma ord2ymd_spec A B C E r (leap := (E =? 3) && (negb (C =? 24) || (B =? 3))) m d :
  0 <= A -> 0 <= B < 4 -> 0 <= C < 25 -> 0 <= E < 4 ->
  1 <= m <= 12 -> 1 <= d <= DAYS_IN_MONTH m + (if (m =? 2) && leap then 1 else 0) ->
  r = DAYS_BEFORE_MONTH m + (if (2 <? m) && leap then 1 else 0) + d - 1 ->
  ord2ymd (146097 * A + 36524 * B + 1461 * C + 365 * E + r + 1)
  = (400 * A + 100 * B + 4 * C + E + 1, m, d).
Proof.
  intros HA HB HC HE Hm Hd Hr.
  assert (Hrb : 0 <= r <= 365 /\ (r = 365 -> leap = true /\ m = 12 /\ d = 31)).
  { assert (m = 1 \/ m = 2 \/ m = 3 \/ m = 4 \/ m = 5 \/ m = 6 \/ m = 7 \/ m = 8
            \/ m = 9 \/ m = 10 \/ m = 11 \/ m = 12) as Hcases by lia.
    destruct leap; simpl in *;
    repeat (destruct Hcases as [-> | Hcases]); try subst m; simpl in *; lia. }
  destruct Hrb as [Hrb Hlast].
  unfold ord2ymd, DI400Y, DI100Y, DI4Y. cbv zeta.
  destruct (divmod_eq (146097 * A + 36524 * B + 1461 * C + 365 * E + r + 1 - 1)
              146097 A (36524 * B + 1461 * C + 365 * E + r)) as [-> ->].
  { subst leap. destruct (Z.eq_dec r 365) as [Hr365 | ?]; [|lia].
    destruct (Hlast Hr365) as (Hl & _). lia. }
  { lia. }
  destruct (Z.eq_dec r 365) as [Hr365 | Hne].
  - destruct (Hlast Hr365) as (Hl & Hm12 & Hd31). subst leap.
    clear Hr Hd Hlast. subst m d r.
    assert (E = 3) as -> by lia.
    destruct (Z.eq_dec C 24) as [-> | HC24].
    + assert (B = 3) as -> by lia. simpl. f_equal. f_equal. Z.to_euclidean_division_equations; lia.
    + destruct (divmod_eq (36524 * B + 1461 * C + 365 * 3 + 365) 36524 B
                  (1461 * C + 365 * 3 + 365)) as [-> ->]; [lia | lia |].
      destruct (divmod_eq (1461 * C + 365 * 3 + 365) 1461 C (365 * 3 + 365))
        as [-> ->]; [lia | lia |].
      change ((365 * 3 + 365) / 365) with 4. simpl.
      f_equal. f_equal. lia.
  - destruct (divmod_eq (36524 * B + 1461 * C + 365 * E + r) 36524 B
                (1461 * C + 365 * E + r)) as [-> ->]; [lia | lia |].
    destruct (divmod_eq (1461 * C + 365 * E + r) 1461 C (365 * E + r))
      as [-> ->]; [lia | lia |].
    destruct (divmod_eq (365 * E + r) 365 E r) as [-> ->]; [lia | lia |].
    replace ((E =? 4) || (B =? 4)) with false by lia.
    fold leap. rewrite Z.shiftr_div_pow2 by lia. change (2 ^ 5) with 32.
    assert (m = 1 \/ m = 2 \/ m = 3 \/ m = 4 \/ m = 5 \/ m = 6 \/ m = 7 \/ m = 8
            \/ m = 9 \/ m = 10 \/ m = 11 \/ m = 12) as Hcases by lia.
    clear Hlast.
    destruct leap;
    repeat (destruct Hcases as [-> | Hcases]); try subst m; simpl in Hr, Hd;
    match goal with
    | |- context [(r + 50) / 32] =>
        let q := fresh "q" in let Hq := fresh "Hq" in
        remember ((r + 50) / 32) as q eqn:Hq;
        match goal with
        | |- (_, ?mm, _) = _ => idtac
        | _ => idtac
        end
    end.
    all: match goal with
         | Hq : ?q = (_ + 50) / 32 |- _ = (_, ?mm, _) =>
             assert (q = mm \/ q = mm + 1 /\ mm < 12) as [-> | [-> ?]]
               by (Z.to_euclidean_division_equations; lia)
         end; try lia; simpl;
         repeat match goal with
                | |- context [?a <? ?b] => destruct (Z.ltb_spec a b); try lia
                end; simpl; f_equal; try f_equal; lia.
Qed.


Import Pytz.

Lemma info_at_cases t :
  (t < -2147483648 /\ info_at t = LMT) \/
  (-2147483648 <= t < -683802000 /\ info_at t = JST) \/
  (-683802000 <= t < -672310800 /\ info_at t = JDT) \/
  (-672310800 <= t < -654771600 /\ info_at t = JST) \/
  (-654771600 <= t < -640861200 /\ info_at t = JDT) \/
  (-640861200 <= t < -620298000 /\ info_at t = JST) \/
  (-620298000 <= t < -609411600 /\ info_at t = JDT) \/
  (-609411600 <= t < -588848400 /\ info_at t = JST) \/
  (-588848400 <= t < -577962000 /\ info_at t = JDT) \/
  (-577962000 <= t /\ info_at t = JST).
Proof.
  unfold info_at, transitions, info_from.
  repeat match goal with
         | |- context [?a <=? ?b] => destruct (Z.leb_spec a b)
         end; try lia.
  all: intuition lia.
Qed.

Ltac split_info t :=
  let H := fresh "Hat" in
  destruct (info_at_cases t)
    as [[H ->] | [[H ->] | [[H ->] | [[H ->] | [[H ->] | [[H ->]
        | [[H ->] | [[H ->] | [[H ->] | [H ->]]]]]]]]]];
  try (exfalso; lia).

Lemma add_seconds_ok z d :
  MIN_SECONDS <= z + d <= MAX_SECONDS -> add_seconds z d = Returns (z + d).
Proof.
  intros Hr. unfold add_seconds, in_range.
  destruct (Z.leb_spec MIN_SECONDS (z + d)); [|lia].
  destruct (Z.leb_spec (z + d) MAX_SECONDS); [|lia]. reflexivity.
Qed.

Lemma utcoffset_bounds t : 32400 <= utcoffset (info_at t) <= 36000.
Proof. split_info t; simpl; lia. Qed.


Lemma candidate_eq L delta :
  START <= L <= MAX_SECONDS - 86400 -> -86400 <= delta <= 86400 ->
  candidate L delta =
  Returns (let inf := info_at (L + delta) in
           let inf' := info_at (L - utcoffset inf) in
           if utcoffset inf' =? utcoffset inf
           then Some {| wall := L; tz := inf' |} else None).
Proof.
  intros HL Hd. unfold candidate, normalize, fromutc, START, MAX_SECONDS, MIN_SECONDS in *.
  pose proof (utcoffset_bounds (L + delta)) as Hb.
  pose proof (utcoffset_bounds (L + - utcoffset (info_at (L + delta)))) as Hb'.
  rewrite add_seconds_ok by (unfold MAX_SECONDS, MIN_SECONDS; lia).
  rewrite add_seconds_ok by (unfold MAX_SECONDS, MIN_SECONDS; lia).
  rewrite add_seconds_ok by (unfold MAX_SECONDS, MIN_SECONDS; lia).
  cbv zeta. cbn [wall]. replace (L - utcoffset (info_at (L + delta))) with (L + - utcoffset (info_at (L + delta))) by lia.
  set (o := utcoffset (info_at (L + delta))) in *.
  set (inf' := info_at (L + - o)) in *.
  destruct (Z.eqb_spec (L + - o + utcoffset inf') L) as [He | Hne];
  destruct (Z.eqb_spec (utcoffset inf') o) as [He' | Hne']; try lia.
  - rewrite He. reflexivity.
  - reflexivity.
Qed.


Lemma localize_rec_fromutc depth L :
  START <= L <= MAX_SECONDS - 86400 -> in_gap L = false ->
  exists a, localize_rec (S depth) L = Returns a /\
            fromutc (utc_of a) = Returns a /\ wall a = L.
Proof.
  intros HL Hgap.
  assert (Hg : forall t, In t [-683802000; -654771600; -620298000; -588848400] ->
                         ~ (t + 32400 <= L < t + 36000)).
  { intros t Ht Hc. unfold in_gap in Hgap.
    assert (existsb (fun t => (t + 32400 <=? L) && (L <? t + 36000))
              [-683802000; -654771600; -620298000; -588848400] = true) as E.
    { apply existsb_exists. exists t. split; [exact Ht | lia]. }
    congruence. }
  pose proof (Hg _ (or_introl eq_refl)) as G1.
  pose proof (Hg _ (or_intror (or_introl eq_refl))) as G2.
  pose proof (Hg _ (or_intror (or_intror (or_introl eq_refl)))) as G3.
  pose proof (Hg _ (or_intror (or_intror (or_intror (or_introl eq_refl))))) as G4.
  clear Hg Hgap.
  cbn [localize_rec].
  rewrite !candidate_eq by lia. cbv zeta.
  unfold START, MAX_SECONDS in HL.
  split_info (L + -86400); split_info (L + 86400); cbn [utcoffset JST JDT LMT];
  try split_info (L - 32400); try split_info (L - 36000); cbn [utcoffset JST JDT LMT Z.eqb Pos.eqb possible utc_of wall tz];
  try split_info (L - 32400); try split_info (L - 36000); cbn [utcoffset JST JDT LMT Z.eqb Pos.eqb possible utc_of wall tz].
  all: unfold utc_of; cbn [wall tz utcoffset JST JDT LMT];
       repeat match goal with
              | |- context [?a =? ?b] => destruct (Z.eqb_spec a b); try lia
              end;
       cbn [filter list_filter]; unfold latest, utc_of; cbn [wall tz utcoffset dst JST JDT LMT];
       repeat match goal with
              | |- context [decide ?P] => destruct (decide P); try discriminate; try congruence
              | |- context [?a <? ?b] => destruct (Z.ltb_spec a b); try lia
              end;
       (eexists; split; [reflexivity | split; [ | reflexivity]]);
       unfold fromutc; cbn [wall tz utcoffset JST JDT LMT].
  all: match goal with
       | |- context [info_at ?t] => split_info t
       end; cbn [utcoffset JST JDT LMT];
       (rewrite add_seconds_ok by (unfold MIN_SECONDS, MAX_SECONDS; lia));
       f_equal; f_equal; lia.
Qed.

Lemma localize_fromtimestamp L :
  START <= L <= MAX_SECONDS - 86400 -> in_gap L = false ->
  exists a, localize L = Returns a /\
            fromtimestamp (utc_of a) = Returns a /\ wall a = L.
Proof.
  intros HL Hgap. unfold localize. change 1000%nat with (S 999).
  destruct (localize_rec_fromutc 999 L HL Hgap) as (a & H1 & H2 & H3).
  exists a. split; [exact H1 | split; [| exact H3]].
  unfold fromtimestamp, in_range.
  pose proof (utcoffset_bounds (utc_of a)) as Hb.
  unfold fromutc in H2.
  unfold START, MAX_SECONDS, MIN_SECONDS in *.
  assert (utc_of a + utcoffset (info_at (utc_of a)) = L) as Hw.
  { unfold add_seconds in H2.
    destruct (in_range (utc_of a + utcoffset (info_at (utc_of a)))); [|discriminate].
    injection H2 as H2. rewrite <- H3. rewrite <- H2 at 3. reflexivity. }
  destruct (Z.leb_spec (-62135596800) (utc_of a)); [|lia].
  destruct (Z.leb_spec (utc_of a) 253402300799); [|lia].
  exact H2.
Qed.

Lemma ord2ymd_ymd2ord y m d :
  valid_date y m d = true -> ord2ymd (ymd2ord y m d) = (y, m, d).
Proof.
  unfold valid_date. intros Hv.
  assert (1 <= y /\ 1 <= m <= 12 /\ 1 <= d <= days_in_month y m) as (Hy & Hm & Hd) by lia.
  destruct (year_digits y Hy) as (A & B & C & E & HA & HB & HC & HE & Hyeq & Hdby & Hleap).
  unfold ymd2ord, days_before_month. rewrite Hdby, Hleap.
  unfold days_in_month in Hd. rewrite Hleap in Hd.
  rewrite Hyeq at 1.
  replace (146097 * A + 36524 * B + 1461 * C + 365 * E +
           (DAYS_BEFORE_MONTH m +
            (if (2 <? m) && ((E =? 3) && (negb (C =? 24) || (B =? 3))) then 1 else 0)) + d)
    with (146097 * A + 36524 * B + 1461 * C + 365 * E +
          (DAYS_BEFORE_MONTH m +
            (if (2 <? m) && ((E =? 3) && (negb (C =? 24) || (B =? 3))) then 1 else 0)
           + d - 1) + 1) by lia.
  apply ord2ymd_spec; try lia.
  destruct ((m =? 2) && ((E =? 3) && (negb (C =? 24) || (B =? 3)))) eqn:E2.
  - assert (m = 2) as -> by lia. simpl. lia.
  - lia.
Qed.


Lemma of_seconds_to_seconds dt :
  valid_datetime dt = true -> of_seconds (to_seconds dt) = dt.
Proof.
  unfold valid_datetime, valid_time. intros Hv. destruct dt as [y m d h mi s]. simpl in Hv.
  destruct (valid_date y m d) eqn:Hd; [|discriminate]. simpl in Hv.
  assert (0 <= h <= 23 /\ 0 <= mi <= 59 /\ 0 <= s <= 59) as (Hh & Hmi & Hs) by lia.
  unfold of_seconds, to_seconds. cbn [year month day hour minute second].
  destruct (divmod_eq ((ymd2ord y m d - 719163) * 86400 + h * 3600 + mi * 60 + s)
              86400 (ymd2ord y m d - 719163) (h * 3600 + mi * 60 + s)) as [-> ->];
    [lia | lia |].
  replace (ymd2ord y m d - 719163 + 719163) with (ymd2ord y m d) by lia.
  rewrite (ord2ymd_ymd2ord _ _ _ Hd).
  destruct (divmod_eq (h * 3600 + mi * 60 + s) 3600 h (mi * 60 + s)) as [-> ->];
    [lia | lia |].
  destruct (divmod_eq (mi * 60 + s) 60 mi s) as [-> _]; [lia | lia |].
  destruct (divmod_eq (h * 3600 + mi * 60 + s) 60 (h * 60 + mi) s) as [_ ->];
    [lia | lia |].
  reflexivity.
Qed.

Lemma digit_of_inv c d :
  digit_of c = Some d -> c = digit_char d /\ 0 <= d <= 9.
Proof.
  intros Hd.
  destruct c as [[] [] [] [] [] [] [] []]; vm_compute in Hd;
    try discriminate; injection Hd as <-; (split; [reflexivity | lia]).
Qed.

Lemma digit_of_char d : 0 <= d <= 9 -> digit_of (digit_char d) = Some d.
Proof.
  intros Hd.
  assert (d = 0 \/ d = 1 \/ d = 2 \/ d = 3 \/ d = 4 \/ d = 5 \/ d = 6 \/ d = 7
          \/ d = 8 \/ d = 9) as Hc by lia.
  repeat (destruct Hc as [-> | Hc]); try subst d; reflexivity.
Qed.

Lemma digits_inv n : forall acc s v rest,
  digits n acc s = Some (v, rest) ->
  exists ds, length ds = n /\ Forall (fun d => 0 <= d <= 9) ds /\
    s = fold_right (fun d r => String (digit_char d) r) rest ds /\
    v = fold_left (fun a d => 10 * a + d) ds acc.
Proof.
  induction n as [|n IH]; intros acc s v rest Hd; simpl in Hd.
  - injection Hd as <- <-. exists []. repeat split; constructor.
  - destruct s as [|c s']; [discriminate|].
    destruct (digit_of c) as [d|] eqn:Hc; [|discriminate].
    apply digit_of_inv in Hc as [-> Hr].
    destruct (IH _ _ _ _ Hd) as (ds & Hl & Hf & -> & ->).
    exists (d :: ds). simpl. repeat split; try congruence. constructor; assumption.
Qed.

Lemma digits2_inv s v rest :
  digits 2 0 s = Some (v, rest) ->
  exists a b, 0 <= a <= 9 /\ 0 <= b <= 9 /\ v = 10 * a + b /\
    s = String (digit_char a) (String (digit_char b) rest).
Proof.
  intros Hd. apply digits_inv in Hd as (ds & Hl & Hf & -> & ->).
  destruct ds as [|a [|b [|? ?]]]; try discriminate.
  inversion Hf as [|? ? Ha Hf']; subst. inversion Hf' as [|? ? Hb _]; subst.
  exists a, b. simpl. repeat split; lia.
Qed.

Lemma digits4_inv s v rest :
  digits 4 0 s = Some (v, rest) ->
  exists a b c d, 0 <= a <= 9 /\ 0 <= b <= 9 /\ 0 <= c <= 9 /\ 0 <= d <= 9 /\
    v = 1000 * a + 100 * b + 10 * c + d /\
    s = String (digit_char a) (String (digit_char b)
          (String (digit_char c) (String (digit_char d) rest))).
Proof.
  intros Hd. apply digits_inv in Hd as (ds & Hl & Hf & -> & ->).
  destruct ds as [|a [|b [|c [|d [|? ?]]]]]; try discriminate.
  inversion Hf as [|? ? Ha Hf1]; subst. inversion Hf1 as [|? ? Hb Hf2]; subst.
  inversion Hf2 as [|? ? Hc Hf3]; subst. inversion Hf3 as [|? ? Hd _]; subst.
  exists a, b, c, d. simpl. repeat split; lia.
Qed.

Lemma lit_inv c s rest : lit c s = Some rest -> s = String c rest.
Proof.
  destruct s as [|c' s']; simpl; [discriminate|].
  destruct (Ascii.eqb_spec c c'); [|discriminate]. intros [= ->]. congruence.
Qed.

Lemma pad2_digits a b rest :
  0 <= a <= 9 -> 0 <= b <= 9 ->
  pad2 (10 * a + b) rest = String (digit_char a) (String (digit_char b) rest).
Proof.
  intros Ha Hb. unfold pad2.
  destruct (divmod_eq (10 * a + b) 10 a b) as [-> ->]; [lia | lia |].
  rewrite Z.mod_small by lia. reflexivity.
Qed.

Lemma pad4_digits a b c d rest :
  0 <= a <= 9 -> 0 <= b <= 9 -> 0 <= c <= 9 -> 0 <= d <= 9 ->
  pad4 (1000 * a + 100 * b + 10 * c + d) rest
  = String (digit_char a) (String (digit_char b)
      (String (digit_char c) (String (digit_char d) rest))).
Proof.
  intros Ha Hb Hc Hd. unfold pad4, pad2.
  destruct (divmod_eq (1000 * a + 100 * b + 10 * c + d) 1000 a (100 * b + 10 * c + d))
    as [-> _]; [lia | lia |].
  destruct (divmod_eq (1000 * a + 100 * b + 10 * c + d) 100 (10 * a + b) (10 * c + d))
    as [-> _]; [lia | lia |].
  destruct (divmod_eq (1000 * a + 100 * b + 10 * c + d) 10 (100 * a + 10 * b + c) d)
    as [-> ->]; [lia | lia |].
  destruct (divmod_eq (10 * a + b) 10 a b) as [_ ->]; [lia | lia |].
  destruct (divmod_eq (100 * a + 10 * b + c) 10 (10 * a + b) c) as [_ ->]; [lia | lia |].
  rewrite Z.mod_small by lia. reflexivity.
Qed.





Lemma parse_ymd_inv s y m d :
  parse_ymd s = Some (y, m, d, EmptyString) ->
  s = pad4 y (sep "-" (pad2 m (sep "-" (pad2 d "")))) /\
  0 <= y /\ 0 <= m /\ 0 <= d.
Proof.
  unfold parse_ymd. intros Hp.
  destruct (digits 4 0 s) as [[y' s1]|] eqn:H1; [|discriminate]. cbn [mbind option_bind] in Hp.
  destruct (lit "-" s1) as [s2|] eqn:H2; [|discriminate]. cbn [mbind option_bind] in Hp.
  destruct (digits 2 0 s2) as [[m' s3]|] eqn:H3; [|discriminate]. cbn [mbind option_bind] in Hp.
  destruct (lit "-" s3) as [s4|] eqn:H4; [|discriminate]. cbn [mbind option_bind] in Hp.
  destruct (digits 2 0 s4) as [[d' s5]|] eqn:H5; [|discriminate]. cbn [mbind option_bind] in Hp.
  injection Hp as -> -> -> ->.
  apply digits4_inv in H1 as (a & b & c & e & Ha & Hb & Hc & He & -> & ->).
  apply lit_inv in H2 as ->.
  apply digits2_inv in H3 as (a1 & b1 & Ha1 & Hb1 & -> & ->).
  apply lit_inv in H4 as ->.
  apply digits2_inv in H5 as (a2 & b2 & Ha2 & Hb2 & -> & ->).
  rewrite pad4_digits, !pad2_digits by lia. unfold sep.
  repeat split; lia.
Qed.

Lemma parse_hms_inv s h mi sec :
  parse_hms s = Some (h, mi, sec, EmptyString) ->
  s = pad2 h (sep ":" (pad2 mi (sep ":" (pad2 sec "")))) /\
  0 <= h /\ 0 <= mi /\ 0 <= sec.
Proof.
  unfold parse_hms. intros Hp.
  destruct (digits 2 0 s) as [[y' s1]|] eqn:H1; [|discriminate]. cbn [mbind option_bind] in Hp.
  destruct (lit ":" s1) as [s2|] eqn:H2; [|discriminate]. cbn [mbind option_bind] in Hp.
  destruct (digits 2 0 s2) as [[m' s3]|] eqn:H3; [|discriminate]. cbn [mbind option_bind] in Hp.
  destruct (lit ":" s3) as [s4|] eqn:H4; [|discriminate]. cbn [mbind option_bind] in Hp.
  destruct (digits 2 0 s4) as [[d' s5]|] eqn:H5; [|discriminate]. cbn [mbind option_bind] in Hp.
  injection Hp as -> -> -> ->.
  apply digits2_inv in H1 as (a & b & Ha & Hb & -> & ->).
  apply lit_inv in H2 as ->.
  apply digits2_inv in H3 as (a1 & b1 & Ha1 & Hb1 & -> & ->).
  apply lit_inv in H4 as ->.
  apply digits2_inv in H5 as (a2 & b2 & Ha2 & Hb2 & -> & ->).
  rewrite !pad2_digits by lia. unfold sep.
  repeat split; lia.
Qed.

Lemma append_String c s t : (String c s ++ t)%string = String c (s ++ t)%string.
Proof. reflexivity. Qed.

Lemma parse_ymd_app s y m d rest :
  parse_ymd s = Some (y, m, d, EmptyString) ->
  parse_ymd (s ++ rest) = Some (y, m, d, rest).
Proof.
  unfold parse_ymd. intros Hp.
  destruct (digits 4 0 s) as [[y' s1]|] eqn:H1; [|discriminate]. cbn [mbind option_bind] in Hp.
  destruct (lit "-" s1) as [s2|] eqn:H2; [|discriminate]. cbn [mbind option_bind] in Hp.
  destruct (digits 2 0 s2) as [[m' s3]|] eqn:H3; [|discriminate]. cbn [mbind option_bind] in Hp.
  destruct (lit "-" s3) as [s4|] eqn:H4; [|discriminate]. cbn [mbind option_bind] in Hp.
  destruct (digits 2 0 s4) as [[d' s5]|] eqn:H5; [|discriminate]. cbn [mbind option_bind] in Hp.
  injection Hp as -> -> -> ->.
  apply digits4_inv in H1 as (a & b & c & e & Ha & Hb & Hc & He & -> & ->).
  apply lit_inv in H2 as ->.
  apply digits2_inv in H3 as (a1 & b1 & Ha1 & Hb1 & -> & ->).
  apply lit_inv in H4 as ->.
  apply digits2_inv in H5 as (a2 & b2 & Ha2 & Hb2 & -> & ->).
  rewrite !append_String. cbn [digits lit mbind option_bind].
  rewrite !digit_of_char by lia. cbn [digits lit mbind option_bind].
  rewrite Ascii.eqb_refl. cbn [digits lit mbind option_bind].
  rewrite !digit_of_char by lia. cbn [digits lit mbind option_bind].
  rewrite Ascii.eqb_refl. cbn [digits lit mbind option_bind].
  rewrite !digit_of_char by lia. cbn [digits lit mbind option_bind].
  repeat f_equal; lia.
Qed.

Lemma strptime_well_formed d t y m dd h mi s :
  parse_ymd d = Some (y, m, dd, EmptyString) ->
  parse_hms t = Some (h, mi, s, EmptyString) ->
  valid_date y m dd = true -> valid_time h mi s = true ->
  strptime (d ++ " " ++ t)
  = Some {| year := y; month := m; day := dd; hour := h; minute := mi; second := s |}.
Proof.
  intros Hd Ht Hvd Hvt. unfold strptime.
  rewrite (parse_ymd_app _ _ _ _ _ Hd). cbn [mbind option_bind].
  change (" " ++ t)%string with (String " " t). cbn [lit].
  rewrite Ascii.eqb_refl. cbn [mbind option_bind].
  rewrite Ht. cbn [mbind option_bind]. rewrite Hvd, Hvt. reflexivity.
Qed.

Lemma strftime_well_formed d t y m dd h mi s :
  parse_ymd d = Some (y, m, dd, EmptyString) ->
  parse_hms t = Some (h, mi, s, EmptyString) ->
  strftime {| year := y; month := m; day := dd; hour := h; minute := mi; second := s |}
  = (d ++ " " ++ t)%string.
Proof.
  intros Hd Ht.
  apply parse_ymd_inv in Hd as (-> & _). apply parse_hms_inv in Ht as (-> & _).
  reflexivity.
Qed.

Lemma days_before_year_mono y y' :
  1 <= y <= y' -> days_before_year y <= days_before_year y'.
Proof.
  intros Hy. unfold days_before_year. cbv zeta.
  assert ((y - 1) / 4 <= (y' - 1) / 4) by (apply Z.div_le_mono; lia).
  assert ((y - 1) / 400 <= (y' - 1) / 400) by (apply Z.div_le_mono; lia).
  assert ((y' - 1) / 100 - (y - 1) / 100 <= y' - y)
    by (Z.to_euclidean_division_equations; lia).
  lia.
Qed.

Lemma ymd2ord_bounds y m d :
  valid_date y m d = true ->
  days_before_year y + 1 <= ymd2ord y m d <= days_before_year (y + 1)
  /\ (ymd2ord y m d = days_before_year (y + 1) -> m = 12 /\ d = 31).
Proof.
  unfold valid_date, ymd2ord, days_before_month, days_in_month. intros Hv.
  assert (days_before_year (y + 1)
          = days_before_year y + 365 + (if is_leap y then 1 else 0)) as ->.
  { unfold days_before_year, is_leap. cbv zeta.
    replace (y + 1 - 1) with y by lia.
    destruct (Z.eqb_spec (y mod 4) 0); destruct (Z.eqb_spec (y mod 100) 0);
      destruct (Z.eqb_spec (y mod 400) 0); cbn [andb orb negb];
      Z.to_euclidean_division_equations; lia. }
  assert (m = 1 \/ m = 2 \/ m = 3 \/ m = 4 \/ m = 5 \/ m = 6 \/ m = 7 \/ m = 8
          \/ m = 9 \/ m = 10 \/ m = 11 \/ m = 12) as Hc by lia.
  destruct (is_leap y);
    repeat (destruct Hc as [-> | Hc]); try subst m; simpl in *; lia.
Qed.

Lemma valid_datetime_fields dt :
  valid_datetime dt = true ->
  valid_date (year dt) (month dt) (day dt) = true /\
  0 <= hour dt <= 23 /\ 0 <= minute dt <= 59 /\ 0 <= second dt <= 59.
Proof.
  unfold valid_datetime, valid_time. intros Hv.
  destruct (valid_date (year dt) (month dt) (day dt)); [|discriminate].
  simpl in Hv. split; [reflexivity | lia].
Qed.

Lemma window_range dt :
  valid_datetime dt = true -> 1902 <= year dt ->
  ~ (year dt = 9999 /\ month dt = 12 /\ day dt = 31) ->
  START <= to_seconds dt <= MAX_SECONDS - 86400.
Proof.
  intros Hv Hy Hlast.
  destruct (valid_datetime_fields dt Hv) as (Hd & Hh & Hmi & Hs).
  destruct (ymd2ord_bounds _ _ _ Hd) as (Hb & Heq).
  assert (year dt <= 9999) as Hy' by (unfold valid_date in Hd; lia).
  pose proof (days_before_year_mono 1902 (year dt) ltac:(lia)) as Hlo.
  pose proof (days_before_year_mono (year dt + 1) 10000 ltac:(lia)) as Hhi.
  change (days_before_year 1902) with 694325 in Hlo.
  change (days_before_year 10000) with 3652059 in Hhi.
  unfold to_seconds, START, MAX_SECONDS.
  assert (ymd2ord (year dt) (month dt) (day dt) <= 3652058).
  { destruct (Z.eq_dec (ymd2ord (year dt) (month dt) (day dt))
                (days_before_year (year dt + 1))) as [E | NE]; [|lia].
    destruct (Heq E) as [Hm Hdd].
    destruct (Z.eq_dec (year dt) 9999) as [E9 | N9]; [tauto|].
    pose proof (days_before_year_mono (year dt + 1) 9999 ltac:(lia)) as Hhi'.
    change (days_before_year 9999) with 3651694 in Hhi'. lia. }
  lia.
Qed.

Lemma window_gap dt :
  valid_datetime dt = true -> in_gap (to_seconds dt) = true ->
  summer_time_start (year dt) (month dt) (day dt) = true /\ hour dt = 0.
Proof.
  intros Hv Hg.
  destruct (valid_datetime_fields dt Hv) as (Hd & Hh & Hmi & Hs).
  pose proof (ord2ymd_ymd2ord _ _ _ Hd) as Hinv.
  unfold in_gap in Hg. apply existsb_exists in Hg as (t & Hin & Ht).
  unfold to_seconds in Ht.
  set (o := ymd2ord (year dt) (month dt) (day dt)) in *.
  simpl in Hin.
  destruct Hin as [<- | [<- | [<- | [<- | []]]]].
  - assert (o = 711249) as Ho by lia. rewrite Ho in Hinv.
    injection Hinv as <- <- <-. split; [reflexivity | lia].
  - assert (o = 711585) as Ho by lia. rewrite Ho in Hinv.
    injection Hinv as <- <- <-. split; [reflexivity | lia].
  - assert (o = 711984) as Ho by lia. rewrite Ho in Hinv.
    injection Hinv as <- <- <-. split; [reflexivity | lia].
  - assert (o = 712348) as Ho by lia. rewrite Ho in Hinv.
    injection Hinv as <- <- <-. split; [reflexivity | lia].
Qed.

Lemma valid_datetime_parsed d t y m dd h mi s :
  parse_ymd d = Some (y, m, dd, EmptyString) ->
  parse_hms t = Some (h, mi, s, EmptyString) ->
  valid_date y m dd = true -> valid_time h mi s = true ->
  valid_datetime
    {| year := y; month := m; day := dd; hour := h; minute := mi; second := s |} = true.
Proof.
  intros Hd Ht Hvd Hvt. apply parse_hms_inv in Ht as (_ & Hh & Hmi & Hs).
  unfold valid_datetime. cbn [year month day hour minute second].
  rewrite Hvd, Hvt. lia.
Qed.




End DateTimeProps.

Local Open Scope list_scope.

(** ** History paginator *)

Section PaginatorProps.

Context {Client : Type} `{Transport Client}.

Variables (channel_id : string) (oldest_ts latest_ts : Z).

Local Abbreviation request := (history_request channel_id oldest_ts latest_ts).
Local Abbreviation iteration := (history_iteration channel_id oldest_ts latest_ts).
Local Abbreviation loop := (fun fuel => history_loop fuel channel_id oldest_ts latest_ts).

Lemma sleep_ok (seconds : Z) (w : World Client) :
  0 <= seconds -> sleep seconds w = (Returns tt, after_sleep w seconds).
Proof.
  intros Hs. unfold sleep. destruct (Z.ltb_spec seconds 0); [lia | reflexivity].
Qed.

(** A page of a successful response that announces more pages. *)
Lemma iteration_more st w response c messages next :
  conversations_history (client w) (request st) = (Returns response, c) ->
  h_ok response = true -> h_messages response = Some messages ->
  h_has_more response = true -> h_next_cursor response = Some next ->
  iteration st w
  = (Returns (Next, {| all_messages := all_messages st ++ messages;
                       cursor := Some next |}),
     after_sleep (after_request w c (request st)) 1).
Proof.
  intros Hc Hok Hm Hmore Hn.
  unfold history_iteration, history_try, call_history.
  rewrite Hc, Hok, Hm, Hmore, Hn. reflexivity.
Qed.

(** The last page. *)
Lemma iteration_last st w response c messages :
  conversations_history (client w) (request st) = (Returns response, c) ->
  h_ok response = true -> h_messages response = Some messages ->
  h_has_more response = false ->
  iteration st w
  = (Returns (Stop, {| all_messages := all_messages st ++ messages;
                       cursor := cursor st |}),
     after_request w c (request st)).
Proof.
  intros Hc Hok Hm Hmore.
  unfold history_iteration, history_try, call_history.
  rewrite Hc, Hok, Hm, Hmore. reflexivity.
Qed.

(** A response that reports an error ends the loop with the locals
    untouched. *)
Lemma iteration_not_ok st w response c :
  conversations_history (client w) (request st) = (Returns response, c) ->
  h_ok response = false ->
  iteration st w = (Returns (Stop, st), after_request w c (request st)).
Proof.
  intros Hc Hok.
  unfold history_iteration, history_try, call_history.
  rewrite Hc, Hok. destruct (h_error response); reflexivity.
Qed.

(** So does a [SlackApiError] without a usable [Retry-After] header. *)
Lemma iteration_api_error st w r c :
  conversations_history (client w) (request st) = (Raises (SlackApiError r), c) ->
  Py.truthy (e_retry_after r) = false ->
  iteration st w = (Returns (Stop, st), after_request w c (request st)).
Proof.
  intros Hc Hr.
  unfold history_iteration, history_try, call_history.
  rewrite Hc, Hr. reflexivity.
Qed.

(** And any exception of another class. *)
Lemma iteration_unexpected st w e c :
  conversations_history (client w) (request st) = (Raises e, c) ->
  (forall r, e <> SlackApiError r) ->
  iteration st w = (Returns (Stop, st), after_request w c (request st)).
Proof.
  intros Hc He.
  unfold history_iteration, history_try, call_history.
  rewrite Hc. destruct e; try reflexivity. exfalso. eapply He. reflexivity.
Qed.

(** A rate limit with a hint of [n] seconds: the locals are the ones the
    iteration started from. *)
Lemma iteration_rate_limited st w r c hint n :
  conversations_history (client w) (request st) = (Raises (SlackApiError r), c) ->
  e_retry_after r = Some hint -> hint <> "" ->
  Py.int hint = Some n -> 0 <= n ->
  iteration st w
  = (Returns (Next, st), after_sleep (after_request w c (request st)) n).
Proof.
  intros Hc Hr Hne Hint Hn.
  unfold history_iteration, history_try, call_history.
  rewrite Hc, Hr. cbn [Py.truthy Py.get_default].
  destruct (String.eqb_spec hint ""); [contradiction|]. cbn [negb].
  rewrite Hint, sleep_ok by exact Hn. reflexivity.
Qed.

(** Every iteration starts by sending the request of its locals. *)
Lemma iteration_trace st w :
  exists rest, trace (snd (iteration st w))
               = trace w ++ EvHistory (request st) :: rest.
Proof.
  unfold history_iteration, history_try, call_history, sleep, emit, raise.
  destruct (conversations_history (client w) (request st)) as [[response|e] c].
  - destruct (h_ok response); [|destruct (h_error response); eexists; reflexivity].
    destruct (h_messages response); [|eexists; reflexivity].
    destruct (h_has_more response); [|eexists; reflexivity].
    destruct (h_next_cursor response); [|eexists; reflexivity].
    cbn. rewrite <- app_assoc. eexists. reflexivity.
  - destruct e; try (eexists; reflexivity).
    destruct (Py.truthy (e_retry_after r)); [|eexists; reflexivity].
    destruct (Py.int _) as [n|]; [|eexists; reflexivity].
    destruct (n <? 0); cbn; [eexists; reflexivity|].
    rewrite <- app_assoc. eexists. reflexivity.
Qed.

Lemma loop_trace fuel : forall st w,
  exists rest, trace (snd (loop fuel st w)) = trace w ++ rest.
Proof.
  induction fuel as [|fuel IH]; intros st w; cbn [history_loop].
  - exists []. cbn. symmetry. apply app_nil_r.
  - destruct (iteration_trace st w) as [rest Hrest].
    destruct (iteration st w) as [[[[] st']|e] w']; cbn [snd] in *.
    + destruct (IH st' w') as [rest' Hrest'].
      rewrite Hrest', Hrest, <- app_assoc. eexists. reflexivity.
    + eexists. exact Hrest.
    + eexists. exact Hrest.
Qed.

Lemma loop_first_request fuel st w :
  exists rest, trace (snd (loop (S fuel) st w))
               = trace w ++ EvHistory (request st) :: rest.
Proof.
  cbn [history_loop].
  destruct (iteration_trace st w) as [rest Hrest].
  destruct (iteration st w) as [[[[] st']|e] w']; cbn [snd] in *;
    try (eexists; exact Hrest).
  destruct (loop_trace fuel st' w') as [rest' Hrest'].
  rewrite Hrest', Hrest, <- app_assoc. cbn. eexists. reflexivity.
Qed.


(** Supporting fact for the paginator's error policy: an exception of any
    class other than [SlackApiError] ends the loop, and the caller gets
    the messages accumulated so far. *)
Lemma unexpected_error_returns_accumulated fuel st w e c :
  conversations_history (client w) (request st) = (Raises e, c) ->
  (forall r, e <> SlackApiError r) ->
  loop (S fuel) st w
  = (Some (Returns (all_messages st)), after_request w c (request st)).
Proof.
  intros Hc He. cbn [history_loop].
  rewrite (iteration_unexpected st w e c Hc He). reflexivity.
Qed.

(** Supporting fact: the only exceptions that leave the paginator come
    from a [Retry-After] header that does not read as a non-negative
    number of seconds. With a transport whose hints all do, no run of the
    loop ends in an exception. *)
Lemma numeric_hints_never_raise :
  (forall c rq r c',
      conversations_history c rq = (Raises (SlackApiError r), c') ->
      Py.truthy (e_retry_after r) = true ->
      exists n, Py.int (Py.get_default (e_retry_after r) "") = Some n /\ 0 <= n) ->
  forall fuel st w e, fst (loop fuel st w) <> Some (Raises e).
Proof.
  intros Hhint.
  assert (forall st w e, fst (iteration st w) <> Raises e) as Hit.
  { intros st w e.
    unfold history_iteration, history_try, call_history.
    destruct (conversations_history (client w) (request st)) as [[response|e0] c] eqn:Hc.
    - destruct (h_ok response); [|destruct (h_error response); discriminate].
      destruct (h_messages response); [|discriminate].
      destruct (h_has_more response); [|discriminate].
      destruct (h_next_cursor response); [|discriminate].
      rewrite sleep_ok by lia. discriminate.
    - destruct e0; try discriminate.
      destruct (Py.truthy (e_retry_after r)) eqn:Ht; [|discriminate].
      destruct (Hhint _ _ _ _ Hc Ht) as (n & -> & Hn).
      rewrite sleep_ok by exact Hn. discriminate. }
  induction fuel as [|fuel IHf]; intros st w e; cbn [history_loop]; [discriminate|].
  specialize (Hit st w).
  destruct (iteration st w) as [[[[] st']|e0] w']; cbn [fst] in *.
  - apply IHf.
  - discriminate.
  - exfalso. apply (Hit e0). reflexivity.
Qed.

(** Supporting fact: a hint that is not a number leaves the paginator as
    a [ValueError], whatever has been accumulated. *)
Lemma malformed_hint_propagates fuel st w r c :
  conversations_history (client w) (request st) = (Raises (SlackApiError r), c) ->
  Py.truthy (e_retry_after r) = true ->
  Py.int (Py.get_default (e_retry_after r) "") = None ->
  loop (S fuel) st w
  = (Some (Raises (ValueError "invalid literal for int() with base 10")),
     after_request w c (request st)).
Proof.
  intros Hc Ht Hint. cbn [history_loop].
  unfold history_iteration, history_try, call_history.
  rewrite Hc, Ht, Hint. reflexivity.
Qed.

(** Supporting fact: so does a negative hint, from [time.sleep]. *)
Lemma negative_hint_propagates fuel st w r c n :
  conversations_history (client w) (request st) = (Raises (SlackApiError r), c) ->
  Py.truthy (e_retry_after r) = true ->
  Py.int (Py.get_default (e_retry_after r) "") = Some n -> n < 0 ->
  loop (S fuel) st w
  = (Some (Raises (ValueError "sleep length must be non-negative")),
     after_request w c (request st)).
Proof.
  intros Hc Ht Hint Hn. cbn [history_loop].
  unfold history_iteration, history_try, call_history, sleep.
  rewrite Hc, Ht, Hint. destruct (Z.ltb_spec n 0); [reflexivity | lia].
Qed.


End PaginatorProps.

(** ** Thread expander *)

Section ExpanderProps.

Context {Client : Type} `{Transport Client}.


End ExpanderProps.

(** ** Identity resolver *)

Section ResolverProps.

Context {Client : Type} `{Transport Client}.

Lemma resolve_user_error user_info user_id (w : World Client) r c :
  users_info (client w) user_id = (Raises (SlackApiError r), c) ->
  resolve_user user_info user_id w
  = (Returns (<[user_id := Unknown_User]> user_info), after_lookup w c user_id).
Proof.
  intros Hc. unfold resolve_user, try_except, bind, call_users_info.
  rewrite Hc. reflexivity.
Qed.

Lemma resolve_user_found user_info user_id (w : World Client) response user c :
  users_info (client w) user_id = (Returns response, c) ->
  ui_ok response = true -> ui_user response = Some user ->
  resolve_user user_info user_id w
  = (Returns (<[user_id := user_info_of user]> user_info),
     after_sleep (after_lookup w c user_id) 1).
Proof.
  intros Hc Hok Hu. unfold resolve_user, try_except, bind, call_users_info.
  rewrite Hc, Hok, Hu. reflexivity.
Qed.

Lemma resolve_user_not_ok user_info user_id (w : World Client) response c :
  users_info (client w) user_id = (Returns response, c) ->
  ui_ok response = false ->
  resolve_user user_info user_id w
  = (Returns user_info, after_sleep (after_lookup w c user_id) 1).
Proof.
  intros Hc Hok. unfold resolve_user, try_except, bind, call_users_info.
  rewrite Hc, Hok. reflexivity.
Qed.

(** One answered lookup: the loop goes on, with the entry the outcome
    calls for. *)
Lemma resolve_user_answered user_info user_id (w : World Client) o c :
  users_info (client w) user_id = (o, c) -> answered o ->
  exists user_info' w',
    resolve_user user_info user_id w = (Returns user_info', w')
    /\ client w' = c
    /\ user_info' !! user_id = entry_after o (user_info !! user_id)
    /\ forall k, k <> user_id -> user_info' !! k = user_info !! k.
Proof.
  intros Hc Ha. destruct o as [response | e].
  - destruct (ui_ok response) eqn:Hok.
    + destruct Ha as [Ha | [user Hu]]; [congruence|].
      eexists _, _. split; [eapply resolve_user_found; eassumption|].
      cbn [entry_after]. rewrite Hok, Hu.
      split; [reflexivity|]. split; [apply lookup_insert_eq|].
      intros k Hk. apply lookup_insert_ne. congruence.
    + eexists _, _. split; [eapply resolve_user_not_ok; eassumption|].
      cbn [entry_after]. rewrite Hok. repeat split; reflexivity.
  - destruct e; try contradiction.
    eexists _, _. split; [eapply resolve_user_error; eassumption|].
    split; [reflexivity|]. split; [apply lookup_insert_eq|].
    intros k Hk. apply lookup_insert_ne. congruence.
Qed.

Lemma fetch_user_info_from_spec user_ids : forall user_info (w : World Client),
  NoDup user_ids ->
  Forall answered (lookups (client w) user_ids) ->
  exists result w',
    fetch_user_info_from user_info user_ids w = (Returns result, w')
    /\ (forall k, k ∉ user_ids -> result !! k = user_info !! k)
    /\ forall i user_id o,
         user_ids !! i = Some user_id ->
         lookups (client w) user_ids !! i = Some o ->
         result !! user_id = entry_after o (user_info !! user_id).
Proof.
  induction user_ids as [|u rest IH]; intros user_info w Hnd Hall.
  - exists user_info, w. split; [reflexivity|]. split; [reflexivity|].
    intros i user_id o Hi. rewrite lookup_nil in Hi. discriminate.
  - cbn [lookups] in Hall |- *.
    destruct (users_info (client w) u) as [o c] eqn:Hc.
    apply Forall_cons in Hall as [Ha Hall].
    apply NoDup_cons in Hnd as [Hnotin Hnd].
    destruct (resolve_user_answered user_info u w o c Hc Ha)
      as (ui1 & w1 & Hres & Hcl & Hu & Hother).
    rewrite <- Hcl in Hall.
    destruct (IH ui1 w1 Hnd Hall) as (result & w' & Hrun & Hkeep & Hrest).
    exists result, w'. split.
    { cbn [fetch_user_info_from]. unfold bind. rewrite Hres. exact Hrun. }
    split.
    { intros k Hk. rewrite Hkeep by set_solver. apply Hother. set_solver. }
    intros [|i] user_id o' Hi Ho; cbn in Hi, Ho.
    + injection Hi as <-. injection Ho as <-.
      rewrite Hkeep by exact Hnotin. exact Hu.
    + rewrite Hcl in Hrest. rewrite (Hrest i user_id o' Hi Ho).
      rewrite Hother; [reflexivity|].
      intros ->. apply Hnotin. eapply list_elem_of_lookup_2. exact Hi.
Qed.


(** Supporting fact: an identifier whose lookup returns an unsuccessful
    response gets no entry at all. *)
Lemma unsuccessful_lookup_leaves_no_entry user_ids (w : World Client) i user_id response :
  NoDup user_ids ->
  Forall answered (lookups (client w) user_ids) ->
  user_ids !! i = Some user_id ->
  lookups (client w) user_ids !! i = Some (Returns response) ->
  ui_ok response = false ->
  exists user_info w',
    fetch_user_info user_ids w = (Returns user_info, w')
    /\ user_info !! user_id = None.
Proof.
  intros Hnd Hall Hi Ho Hok.
  destruct (fetch_user_info_from_spec user_ids ∅ w Hnd Hall)
    as (result & w' & Hrun & _ & Hspec).
  exists result, w'. split; [exact Hrun|].
  rewrite (Hspec i user_id _ Hi Ho). cbn [entry_after]. rewrite Hok.
  apply lookup_empty.
Qed.

End ResolverProps.

(** ** Export assembler *)

Section AssemblerProps.

Context {Client : Type} `{Transport Client}.

Variable iter_order : gset string -> list string.
Hypothesis iter_order_perm : forall s, iter_order s ≡ₚ elements s.
Variable float_seconds : string -> Outcome Z.

Variable channel_id : string.

Local Abbreviation message_data' := (message_data float_seconds channel_id).
Local Abbreviation reply_data' := (@reply_data Client float_seconds).
Local Abbreviation collect := (@collect_user_ids Client _ channel_id).

Lemma for_each_Forall2 {A B} (f : A -> M Client B) (R : A -> B -> Prop) :
  (forall x w y w', f x w = (Returns y, w') -> R x y) ->
  forall l w ys w', for_each f l w = (Returns ys, w') -> Forall2 R l ys.
Proof.
  intros Hf. induction l as [|x l IH]; intros w ys w' Hrun; cbn in Hrun.
  - injection Hrun as <- _. constructor.
  - unfold bind in Hrun.
    destruct (f x w) as [[y|e] w1] eqn:Hx; [|discriminate].
    destruct (for_each f l w1) as [[ys'|e] w2] eqn:Hl; [|discriminate].
    injection Hrun as <- _. constructor; [eapply Hf; eassumption|].
    eapply IH; eassumption.
Qed.

Lemma reply_data_emitted reply (w : World Client) entry w' :
  reply_data' reply w = (Returns entry, w') -> reply_emitted_from reply entry.
Proof.
  unfold reply_data, bind, ret. intros Hrun.
  destruct (readable _ _ w) as [[t|e] w1]; [|discriminate].
  injection Hrun as <- _. repeat split.
Qed.

Lemma message_data_emitted msg (w : World Client) entry w' :
  message_data' msg w = (Returns entry, w') -> emitted_from msg entry.
Proof.
  unfold message_data, bind, ret. intros Hrun.
  destruct (is_thread_root msg).
  - destruct (expand_thread channel_id msg w) as [[replies|e] w1]; [|discriminate].
    destruct (for_each _ replies w1) as [[rs|e] w2]; [|discriminate].
    destruct (readable _ _ w2) as [[t|e] w3]; [|discriminate].
    injection Hrun as <- _. repeat split.
  - destruct (readable _ _ w) as [[t|e] w3]; [|discriminate].
    injection Hrun as <- _. repeat split.
Qed.

(** The replies of an entry are built, in order, from what the thread
    expansion made for this entry returned. *)
Lemma message_data_replies msg (w : World Client) entry w' :
  message_data' msg w = (Returns entry, w') ->
  if is_thread_root msg then
    exists replies w1,
      expand_thread channel_id msg w = (Returns replies, w1)
      /\ Forall2 reply_emitted_from replies (sm_thread_replies entry)
  else sm_thread_replies entry = [].
Proof.
  unfold message_data, bind, ret. intros Hrun.
  destruct (is_thread_root msg).
  - destruct (expand_thread channel_id msg w) as [[replies|e] w1]; [|discriminate].
    destruct (for_each _ replies w1) as [[rs|e] w2] eqn:Hrs; [|discriminate].
    destruct (readable _ _ w2) as [[t|e] w3]; [|discriminate].
    injection Hrun as <- _. exists replies, w1. split; [reflexivity|].
    cbn. eapply for_each_Forall2; [|exact Hrs].
    intros. eapply reply_data_emitted. eassumption.
  - destruct (readable _ _ w) as [[t|e] w3]; [|discriminate].
    injection Hrun as <- _. reflexivity.
Qed.

Lemma export_data_chat messages start_date end_date (w : World Client) doc w' :
  export_data iter_order float_seconds messages channel_id start_date end_date w
    = (Returns doc, w') ->
  exists w1 w2,
    for_each message_data' (rev messages) w1 = (Returns (chat doc), w2).
Proof.
  unfold export_data, bind, ret. intros Hrun.
  destruct (collect_user_ids channel_id ∅ messages w) as [[ids|e] w1]; [|discriminate].
  destruct (fetch_user_info _ w1) as [[info|e] w2]; [|discriminate].
  destruct (for_each _ (rev messages) w2) as [[entries|e] w3] eqn:Hch; [|discriminate].
  injection Hrun as <- _. exists w2, w3. exact Hch.
Qed.

Lemma export_data_emitted messages start_date end_date (w : World Client) doc w' :
  export_data iter_order float_seconds messages channel_id start_date end_date w
    = (Returns doc, w') ->
  Forall2 emitted_from (rev messages) (chat doc).
Proof.
  intros Hrun. destruct (export_data_chat _ _ _ _ _ _ Hrun) as (w1 & w2 & Hch).
  eapply for_each_Forall2; [|exact Hch].
  intros. eapply message_data_emitted. eassumption.
Qed.

(** C7. The chat array of an assembled document has one entry per raw
    top-level message, and its entries are built from the raw messages
    taken in the reverse of the order in which they were received. *)
Theorem chat_is_reversed_messages messages start_date end_date (w : World Client) doc w' :
  export_data iter_order float_seconds messages channel_id start_date end_date w
    = (Returns doc, w') ->
  length (chat doc) = length messages
  /\ Forall2 emitted_from (rev messages) (chat doc).
Proof.
  intros Hrun. pose proof (export_data_emitted _ _ _ _ _ _ Hrun) as HF.
  split; [|exact HF].
  apply Forall2_length in HF. rewrite length_rev in HF. congruence.
Qed.

Lemma add_users_spec replies : forall user_ids k,
  k ∈ add_users user_ids replies
  <-> k ∈ user_ids \/ exists reply, reply ∈ replies /\ k = user_of reply.
Proof.
  unfold add_users.
  induction replies as [|r replies IHr]; intros user_ids k; cbn [foldl].
  - split; [auto|]. intros [Hk | (reply & Hin & _)]; [exact Hk|].
    apply elem_of_nil in Hin. contradiction.
  - rewrite IHr. split.
    + intros [Hk | (reply & Hin & ->)].
      * apply elem_of_union in Hk as [Hk | Hk]; [auto|].
        apply elem_of_singleton in Hk as ->. right. exists r. split; [left|reflexivity].
      * right. exists reply. split; [right; exact Hin | reflexivity].
    + intros [Hk | (reply & Hin & ->)].
      * left. apply elem_of_union. left. exact Hk.
      * apply elem_of_cons in Hin as [-> | Hin].
        { left. apply elem_of_union. right. apply elem_of_singleton. reflexivity. }
        right. exists reply. auto.
Qed.

Lemma collect_app pre : forall post user_ids (w : World Client),
  collect user_ids (pre ++ post) w
  = match collect user_ids pre w with
    | (Returns ids1, w1) => collect ids1 post w1
    | (Raises e, w1) => (Raises e, w1)
    end.
Proof.
  induction pre as [|msg pre IH]; intros post user_ids w; [reflexivity|].
  cbn [app collect_user_ids]. unfold bind.
  destruct (is_thread_root msg).
  - destruct (expand_thread channel_id msg w) as [[replies|e] w1]; [|reflexivity].
    cbn. apply IH.
  - cbn. apply IH.
Qed.

Lemma collect_grows messages : forall user_ids (w : World Client) ids w',
  collect user_ids messages w = (Returns ids, w') ->
  user_ids ⊆ ids /\ forall msg, msg ∈ messages -> user_of msg ∈ ids.
Proof.
  induction messages as [|msg messages IHm]; intros user_ids w ids w' Hrun.
  - injection Hrun as <- _. split; [reflexivity|].
    intros msg Hin. apply elem_of_nil in Hin. contradiction.
  - cbn [collect_user_ids] in Hrun. unfold bind in Hrun.
    destruct (is_thread_root msg).
    + destruct (expand_thread channel_id msg w) as [[replies|e] w1]; [|discriminate].
      cbn in Hrun. destruct (IHm _ _ _ _ Hrun) as [Hsub Hall].
      assert (user_ids ∪ {[user_of msg]} ⊆ ids) as Hsub'.
      { intros k Hk. apply Hsub. apply add_users_spec. left. exact Hk. }
      split.
      { intros k Hk. apply Hsub', elem_of_union. left. exact Hk. }
      intros m Hin. apply elem_of_cons in Hin as [-> | Hin]; [|auto].
      apply Hsub', elem_of_union. right. apply elem_of_singleton. reflexivity.
    + cbn in Hrun. destruct (IHm _ _ _ _ Hrun) as [Hsub Hall].
      split.
      { intros k Hk. apply Hsub, elem_of_union. left. exact Hk. }
      intros m Hin. apply elem_of_cons in Hin as [-> | Hin]; [|auto].
      apply Hsub, elem_of_union. right. apply elem_of_singleton. reflexivity.
Qed.

(** The authors of the replies a thread expansion returned during the
    first pass are in the collected set. *)
Lemma collect_reply_users pre msg post (w : World Client) ids1 w1 replies w2 ids w' :
  collect ∅ pre w = (Returns ids1, w1) ->
  is_thread_root msg = true ->
  expand_thread channel_id msg w1 = (Returns replies, w2) ->
  collect ∅ (pre ++ msg :: post) w = (Returns ids, w') ->
  forall reply, reply ∈ replies -> user_of reply ∈ ids.
Proof.
  intros Hpre Hroot Hexp Hrun reply Hin.
  rewrite collect_app, Hpre in Hrun.
  cbn [collect_user_ids] in Hrun. unfold bind in Hrun.
  rewrite Hroot, Hexp in Hrun. cbn in Hrun.
  destruct (collect_grows _ _ _ _ _ Hrun) as [Hsub _].
  apply Hsub. apply add_users_spec. right. exists reply. auto.
Qed.

Lemma in_iter_order (ids : gset string) k : k ∈ ids -> k ∈ iter_order ids.
Proof.
  intros Hk. rewrite (iter_order_perm ids). apply elem_of_elements. exact Hk.
Qed.


(** Every identifier of a batch that was resolved has been looked up. *)
Lemma fetch_user_info_from_looks_up user_ids : forall user_info (w : World Client) result w',
  fetch_user_info_from user_info user_ids w = (Returns result, w') ->
  (forall ev, ev ∈ trace w -> ev ∈ trace w')
  /\ forall user_id, user_id ∈ user_ids -> EvUsersInfo user_id ∈ trace w'.
Proof.
  induction user_ids as [|u rest IHu]; intros user_info w result w' Hrun.
  - injection Hrun as _ <-. split; [auto|].
    intros user_id Hin. apply elem_of_nil in Hin. contradiction.
  - cbn [fetch_user_info_from] in Hrun. unfold bind in Hrun.
    destruct (resolve_user user_info u w) as [[ui1|e] w1] eqn:Hres; [|discriminate].
    destruct (IHu _ _ _ _ Hrun) as [Hkeep Hrest].
    assert (forall ev, ev ∈ trace w ++ [EvUsersInfo u] -> ev ∈ trace w1) as Hstep.
    { unfold resolve_user, try_except, bind, call_users_info, sleep, emit, ret, raise
        in Hres.
      destruct (users_info (client w) u) as [[response|e] c].
      - destruct (ui_ok response); [destruct (ui_user response)|];
          cbn in Hres; try discriminate; injection Hres as _ <-; cbn;
          intros ev Hev; apply elem_of_app; left; exact Hev.
      - destruct e; cbn in Hres; try discriminate.
        injection Hres as _ <-. cbn. auto. }
    split.
    + intros ev Hev. apply Hkeep, Hstep, elem_of_app. left. exact Hev.
    + intros user_id Hin. apply elem_of_cons in Hin as [-> | Hin]; [|auto].
      apply Hkeep, Hstep, elem_of_app. right. left.
Qed.

(** C10. A top-level message or a thread reply without a [user] field
    puts the string "Unknown User" into the identifiers handed to the
    resolver, which looks it up like any identifier, and the record
    emitted for it carries "Unknown User" as its user. *)
Theorem missing_user_is_unknown_user messages start_date end_date (w : World Client) :
  (forall ids w1,
      collect ∅ messages w = (Returns ids, w1) ->
      export_data iter_order float_seconds messages channel_id start_date end_date w
      = (let* user_info := fetch_user_info (iter_order ids) in
         let* chat_data := for_each message_data' (rev messages) in
         ret {| start_date := start_date; end_date := end_date;
                users := user_info; chat := chat_data |}) w1
      /\ (forall msg, msg ∈ messages -> m_user msg = None ->
                      "Unknown User" ∈ iter_order ids)
      /\ (forall pre msg post ids0 w0 replies w0' reply,
             messages = pre ++ msg :: post ->
             collect ∅ pre w = (Returns ids0, w0) ->
             is_thread_root msg = true ->
             expand_thread channel_id msg w0 = (Returns replies, w0') ->
             reply ∈ replies -> m_user reply = None ->
             "Unknown User" ∈ iter_order ids)
      /\ (forall user_info w2,
             fetch_user_info (iter_order ids) w1 = (Returns user_info, w2) ->
             "Unknown User" ∈ iter_order ids ->
             EvUsersInfo "Unknown User" ∈ trace w2))
  /\ (forall doc w',
        export_data iter_order float_seconds messages channel_id start_date end_date w
          = (Returns doc, w') ->
        Forall2 (fun msg entry => m_user msg = None -> sm_user entry = "Unknown User")
          (rev messages) (chat doc))
  /\ (forall msg wi entry wi' replies w1,
        message_data' msg wi = (Returns entry, wi') ->
        is_thread_root msg = true ->
        expand_thread channel_id msg wi = (Returns replies, w1) ->
        Forall2 (fun reply r => m_user reply = None -> tr_user r = "Unknown User")
          replies (sm_thread_replies entry)).
Proof.
  split; [|split].
  - intros ids w1 Hcol. split; [|split; [|split]].
    + unfold export_data, bind at 1. rewrite Hcol. reflexivity.
    + intros msg Hin Hu. apply in_iter_order.
      destruct (collect_grows _ _ _ _ _ Hcol) as [_ Hall].
      specialize (Hall msg Hin). unfold user_of in Hall. rewrite Hu in Hall. exact Hall.
    + intros pre msg post ids0 w0 replies w0' reply -> Hpre Hroot Hexp Hin Hu.
      apply in_iter_order.
      pose proof (collect_reply_users _ _ _ _ _ _ _ _ _ _ Hpre Hroot Hexp Hcol reply Hin)
        as Hr.
      unfold user_of in Hr. rewrite Hu in Hr. exact Hr.
    + intros user_info w2 Hrun Hin.
      eapply fetch_user_info_from_looks_up; eassumption.
  - intros doc w' Hrun.
    eapply Forall2_impl; [exact (export_data_emitted _ _ _ _ _ _ Hrun)|].
    intros msg entry (_ & Hu & _) Hnone. rewrite Hu, Hnone. reflexivity.
  - intros msg wi entry wi' replies w1 Hrun Hroot Hexp.
    pose proof (message_data_replies _ _ _ _ Hrun) as Hrep. rewrite Hroot in Hrep.
    destruct Hrep as (replies' & w1' & Hexp' & HF).
    rewrite Hexp in Hexp'. injection Hexp' as <- _.
    eapply Forall2_impl; [exact HF|].
    intros reply r (_ & Hu & _) Hnone. rewrite Hu, Hnone. reflexivity.
Qed.

End AssemblerProps.

(** ** The assembler produces a document

    The assembler raises when a thread expansion or a lookup raises
    something other than a [SlackApiError], when a response lacks the key
    read from it, or when a timestamp cannot be formatted. For a client
    that, in every state it can reach, does none of this, a document is
    always assembled. *)

Section AssemblerReturns.

Context {Client : Type} `{Transport Client}.

Variable iter_order : gset string -> list string.
Variable float_seconds : string -> Outcome Z.
Variable channel_id : string.

(** The states the client can be in. *)
Variable reachable : Client -> Prop.

Local Abbreviation formattable := (formattable float_seconds).
Local Abbreviation replies_answered := (replies_answered float_seconds).

Hypothesis replies_reachable : forall c channel ts,
  reachable c -> reachable (snd (conversations_replies c channel ts)).
Hypothesis users_reachable : forall c user,
  reachable c -> reachable (snd (users_info c user)).
Hypothesis replies_behave : forall c channel ts,
  reachable c -> replies_answered (fst (conversations_replies c channel ts)).
Hypothesis users_behave : forall c user,
  reachable c -> answered (fst (users_info c user)).

Lemma expand_thread_returns msg (w : World Client) :
  reachable (client w) -> is_thread_root msg = true ->
  exists replies w',
    expand_thread channel_id msg w = (Returns replies, w')
    /\ reachable (client w') /\ Forall formattable replies.
Proof.
  intros Hr Hroot. unfold is_thread_root in Hroot.
  apply andb_true_iff in Hroot as [Ht Heq]. apply bool_decide_eq_true in Heq.
  destruct (m_thread_ts msg) as [ts|] eqn:Hts; [|discriminate].
  unfold expand_thread. rewrite <- Heq.
  unfold fetch_thread_messages, try_except, bind, call_replies, ret, raise.
  pose proof (replies_reachable _ channel_id ts Hr) as Hr'.
  pose proof (replies_behave _ channel_id ts Hr) as Hb.
  destruct (conversations_replies (client w) channel_id ts) as [[response|e] c];
    cbn [fst snd] in *.
  - destruct Hb as [Hok | (messages & Hm & Hall)].
    + rewrite Hok. eexists _, _. split; [reflexivity|]. split; [exact Hr'|constructor].
    + destruct (r_ok response).
      * rewrite Hm. eexists _, _. split; [reflexivity|]. split; [exact Hr'|exact Hall].
      * eexists _, _. split; [reflexivity|]. split; [exact Hr'|constructor].
  - destruct e; try contradiction.
    eexists _, _. split; [reflexivity|]. split; [exact Hr'|constructor].
Qed.

Lemma collect_returns messages : forall user_ids (w : World Client),
  reachable (client w) ->
  exists ids w',
    collect_user_ids channel_id user_ids messages w = (Returns ids, w')
    /\ reachable (client w').
Proof.
  induction messages as [|msg messages IHm]; intros user_ids w Hr.
  - exists user_ids, w. split; [reflexivity | exact Hr].
  - cbn [collect_user_ids]. unfold bind.
    destruct (is_thread_root msg) eqn:Hroot.
    + destruct (expand_thread_returns msg w Hr Hroot) as (replies & w1 & -> & Hr1 & _).
      cbn. apply IHm. exact Hr1.
    + cbn. apply IHm. exact Hr.
Qed.

Lemma lookups_answered user_ids : forall c,
  reachable c -> Forall answered (lookups c user_ids).
Proof.
  induction user_ids as [|u rest IHu]; intros c Hr; cbn [lookups]; [constructor|].
  pose proof (users_behave c u Hr) as Hb. pose proof (users_reachable c u Hr) as Hr'.
  destruct (users_info c u) as [o c']. constructor; [exact Hb | apply IHu; exact Hr'].
Qed.

Lemma fetch_user_info_from_reachable user_ids :
  forall user_info (w : World Client) result w',
    reachable (client w) ->
    fetch_user_info_from user_info user_ids w = (Returns result, w') ->
    reachable (client w').
Proof.
  induction user_ids as [|u rest IHu]; intros user_info w result w' Hr Hrun.
  - injection Hrun as _ <-. exact Hr.
  - cbn [fetch_user_info_from] in Hrun. unfold bind in Hrun.
    destruct (resolve_user user_info u w) as [[ui1|e] w1] eqn:Hres; [|discriminate].
    eapply IHu; [|exact Hrun].
    pose proof (users_reachable _ u Hr) as Hr'.
    pose proof (users_behave _ u Hr) as Hb.
    destruct (users_info (client w) u) as [o c] eqn:Hc. cbn [fst snd] in *.
    destruct (resolve_user_answered user_info u w o c Hc Hb)
      as (ui1' & w1' & Hres' & Hcl & _).
    rewrite Hres in Hres'. injection Hres' as _ <-. rewrite Hcl. exact Hr'.
Qed.

Lemma readable_returns msg (w : World Client) :
  formattable msg ->
  exists text,
    readable float_seconds (Py.get_default (m_ts msg) "0") w = (Returns text, w).
Proof.
  intros (seconds & text & Hs & Ht). exists text.
  unfold readable, bind, lift. rewrite Hs, Ht. reflexivity.
Qed.

Lemma replies_data_return replies (w : World Client) :
  Forall formattable replies ->
  exists entries, for_each (reply_data float_seconds) replies w = (Returns entries, w).
Proof.
  induction 1 as [|reply replies Hf _ IHr]; [exists []; reflexivity|].
  destruct IHr as [entries Hrest].
  destruct (readable_returns reply w Hf) as [text Htext].
  cbn [for_each]. unfold reply_data, bind, ret in *. rewrite Htext, Hrest.
  eexists. reflexivity.
Qed.

Lemma message_data_returns msg (w : World Client) :
  reachable (client w) -> formattable msg ->
  exists entry w',
    message_data float_seconds channel_id msg w = (Returns entry, w')
    /\ reachable (client w').
Proof.
  intros Hr Hf. unfold message_data, bind, ret.
  destruct (is_thread_root msg) eqn:Hroot.
  - destruct (expand_thread_returns msg w Hr Hroot) as (replies & w1 & -> & Hr1 & Hall).
    destruct (replies_data_return replies w1 Hall) as [entries ->].
    destruct (readable_returns msg w1 Hf) as [text ->].
    eexists _, _. split; [reflexivity | exact Hr1].
  - destruct (readable_returns msg w Hf) as [text ->].
    eexists _, _. split; [reflexivity | exact Hr].
Qed.

Lemma chat_data_returns messages : forall (w : World Client),
  reachable (client w) -> Forall formattable messages ->
  exists entries w',
    for_each (message_data float_seconds channel_id) messages w
      = (Returns entries, w').
Proof.
  induction messages as [|msg messages IHm]; intros w Hr Hall.
  - eexists _, _. reflexivity.
  - apply Forall_cons in Hall as [Hf Hall].
    destruct (message_data_returns msg w Hr Hf) as (entry & w1 & Hentry & Hr1).
    destruct (IHm w1 Hr1 Hall) as (entries & w2 & Hrest).
    cbn [for_each]. unfold bind, ret. rewrite Hentry, Hrest.
    eexists _, _. reflexivity.
Qed.

(** Supporting fact for C7 and C10: with such a client, and timestamps
    that can be formatted, the assembler returns a document. *)
Lemma export_data_returns messages start_date end_date (w : World Client) :
  (forall s, NoDup (iter_order s)) ->
  reachable (client w) -> Forall formattable messages ->
  exists doc w',
    export_data iter_order float_seconds messages channel_id start_date end_date w
      = (Returns doc, w').
Proof.
  intros Hnd Hr Hall. unfold export_data, bind, ret.
  destruct (collect_returns messages ∅ w Hr) as (ids & w1 & -> & Hr1).
  destruct (fetch_user_info_from_spec (iter_order ids) ∅ w1 (Hnd ids)
              (lookups_answered _ _ Hr1)) as (user_info & w2 & Hrun & _).
  unfold fetch_user_info. rewrite Hrun.
  pose proof (fetch_user_info_from_reachable _ _ _ _ _ Hr1 Hrun) as Hr2.
  destruct (chat_data_returns (rev messages) w2 Hr2) as (entries & w3 & ->).
  { apply Forall_rev. exact Hall. }
  eexists _, _. reflexivity.
Qed.

End AssemblerReturns.

(** ** Entry point *)

Section EntryPointProps.

Context {Client : Type} `{Transport Client}.

Variable iter_order : gset string -> list string.
Variable float_seconds : string -> Outcome Z.
Variable writable : string -> bool.

Local Abbreviation main' := (main iter_order float_seconds writable).
Local Abbreviation save := (save_messages_to_file iter_order float_seconds writable).

(** The history loop writes no file. *)
Lemma history_loop_disk fuel channel_id oldest_ts latest_ts :
  forall st (w : World Client),
    disk (snd (history_loop fuel channel_id oldest_ts latest_ts st w)) = disk w.
Proof.
  induction fuel as [|fuel IHf]; intros st w; [reflexivity|].
  cbn [history_loop].
  assert (disk (snd (history_iteration channel_id oldest_ts latest_ts st w)) = disk w)
    as Hit.
  { unfold history_iteration, history_try, call_history, sleep, emit, raise.
    destruct (conversations_history (client w) _) as [[response|e] c].
    - destruct (h_ok response); [|destruct (h_error response); reflexivity].
      destruct (h_messages response); [|reflexivity].
      destruct (h_has_more response); [|reflexivity].
      destruct (h_next_cursor response); reflexivity.
    - destruct e; try reflexivity.
      destruct (Py.truthy _); [|reflexivity].
      destruct (Py.int _) as [n|]; [|reflexivity].
      destruct (n <? 0); reflexivity. }
  destruct (history_iteration channel_id oldest_ts latest_ts st w)
    as [[[[] st']|e] w']; cbn [snd] in *; try exact Hit.
  rewrite IHf. exact Hit.
Qed.


End EntryPointProps.

(** ** The properties on concrete runs *)




(** C3 (the code on a failing input). A [SlackApiError] whose
    [Retry-After] header is an HTTP date: the conversion to a number of
    seconds fails inside the handler, and the [ValueError] reaches the
    caller of [fetch_messages_for_period]. *)
Theorem malformed_hint_raises fuel :
  fetch_messages_for_period (S fuel) "C123" 0 10 (start_world http_date_client)
  = (Some (Raises (ValueError "invalid literal for int() with base 10")),
     after_request (start_world http_date_client) (history_only [])
       first_request).
Proof.
  apply (malformed_hint_propagates "C123" 0 10 fuel first_locals
           (start_world http_date_client)
           {| e_error := "ratelimited";
              e_retry_after := Some "Wed, 21 Oct 2015 07:28:00 GMT" |}
           (history_only []));
    reflexivity.
Qed.

(** C1 (the code on a failing input). A lookup answered with an
    unsuccessful response leaves no entry for its identifier: the mapping
    returned for the batch ["U1"] is empty. *)
Theorem unsuccessful_lookup_has_no_entry :
  exists w',
    fetch_user_info ["U1"] (start_world user_not_found_client) = (Returns ∅, w')
    /\ (∅ : gmap string UserInfo) !! "U1" = None.
Proof.
  exists (after_sleep (after_lookup (start_world user_not_found_client)
                         user_not_found_client "U1") 1).
  split.
  - unfold fetch_user_info. cbn [fetch_user_info_from]. unfold bind at 1.
    assert (users_info (client (start_world user_not_found_client)) "U1"
            = (Returns {| ui_ok := false; ui_user := None |}, user_not_found_client))
      as Hc by reflexivity.
    rewrite (resolve_user_not_ok ∅ "U1" _ _ _ Hc eq_refl).
    reflexivity.
  - apply lookup_empty.
Qed.


(** The export of the repository's assembler test: two entries, the later
    message first. *)
Lemma chat_is_reversed_messages_witness :
  export_data elements_order whole_seconds export_messages "C123"
    "2023-01-01 00:00:00" "2023-01-02 23:59:59" (start_world export_client)
  = (Returns export_doc, after_export)
  /\ length (chat export_doc) = length export_messages
  /\ Forall2 emitted_from (rev export_messages) (chat export_doc).
Proof.
  assert (export_data elements_order whole_seconds export_messages "C123"
            "2023-01-01 00:00:00" "2023-01-02 23:59:59" (start_world export_client)
          = (Returns export_doc, after_export))
    as Hrun by (vm_compute; reflexivity).
  split; [exact Hrun|].
  exact (chat_is_reversed_messages elements_order whole_seconds "C123"
           export_messages _ _ _ _ _ Hrun).
Defined.

Lemma elements_order_perm (s : gset string) : elements_order s ≡ₚ elements s.
Proof. reflexivity. Qed.

(** The same export: the second message and the reply carry no [user]
    field. *)
Lemma missing_user_is_unknown_user_witness :
  collect_user_ids "C123" ∅ export_messages (start_world export_client)
    = (Returns export_ids, after_collect)
  /\ "Unknown User" ∈ elements_order export_ids
  /\ fetch_user_info (elements_order export_ids) after_collect
       = (Returns export_users, after_lookups)
  /\ EvUsersInfo "Unknown User" ∈ trace after_lookups
  /\ export_data elements_order whole_seconds export_messages "C123"
       "2023-01-01 00:00:00" "2023-01-02 23:59:59" (start_world export_client)
       = (Returns export_doc, after_export)
  /\ Forall2 (fun msg entry => m_user msg = None -> sm_user entry = "Unknown User")
       (rev export_messages) (chat export_doc)
  /\ message_data whole_seconds "C123" export_root (start_world export_client)
       = (Returns export_root_entry, after_collect)
  /\ Forall2 (fun reply r => m_user reply = None -> tr_user r = "Unknown User")
       [export_reply] (sm_thread_replies export_root_entry).
Proof.
  assert (collect_user_ids "C123" ∅ export_messages (start_world export_client)
          = (Returns export_ids, after_collect)) as Hcol by (vm_compute; reflexivity).
  assert (fetch_user_info (elements_order export_ids) after_collect
          = (Returns export_users, after_lookups)) as Hf by (vm_compute; reflexivity).
  assert (export_data elements_order whole_seconds export_messages "C123"
            "2023-01-01 00:00:00" "2023-01-02 23:59:59" (start_world export_client)
          = (Returns export_doc, after_export)) as Hrun by (vm_compute; reflexivity).
  assert (message_data whole_seconds "C123" export_root (start_world export_client)
          = (Returns export_root_entry, after_collect)) as Hentry
    by (vm_compute; reflexivity).
  destruct (missing_user_is_unknown_user elements_order elements_order_perm
              whole_seconds "C123" export_messages
              "2023-01-01 00:00:00" "2023-01-02 23:59:59"
              (start_world export_client)) as (Hids & Hchat & Hreplies).
  destruct (Hids export_ids after_collect Hcol) as (_ & Htop & _ & Hlook).
  assert ("Unknown User" ∈ elements_order export_ids) as Hin.
  { apply (Htop export_second); [|reflexivity]. right. left. }
  split; [exact Hcol|]. split; [exact Hin|]. split; [exact Hf|].
  split; [exact (Hlook export_users after_lookups Hf Hin)|].
  split; [exact Hrun|].
  split; [exact (Hchat export_doc after_export Hrun)|].
  split; [exact Hentry|].
  apply (Hreplies export_root (start_world export_client) export_root_entry
           after_collect [export_reply]
           (after_replies (start_world export_client) export_client "C123" "100")
           Hentry); reflexivity.
Defined.



(** * Further properties *)

(** ** Channel identifiers *)

Section ChannelIdProps.

Lemma strip_prefix_app p s : Re.strip_prefix p (p ++ s)%string = Some s.
Proof.
  induction p as [|a p IHp]; [reflexivity|].
  change (Re.strip_prefix (String a p) (String a p ++ s)%string)
    with (if Ascii.eqb a a then Re.strip_prefix p (p ++ s)%string else None).
  rewrite Ascii.eqb_refl. exact IHp.
Qed.

Lemma span_all f run rest :
  Re.all f run = true ->
  match rest with String c _ => f c = false | EmptyString => True end ->
  Re.span f (run ++ rest)%string = (run, rest).
Proof.
  intros Hrun Hrest. induction run as [|c run IHr].
  - destruct rest as [|c rest]; [reflexivity|].
    change (String.append EmptyString (String c rest)) with (String c rest).
    cbn [Re.span]. rewrite Hrest. reflexivity.
  - cbn [Re.all] in Hrun. apply andb_true_iff in Hrun as [Hc Hrun].
    change (String.append (String c run) rest) with (String c (run ++ rest)%string).
    cbn [Re.span]. rewrite Hc, (IHr Hrun). reflexivity.
Qed.

Lemma span_run_all f s : Re.all f (fst (Re.span f s)) = true.
Proof.
  induction s as [|c s IHs]; [reflexivity|].
  cbn. destruct (f c) eqn:Hc; [|reflexivity].
  destruct (Re.span f s) as [run rest]. cbn in *. rewrite Hc. exact IHs.
Qed.

(** What a match captures is never empty and is made of capitals and
    digits only. *)
Lemma match_channel_url_shape s channel_id :
  match_channel_url s = Some channel_id ->
  channel_id <> EmptyString /\ Re.all Re.upper_or_digit channel_id = true.
Proof.
  unfold match_channel_url. intros Hm.
  destruct (Re.strip_prefix "https://" s) as [s1|]; [|discriminate].
  destruct (Re.span Re.not_slash s1) as [[|h host] s2]; [discriminate|].
  destruct (Re.strip_prefix "/archives/" s2) as [s3|]; [|discriminate].
  pose proof (span_run_all Re.upper_or_digit s3) as Hall.
  destruct (Re.span Re.upper_or_digit s3) as [[|c run] rest]; [discriminate|].
  injection Hm as <-. split; [discriminate | exact Hall].
Qed.

(** A string of capitals and digits is no URL. *)
Lemma match_channel_url_bare s :
  Re.all Re.upper_or_digit s = true -> match_channel_url s = None.
Proof.
  intros Hall. unfold match_channel_url.
  destruct s as [|c s]; [reflexivity|].
  cbn in Hall. apply andb_true_iff in Hall as [Hc _].
  change (Re.strip_prefix "https://" (String c s))
    with (if Ascii.eqb "h" c then Re.strip_prefix "ttps://" s else None).
  destruct (Ascii.eqb_spec "h" c) as [<- | Hne]; [discriminate | reflexivity].
Qed.

(** X1. Applied to [https://<host>/archives/<id>] followed by anything
    that does not continue the identifier, [extract_channel_id] returns
    [<id>]: the host is any non-empty run without a slash, the identifier
    any non-empty run of capitals and digits. *)
Theorem extract_channel_id_url host channel_id rest :
  host <> EmptyString -> Re.all Re.not_slash host = true ->
  channel_id <> EmptyString -> Re.all Re.upper_or_digit channel_id = true ->
  match rest with
  | String c _ => Re.upper_or_digit c = false
  | EmptyString => True
  end ->
  extract_channel_id ("https://" ++ host ++ "/archives/" ++ channel_id ++ rest)%string
  = channel_id.
Proof.
  intros Hh Hhost Hi Hid Hrest. unfold extract_channel_id, match_channel_url.
  rewrite strip_prefix_app.
  rewrite (span_all Re.not_slash host) by (exact Hhost || reflexivity).
  destruct host as [|h host]; [contradiction|].
  rewrite strip_prefix_app.
  rewrite (span_all Re.upper_or_digit channel_id rest Hid Hrest).
  destruct channel_id; [contradiction | reflexivity].
Qed.

Lemma bare_id_unchanged s :
  Re.all Re.upper_or_digit s = true -> extract_channel_id s = s.
Proof.
  intros Hall. unfold extract_channel_id.
  rewrite (match_channel_url_bare s Hall). reflexivity.
Qed.

(** X2. A bare identifier, made of capitals and digits, is returned
    unchanged. *)
Theorem extract_channel_id_bare s :
  Re.all Re.upper_or_digit s = true -> extract_channel_id s = s.
Proof. apply bare_id_unchanged. Qed.

(** X3. Extracting twice is extracting once: what comes out of a URL is a
    bare identifier. *)
Theorem extract_channel_id_idempotent s :
  extract_channel_id (extract_channel_id s) = extract_channel_id s.
Proof.
  unfold extract_channel_id at 2 3.
  destruct (match_channel_url s) as [channel_id|] eqn:Hm.
  - apply bare_id_unchanged. eapply match_channel_url_shape. exact Hm.
  - unfold extract_channel_id. rewrite Hm. reflexivity.
Qed.

End ChannelIdProps.

Lemma extract_channel_id_url_witness :
  extract_channel_id "https://example.slack.com/archives/C456DEF" = "C456DEF".
Proof.
  apply (extract_channel_id_url "example.slack.com" "C456DEF" "");
    (discriminate || reflexivity || exact I).
Defined.

Lemma extract_channel_id_bare_witness : extract_channel_id "C123ABC" = "C123ABC".
Proof. apply (extract_channel_id_bare "C123ABC"). reflexivity. Defined.

(** ** History paginator: runs of any length *)

Section PaginatorRuns.

Context {Client : Type} `{Transport Client}.

Variables (channel_id : string) (oldest_ts latest_ts : Z).

Local Abbreviation request := (history_request channel_id oldest_ts latest_ts).
Local Abbreviation iteration := (history_iteration channel_id oldest_ts latest_ts).
Local Abbreviation loop := (fun fuel => history_loop fuel channel_id oldest_ts latest_ts).
Local Abbreviation allowed := (paginator_event channel_id oldest_ts latest_ts).

(** What one iteration adds to the trace and to the accumulated
    messages. *)
Lemma iteration_added st w :
  match iteration st w with
  | (Returns (Next, st'), w') =>
      (exists n, 0 <= n
                 /\ trace w' = trace w ++ [EvHistory (request st); EvSleep n])
      /\ exists more, all_messages st' = all_messages st ++ more
  | (Returns (Stop, st'), w') =>
      trace w' = trace w ++ [EvHistory (request st)]
      /\ exists more, all_messages st' = all_messages st ++ more
  | (Raises _, w') => trace w' = trace w ++ [EvHistory (request st)]
  end.
Proof.
  assert (forall l : list RawMessage, exists more, l = l ++ more) as Hsame.
  { intros l. exists []. symmetry. apply app_nil_r. }
  unfold history_iteration, history_try, call_history, sleep, emit, raise.
  destruct (conversations_history (client w) (request st)) as [[response|e] c].
  - destruct (h_ok response);
      [|destruct (h_error response); (split; [reflexivity | apply Hsame])].
    destruct (h_messages response) as [messages|];
      [|split; [reflexivity | apply Hsame]].
    destruct (h_has_more response);
      [|split; [reflexivity | exists messages; reflexivity]].
    destruct (h_next_cursor response);
      [|split; [reflexivity | exists messages; reflexivity]].
    cbn. split; [|exists messages; reflexivity].
    exists 1. split; [lia|]. rewrite <- app_assoc. reflexivity.
  - destruct e; try (split; [reflexivity | apply Hsame]).
    destruct (Py.truthy (e_retry_after r)); [|split; [reflexivity | apply Hsame]].
    destruct (Py.int _) as [n|]; [|reflexivity].
    destruct (Z.ltb_spec n 0); cbn; [reflexivity|].
    split; [|apply Hsame].
    exists n. split; [lia|]. rewrite <- app_assoc. reflexivity.
Qed.

Lemma request_allowed st : allowed (EvHistory (request st)).
Proof. repeat split. Qed.

Lemma loop_added fuel : forall st w,
  exists added,
    trace (snd (loop fuel st w)) = trace w ++ added
    /\ paced added = true /\ Forall allowed added.
Proof.
  induction fuel as [|fuel IH]; intros st w; cbn [history_loop].
  - exists []. cbn. split; [symmetry; apply app_nil_r|]. split; [reflexivity|constructor].
  - pose proof (iteration_added st w) as Hit.
    destruct (iteration st w) as [[[[] st']|e] w']; cbn [snd].
    + destruct Hit as [(n & Hn & Ht) _].
      destruct (IH st' w') as (added & Ha & Hp & Hall).
      exists (EvHistory (request st) :: EvSleep n :: added).
      split; [rewrite Ha, Ht, <- app_assoc; reflexivity|].
      split; [exact Hp|].
      constructor; [apply request_allowed|]. constructor; [exact Hn | exact Hall].
    + destruct Hit as [Ht _]. exists [EvHistory (request st)].
      split; [exact Ht|]. split; [reflexivity|].
      constructor; [apply request_allowed | constructor].
    + exists [EvHistory (request st)].
      split; [exact Hit|]. split; [reflexivity|].
      constructor; [apply request_allowed | constructor].
Qed.

Lemma loop_keeps fuel : forall st w messages w',
  loop fuel st w = (Some (Returns messages), w') ->
  exists more, messages = all_messages st ++ more.
Proof.
  induction fuel as [|fuel IH]; intros st w messages w'; cbn [history_loop];
    [discriminate|].
  pose proof (iteration_added st w) as Hit.
  destruct (iteration st w) as [[[[] st']|e] w1].
  - destruct Hit as [_ [more Hm]]. intros Hrun.
    destruct (IH _ _ _ _ Hrun) as [more' ->].
    exists (more ++ more'). rewrite Hm, app_assoc. reflexivity.
  - destruct Hit as [_ [more Hm]]. intros [= <- _]. exists more. exact Hm.
  - discriminate.
Qed.

(** X4. However a run of the paginator goes and wherever it is cut, it
    never sends two history requests without sleeping in between: what it
    adds to the trace is requests separated by sleeps. *)
Theorem history_requests_are_paced fuel (w : World Client) :
  exists added,
    trace (snd (fetch_messages_for_period fuel channel_id oldest_ts latest_ts w))
      = trace w ++ added
    /\ paced added = true.
Proof.
  destruct (loop_added fuel {| all_messages := []; cursor := None |} w)
    as (added & Ha & Hp & _).
  exists added. split; [exact Ha | exact Hp].
Qed.

(** X5. Every request of a run is for the channel and the two bounds the
    paginator was called with and asks for 200 messages; besides requests
    the run only sleeps, never for a negative time, and it calls neither
    the thread nor the user endpoint. *)
Theorem history_requests_carry_the_arguments fuel (w : World Client) :
  exists added,
    trace (snd (fetch_messages_for_period fuel channel_id oldest_ts latest_ts w))
      = trace w ++ added
    /\ Forall (paginator_event channel_id oldest_ts latest_ts) added.
Proof.
  destruct (loop_added fuel {| all_messages := []; cursor := None |} w)
    as (added & Ha & _ & Hall).
  exists added. split; [exact Ha | exact Hall].
Qed.

(** X6. Messages once accumulated are never dropped or reordered: from
    whatever point of a run the loop goes on, the list it returns starts
    with the messages accumulated up to that point. *)
Theorem accumulated_messages_are_kept fuel st (w : World Client) messages w' :
  history_loop fuel channel_id oldest_ts latest_ts st w
    = (Some (Returns messages), w') ->
  exists more, messages = all_messages st ++ more.
Proof. apply loop_keeps. Qed.

(** X7. A response that lacks a key the loop reads ends the run without
    an exception: a successful response without [messages], and an
    unsuccessful one without [error], return what was accumulated; a page
    that announces another one without naming its cursor is kept, and the
    run ends there without sleeping. *)
Theorem missing_keys_end_pagination fuel st (w : World Client) :
  (forall response c,
      conversations_history (client w) (request st) = (Returns response, c) ->
      h_ok response = true -> h_messages response = None ->
      loop (S fuel) st w
      = (Some (Returns (all_messages st)), after_request w c (request st)))
  /\ (forall response c,
        conversations_history (client w) (request st) = (Returns response, c) ->
        h_ok response = false -> h_error response = None ->
        loop (S fuel) st w
        = (Some (Returns (all_messages st)), after_request w c (request st)))
  /\ (forall response c messages,
        conversations_history (client w) (request st) = (Returns response, c) ->
        h_ok response = true -> h_messages response = Some messages ->
        h_has_more response = true -> h_next_cursor response = None ->
        loop (S fuel) st w
        = (Some (Returns (all_messages st ++ messages)),
           after_request w c (request st))).
Proof.
  split; [|split].
  - intros response c Hc Hok Hm. cbn [history_loop].
    unfold history_iteration, history_try, call_history.
    rewrite Hc, Hok, Hm. reflexivity.
  - intros response c Hc Hok He. cbn [history_loop].
    unfold history_iteration, history_try, call_history.
    rewrite Hc, Hok, He. reflexivity.
  - intros response c messages Hc Hok Hm Hmore Hn. cbn [history_loop].
    unfold history_iteration, history_try, call_history.
    rewrite Hc, Hok, Hm, Hmore, Hn. reflexivity.
Qed.


(** The states the client can be in. *)
Variable reachable : Client -> Prop.

Hypothesis history_reachable : forall c rq,
  reachable c -> reachable (snd (conversations_history c rq)).

Lemma iteration_reachable st w :
  reachable (client w) -> reachable (client (snd (iteration st w))).
Proof.
  intros Hr. pose proof (history_reachable _ (request st) Hr) as Hr'.
  unfold history_iteration, history_try, call_history, sleep, emit, raise.
  destruct (conversations_history (client w) (request st)) as [[response|e] c];
    cbn [snd] in Hr'.
  - destruct (h_ok response); [|destruct (h_error response); exact Hr'].
    destruct (h_messages response); [|exact Hr'].
    destruct (h_has_more response); [|exact Hr'].
    destruct (h_next_cursor response); exact Hr'.
  - destruct e; try exact Hr'.
    destruct (Py.truthy (e_retry_after r)); [|exact Hr'].
    destruct (Py.int _) as [n|]; [|exact Hr'].
    destruct (n <? 0); exact Hr'.
Qed.



(** The requests the client still answers in a way that keeps the loop
    going. *)
Variable budget : Client -> nat.

(** X11. The loop ends as soon as the server stops announcing pages and
    rate limits: when every response that keeps the loop going uses up
    some of a finite budget, a run of one iteration more than the budget
    returns or raises. *)
Theorem paginator_terminates fuel st (w : World Client) :
  (forall c rq, continues (fst (conversations_history c rq)) = true ->
                (budget (snd (conversations_history c rq)) < budget c)%nat) ->
  (budget (client w) < fuel)%nat ->
  fst (history_loop fuel channel_id oldest_ts latest_ts st w) <> None.
Proof.
  intros Hdec. revert st w.
  induction fuel as [|fuel IHf]; intros st w Hb; [lia|]. cbn [history_loop].
  specialize (Hdec (client w) (request st)).
  assert (match iteration st w with
          | (Returns (Next, _), w') => (budget (client w') < budget (client w))%nat
          | _ => True
          end) as Hit.
  { unfold history_iteration, history_try, call_history, sleep, emit, raise.
    destruct (conversations_history (client w) (request st)) as [[response|e] c];
      cbn [fst snd continues] in Hdec.
    - destruct (h_ok response); [|destruct (h_error response); exact I].
      destruct (h_messages response); [|exact I].
      destruct (h_has_more response); [|exact I].
      destruct (h_next_cursor response); [|exact I].
      cbn. apply Hdec. reflexivity.
    - destruct e; try exact I.
      destruct (Py.truthy (e_retry_after r)); [|exact I].
      destruct (Py.int _) as [n|]; [|exact I].
      destruct (n <? 0); cbn; [exact I|]. apply Hdec. reflexivity. }
  destruct (iteration st w) as [[[[] st']|e] w']; cbn [fst]; try discriminate.
  apply IHf. lia.
Qed.

End PaginatorRuns.

(** ** The paginator's properties on concrete runs *)

Lemma accumulated_messages_are_kept_witness :
  history_loop 1 "C123" 0 10 second_locals (start_world second_page_client)
  = (Some (Returns [raw "1"; raw "2"]),
     after_request (start_world second_page_client) (history_only [])
       (history_request "C123" 0 10 second_locals))
  /\ exists more, [raw "1"; raw "2"] = all_messages second_locals ++ more.
Proof.
  split; [reflexivity|].
  apply (accumulated_messages_are_kept "C123" 0 10 1 second_locals
           (start_world second_page_client) [raw "1"; raw "2"]
           (after_request (start_world second_page_client) (history_only [])
              (history_request "C123" 0 10 second_locals))).
  reflexivity.
Defined.

Lemma missing_keys_end_pagination_witness :
  history_loop 1 "C123" 0 10 second_locals (start_world no_messages_client)
  = (Some (Returns [raw "1"]),
     after_request (start_world no_messages_client) (history_only [])
       (history_request "C123" 0 10 second_locals))
  /\ history_loop 1 "C123" 0 10 first_locals (start_world no_cursor_client)
     = (Some (Returns ([] ++ [raw "1"])),
        after_request (start_world no_cursor_client) (history_only []) first_request).
Proof.
  split.
  - apply (proj1 (missing_keys_end_pagination "C123" 0 10 0 second_locals
                    (start_world no_messages_client))
             {| h_ok := true; h_messages := None; h_has_more := false;
                h_next_cursor := None; h_error := None |} (history_only []));
      reflexivity.
  - apply (proj2 (proj2 (missing_keys_end_pagination "C123" 0 10 0 first_locals
                           (start_world no_cursor_client)))
             {| h_ok := true; h_messages := Some [raw "1"]; h_has_more := true;
                h_next_cursor := None; h_error := None |} (history_only []) [raw "1"]);
      reflexivity.
Defined.


Lemma numeric_hints_step (c : Scripted) rq :
  numeric_hints c -> numeric_hints (snd (conversations_history c rq)).
Proof.
  unfold numeric_hints. destruct c as [[|o rest] replies users]; cbn.
  - intros _. constructor.
  - intros Hall. apply Forall_cons in Hall as [_ Hrest]. exact Hrest.
Qed.

Lemma numeric_hints_head (c : Scripted) rq :
  numeric_hints c -> numeric_hint (fst (conversations_history c rq)).
Proof.
  unfold numeric_hints. destruct c as [[|o rest] replies users]; cbn.
  - intros _. exact I.
  - intros Hall. apply Forall_cons in Hall as [Ho _]. exact Ho.
Qed.

Lemma rate_limited_client_numeric : numeric_hints rate_limited_client.
Proof.
  unfold numeric_hints. cbn.
  constructor; [|constructor; [exact I | constructor]].
  intros _. exists 30. split; [reflexivity | lia].
Qed.



Lemma responses_left_decrease (c : Scripted) rq :
  continues (fst (conversations_history c rq)) = true ->
  (responses_left (snd (conversations_history c rq)) < responses_left c)%nat.
Proof.
  unfold responses_left. destruct c as [[|o rest] replies users]; cbn.
  - discriminate.
  - lia.
Qed.

Lemma paginator_terminates_witness :
  fst (history_loop 3 "C123" 0 10 first_locals (start_world two_page_client)) <> None.
Proof.
  apply (paginator_terminates "C123" 0 10 responses_left 3 first_locals
           (start_world two_page_client) responses_left_decrease).
  cbn. lia.
Defined.

(** ** Thread expander: what it does not absorb *)

Section ExpanderEdges.

Context {Client : Type} `{Transport Client}.

(** X12. The thread expander absorbs a [SlackApiError] and nothing else:
    any other exception of the transport reaches the caller, and so does
    the [KeyError] of a successful response without [messages]; a
    successful response with an empty list gives the empty list. *)
Theorem thread_expander_absorbs_api_errors_only channel_id thread_ts (w : World Client) :
  (forall e c,
      conversations_replies (client w) channel_id thread_ts = (Raises e, c) ->
      (forall r, e <> SlackApiError r) ->
      fetch_thread_messages channel_id thread_ts w
      = (Raises e, after_replies w c channel_id thread_ts))
  /\ (forall response c,
        conversations_replies (client w) channel_id thread_ts = (Returns response, c) ->
        r_ok response = true -> r_messages response = None ->
        fetch_thread_messages channel_id thread_ts w
        = (Raises (KeyError "messages"), after_replies w c channel_id thread_ts))
  /\ (forall response c,
        conversations_replies (client w) channel_id thread_ts = (Returns response, c) ->
        r_ok response = true -> r_messages response = Some [] ->
        fetch_thread_messages channel_id thread_ts w
        = (Returns [], after_replies w c channel_id thread_ts)).
Proof.
  unfold fetch_thread_messages, try_except, bind, call_replies, ret, raise.
  split; [|split].
  - intros e c -> He. destruct e; try reflexivity. exfalso. eapply He. reflexivity.
  - intros response c -> Hok Hm. cbn. rewrite Hok, Hm. reflexivity.
  - intros response c -> Hok Hm. cbn. rewrite Hok, Hm. reflexivity.
Qed.

End ExpanderEdges.

(** ** Identity resolver: batches *)

Section ResolverRuns.

Context {Client : Type} `{Transport Client}.

Lemma fetch_user_info_from_app pre : forall post user_info (w : World Client),
  fetch_user_info_from user_info (pre ++ post) w
  = match fetch_user_info_from user_info pre w with
    | (Returns user_info', w') => fetch_user_info_from user_info' post w'
    | (Raises e, w') => (Raises e, w')
    end.
Proof.
  induction pre as [|u pre IH]; intros post user_info w; [reflexivity|].
  cbn [app fetch_user_info_from]. unfold bind.
  destruct (resolve_user user_info u w) as [[user_info'|e] w']; [apply IH | reflexivity].
Qed.

(** One lookup that lets the batch go on: the key it may add, and what it
    leaves in the trace. *)
Lemma resolve_user_returns user_info user_id (w : World Client) user_info' w' :
  resolve_user user_info user_id w = (Returns user_info', w') ->
  (forall k, k <> user_id -> user_info' !! k = user_info !! k)
  /\ client w' = snd (users_info (client w) user_id)
  /\ trace w' = trace w ++ lookup_events user_id (fst (users_info (client w) user_id)).
Proof.
  unfold resolve_user, try_except, bind, call_users_info, sleep, emit, ret, raise.
  destruct (users_info (client w) user_id) as [[response|e] c]; cbn [fst snd].
  - destruct (ui_ok response); [destruct (ui_user response)|]; cbn;
      intros Hrun; try discriminate; injection Hrun as <- <-; cbn;
      (split; [|split; [reflexivity | rewrite <- app_assoc; reflexivity]]).
    + intros k Hk. apply lookup_insert_ne. congruence.
    + reflexivity.
  - destruct e; cbn; intros Hrun; try discriminate. injection Hrun as <- <-. cbn.
    split; [|split; reflexivity].
    intros k Hk. apply lookup_insert_ne. congruence.
Qed.

Lemma fetch_user_info_from_returns user_ids :
  forall user_info (w : World Client) result w',
    fetch_user_info_from user_info user_ids w = (Returns result, w') ->
    (forall k, k ∉ user_ids -> result !! k = user_info !! k)
    /\ trace w'
       = trace w ++ concat (zip_with lookup_events user_ids
                              (lookups (client w) user_ids)).
Proof.
  induction user_ids as [|u rest IH]; intros user_info w result w' Hrun.
  - injection Hrun as <- <-. split; [reflexivity|]. cbn. symmetry. apply app_nil_r.
  - cbn [fetch_user_info_from] in Hrun. unfold bind in Hrun.
    destruct (resolve_user user_info u w) as [[user_info1|e] w1] eqn:Hres;
      [|discriminate].
    destruct (resolve_user_returns _ _ _ _ _ Hres) as (Hother & Hcl & Htr).
    destruct (IH _ _ _ _ Hrun) as (Hkeep & Htrace).
    split.
    + intros k Hk. apply not_elem_of_cons in Hk as [Hne Hk].
      rewrite (Hkeep k Hk). apply Hother. exact Hne.
    + cbn [lookups]. rewrite Htrace, Htr, Hcl.
      destruct (users_info (client w) u) as [o c]. cbn [fst snd zip_with concat].
      rewrite <- app_assoc. reflexivity.
Qed.

(** X13. Whatever the lookups answer, the mapping the resolver returns
    has no key that was not requested. *)
Theorem resolved_keys_are_requested user_ids (w : World Client) result w' k :
  fetch_user_info user_ids w = (Returns result, w') ->
  is_Some (result !! k) -> k ∈ user_ids.
Proof.
  intros Hrun Hk.
  destruct (fetch_user_info_from_returns _ _ _ _ _ Hrun) as [Hkeep _].
  destruct (decide (k ∈ user_ids)) as [Hin | Hout]; [exact Hin|].
  rewrite (Hkeep k Hout), lookup_empty in Hk. destruct Hk as [? Hk]. discriminate.
Qed.

(** X14. A batch that returns has looked up every identifier once, in
    the order given, and has slept one second after each lookup that was
    answered with a response, successful or not, and not after a lookup
    that raised a [SlackApiError]; it has done nothing else. *)
Theorem lookups_in_order_with_sleeps user_ids (w : World Client) result w' :
  fetch_user_info user_ids w = (Returns result, w') ->
  trace w'
  = trace w ++ concat (zip_with lookup_events user_ids (lookups (client w) user_ids)).
Proof.
  intros Hrun. eapply fetch_user_info_from_returns. exact Hrun.
Qed.

(** X15. The resolver absorbs a [SlackApiError] and nothing else: once
    the identifiers before it are resolved, a lookup that raises another
    exception, or that is answered successfully without the [user]
    object, ends the batch with that exception, and the entries resolved
    so far are lost with it; the identifiers after it are not looked
    up. *)
Theorem unexpected_lookup_failure_aborts_batch pre user_id post
    (w : World Client) partial w1 :
  fetch_user_info pre w = (Returns partial, w1) ->
  (forall e c,
      users_info (client w1) user_id = (Raises e, c) ->
      (forall r, e <> SlackApiError r) ->
      fetch_user_info (pre ++ user_id :: post) w
      = (Raises e, after_lookup w1 c user_id))
  /\ (forall response c,
        users_info (client w1) user_id = (Returns response, c) ->
        ui_ok response = true -> ui_user response = None ->
        fetch_user_info (pre ++ user_id :: post) w
        = (Raises (KeyError "user"), after_lookup w1 c user_id)).
Proof.
  intros Hpre. unfold fetch_user_info in *.
  split.
  - intros e c Hc He. rewrite fetch_user_info_from_app, Hpre.
    cbn [fetch_user_info_from].
    unfold bind at 1, resolve_user, try_except, bind, call_users_info.
    rewrite Hc. destruct e; try reflexivity. exfalso. eapply He. reflexivity.
  - intros response c Hc Hok Hu. rewrite fetch_user_info_from_app, Hpre.
    cbn [fetch_user_info_from].
    unfold bind at 1, resolve_user, try_except, bind, call_users_info.
    rewrite Hc, Hok, Hu. reflexivity.
Qed.

(** A client whose user endpoint answers from a table and stays as it
    is. *)
Variables (c0 : Client) (table : string -> Outcome UsersInfoResponse).

Hypothesis lookups_from_table : forall user_id, users_info c0 user_id = (table user_id, c0).

Lemma entry_after_twice o prev : entry_after o (entry_after o prev) = entry_after o prev.
Proof.
  destruct o as [response|e]; cbn.
  - destruct (ui_ok response); [destruct (ui_user response)|]; reflexivity.
  - destruct e; reflexivity.
Qed.

Lemma fetch_user_info_from_table user_ids : forall user_info (w : World Client),
  client w = c0 ->
  Forall (fun user_id => answered (table user_id)) user_ids ->
  exists result w',
    fetch_user_info_from user_info user_ids w = (Returns result, w')
    /\ forall k, result !! k
                 = if decide (k ∈ user_ids)
                   then entry_after (table k) (user_info !! k)
                   else user_info !! k.
Proof.
  induction user_ids as [|u rest IH]; intros user_info w Hw Hall.
  - exists user_info, w. split; [reflexivity|]. intros k.
    destruct (decide (k ∈ [])) as [Hin|_]; [|reflexivity].
    apply elem_of_nil in Hin. contradiction.
  - apply Forall_cons in Hall as [Hu Hall].
    pose proof (lookups_from_table u) as Hc. rewrite <- Hw in Hc at 1.
    destruct (resolve_user_answered user_info u w _ _ Hc Hu)
      as (user_info1 & w1 & Hres & Hcl & Hentry & Hother).
    destruct (IH user_info1 w1 Hcl Hall) as (result & w' & Hrun & Hspec).
    exists result, w'. split.
    { cbn [fetch_user_info_from]. unfold bind. rewrite Hres. exact Hrun. }
    intros k. rewrite Hspec.
    destruct (decide (k = u)) as [-> | Hne].
    + rewrite Hentry.
      destruct (decide (u ∈ u :: rest)) as [_|Hout]; [|exfalso; apply Hout; left].
      destruct (decide (u ∈ rest)); [apply entry_after_twice | reflexivity].
    + rewrite (Hother k Hne).
      destruct (decide (k ∈ rest)) as [Hin|Hout];
        destruct (decide (k ∈ u :: rest)) as [Hin'|Hout']; try reflexivity.
      * exfalso. apply Hout'. right. exact Hin.
      * exfalso. apply elem_of_cons in Hin' as [? | ?]; [congruence | contradiction].
Qed.

(** X16. With a client whose user endpoint answers from a table, the
    mapping does not depend on the order in which the identifiers are
    visited, nor on what was done before: two batches over the same
    identifiers return the same mapping. *)
Theorem resolution_order_is_irrelevant user_ids user_ids' (w w2 : World Client) :
  client w = c0 -> client w2 = c0 ->
  user_ids ≡ₚ user_ids' ->
  Forall (fun user_id => answered (table user_id)) user_ids ->
  exists result w' w2',
    fetch_user_info user_ids w = (Returns result, w')
    /\ fetch_user_info user_ids' w2 = (Returns result, w2').
Proof.
  intros Hw Hw2 Hperm Hall.
  assert (Forall (fun user_id => answered (table user_id)) user_ids') as Hall'.
  { rewrite <- Hperm. exact Hall. }
  destruct (fetch_user_info_from_table user_ids ∅ w Hw Hall)
    as (result & w' & Hrun & Hspec).
  destruct (fetch_user_info_from_table user_ids' ∅ w2 Hw2 Hall')
    as (result' & w2' & Hrun' & Hspec').
  exists result, w', w2'. split; [exact Hrun|].
  replace result with result'; [exact Hrun'|].
  apply map_eq. intros k. rewrite Hspec, Hspec'.
  destruct (decide (k ∈ user_ids)) as [Hin|Hout];
    destruct (decide (k ∈ user_ids')) as [Hin'|Hout']; try reflexivity.
  - exfalso. apply Hout'. rewrite <- Hperm. exact Hin.
  - exfalso. apply Hout. rewrite Hperm. exact Hin'.
Qed.

End ResolverRuns.

(** ** The expander's and the resolver's properties on concrete runs *)

Lemma thread_expander_absorbs_api_errors_only_witness :
  fetch_thread_messages "C123" "100" (start_world thread_down_client)
  = (Raises (OtherError "RuntimeError"),
     after_replies (start_world thread_down_client) thread_down_client "C123" "100")
  /\ fetch_thread_messages "C123" "100" (start_world thread_no_messages_client)
     = (Raises (KeyError "messages"),
        after_replies (start_world thread_no_messages_client)
          thread_no_messages_client "C123" "100")
  /\ fetch_thread_messages "C123" "100" (start_world (history_only []))
     = (Returns [],
        after_replies (start_world (history_only [])) (history_only []) "C123" "100").
Proof.
  split; [|split].
  - apply (proj1 (thread_expander_absorbs_api_errors_only "C123" "100"
                    (start_world thread_down_client))
             (OtherError "RuntimeError") thread_down_client);
      [reflexivity | discriminate].
  - apply (proj1 (proj2 (thread_expander_absorbs_api_errors_only "C123" "100"
                           (start_world thread_no_messages_client)))
             {| r_ok := true; r_messages := None |} thread_no_messages_client);
      reflexivity.
  - apply (proj2 (proj2 (thread_expander_absorbs_api_errors_only "C123" "100"
                           (start_world (history_only []))))
             {| r_ok := true; r_messages := Some [] |} (history_only []));
      reflexivity.
Defined.

Lemma users_client_batch :
  fetch_user_info ["U1"; "U_err"] (start_world users_client)
  = (Returns resolved_users,
     world_with users_client [EvUsersInfo "U1"; EvSleep 1; EvUsersInfo "U_err"] ∅).
Proof. vm_compute. reflexivity. Qed.

Lemma resolved_keys_are_requested_witness : "U_err" ∈ ["U1"; "U_err"].
Proof.
  apply (resolved_keys_are_requested ["U1"; "U_err"] (start_world users_client)
           resolved_users
           (world_with users_client [EvUsersInfo "U1"; EvSleep 1; EvUsersInfo "U_err"] ∅)
           "U_err" users_client_batch).
  exists Unknown_User. vm_compute. reflexivity.
Defined.

Lemma lookups_in_order_with_sleeps_witness :
  [EvUsersInfo "U1"; EvSleep 1; EvUsersInfo "U_err"]
  = [] ++ concat (zip_with lookup_events ["U1"; "U_err"]
                    (lookups users_client ["U1"; "U_err"])).
Proof.
  apply (lookups_in_order_with_sleeps ["U1"; "U_err"] (start_world users_client)
           resolved_users
           (world_with users_client [EvUsersInfo "U1"; EvSleep 1; EvUsersInfo "U_err"] ∅)
           users_client_batch).
Defined.

Lemma users_partly_down_first :
  fetch_user_info ["U1"] (start_world users_partly_down_client)
  = (Returns found_U1, after_U1 users_partly_down_client).
Proof. vm_compute. reflexivity. Qed.

Lemma unexpected_lookup_failure_aborts_batch_witness :
  fetch_user_info (["U1"] ++ "U3" :: ["U4"]) (start_world users_partly_down_client)
  = (Raises (OtherError "RuntimeError"),
     after_lookup (after_U1 users_partly_down_client) users_partly_down_client "U3")
  /\ fetch_user_info (["U1"] ++ "U2" :: ["U4"]) (start_world users_partly_down_client)
     = (Raises (KeyError "user"),
        after_lookup (after_U1 users_partly_down_client) users_partly_down_client "U2").
Proof.
  split.
  - apply (proj1 (unexpected_lookup_failure_aborts_batch ["U1"] "U3" ["U4"]
                    (start_world users_partly_down_client) found_U1
                    (after_U1 users_partly_down_client) users_partly_down_first)
             (OtherError "RuntimeError") users_partly_down_client);
      [reflexivity | discriminate].
  - apply (proj2 (unexpected_lookup_failure_aborts_batch ["U1"] "U2" ["U4"]
                    (start_world users_partly_down_client) found_U1
                    (after_U1 users_partly_down_client) users_partly_down_first)
             {| ui_ok := true; ui_user := None |} users_partly_down_client);
      reflexivity.
Defined.

Lemma users_client_answers :
  Forall (fun user_id => answered (users_table users_client user_id)) ["U1"; "U_err"].
Proof.
  constructor; [right; eexists; reflexivity|]. constructor; [exact I | constructor].
Qed.

Lemma scripted_lookups_from_table (c : Scripted) user_id :
  users_info c user_id = (users_table c user_id, c).
Proof. reflexivity. Qed.

Lemma resolution_order_is_irrelevant_witness :
  exists result w' w2',
    fetch_user_info ["U1"; "U_err"] (start_world users_client) = (Returns result, w')
    /\ fetch_user_info ["U_err"; "U1"] (after_U1 users_client) = (Returns result, w2').
Proof.
  apply (resolution_order_is_irrelevant users_client (users_table users_client)
           (scripted_lookups_from_table users_client) ["U1"; "U_err"] ["U_err"; "U1"]
           (start_world users_client) (after_U1 users_client) eq_refl eq_refl).
  - apply Permutation_swap.
  - exact users_client_answers.
Defined.

(** ** Export assembler: requests, files and completion *)

Section AssemblerRuns.

Context {Client : Type} `{Transport Client}.

Variable iter_order : gset string -> list string.
Variable float_seconds : string -> Outcome Z.
Variable writable : string -> bool.
Variable channel_id : string.

Local Abbreviation message_data' := (message_data float_seconds channel_id).
Local Abbreviation reply_data' := (@reply_data Client float_seconds).
Local Abbreviation collect := (@collect_user_ids Client _ channel_id).
Local Abbreviation export := (export_data iter_order float_seconds).
Local Abbreviation save := (save_messages_to_file iter_order float_seconds writable).
Local Abbreviation asked := (map (EvReplies channel_id)).

(** *** The trace *)

Lemma thread_root_ts msg :
  is_thread_root msg = true -> exists ts, m_ts msg = Some ts.
Proof.
  unfold is_thread_root. intros Hroot.
  apply andb_true_iff in Hroot as [Ht Heq]. apply bool_decide_eq_true in Heq.
  destruct (m_thread_ts msg) as [ts|]; [|discriminate].
  exists ts. symmetry. exact Heq.
Qed.

Lemma fetch_thread_messages_trace thread_ts (w : World Client) :
  trace (snd (fetch_thread_messages channel_id thread_ts w))
  = trace w ++ [EvReplies channel_id thread_ts].
Proof.
  unfold fetch_thread_messages, try_except, bind, call_replies, ret, raise.
  destruct (conversations_replies (client w) channel_id thread_ts) as [[response|e] c].
  - destruct (r_ok response); [destruct (r_messages response)|]; reflexivity.
  - destruct e; reflexivity.
Qed.

(** What the expansion of one message adds, when the message is a thread
    root and when it is not. *)
Lemma thread_roots_cons msg messages :
  thread_roots (msg :: messages)
  = (if is_thread_root msg then option_list (m_ts msg) else []) ++ thread_roots messages.
Proof.
  unfold thread_roots. cbn [omap list_omap].
  destruct (is_thread_root msg); [|reflexivity].
  destruct (m_ts msg); reflexivity.
Qed.

Lemma thread_roots_app pre post :
  thread_roots (pre ++ post) = thread_roots pre ++ thread_roots post.
Proof. apply omap_app. Qed.

Lemma thread_roots_rev messages :
  thread_roots (rev messages) = rev (thread_roots messages).
Proof.
  induction messages as [|msg messages IH]; [reflexivity|].
  cbn [rev]. rewrite thread_roots_app, IH.
  rewrite (thread_roots_cons msg messages), rev_app_distr. f_equal.
  rewrite thread_roots_cons, app_nil_r.
  destruct (is_thread_root msg); [|reflexivity].
  destruct (m_ts msg); reflexivity.
Qed.

Lemma expand_thread_trace msg (w : World Client) replies w' :
  is_thread_root msg = true ->
  expand_thread channel_id msg w = (Returns replies, w') ->
  trace w' = trace w ++ asked (thread_roots [msg]).
Proof.
  intros Hroot Hrun. rewrite thread_roots_cons, Hroot, app_nil_r.
  unfold expand_thread in Hrun.
  destruct (m_ts msg) as [ts|]; [|discriminate].
  pose proof (fetch_thread_messages_trace ts w) as Ht.
  rewrite Hrun in Ht. exact Ht.
Qed.

Lemma not_root_asks_nothing msg :
  is_thread_root msg = false -> thread_roots [msg] = [].
Proof. intros Hroot. rewrite thread_roots_cons, Hroot. reflexivity. Qed.

Lemma collect_trace messages : forall user_ids (w : World Client) ids w',
  collect user_ids messages w = (Returns ids, w') ->
  trace w' = trace w ++ asked (thread_roots messages).
Proof.
  induction messages as [|msg messages IH]; intros user_ids w ids w' Hrun.
  - injection Hrun as _ <-. symmetry. apply app_nil_r.
  - change (msg :: messages) with ([msg] ++ messages).
    rewrite thread_roots_app, map_app, app_assoc.
    cbn [app collect_user_ids] in Hrun. unfold bind in Hrun.
    destruct (is_thread_root msg) eqn:Hroot.
    + destruct (expand_thread channel_id msg w) as [[replies|e] w1] eqn:Hexp;
        [|discriminate].
      cbn in Hrun. rewrite (IH _ _ _ _ Hrun).
      rewrite (expand_thread_trace _ _ _ _ Hroot Hexp). reflexivity.
    + cbn in Hrun. rewrite (IH _ _ _ _ Hrun).
      rewrite (not_root_asks_nothing _ Hroot). cbn. rewrite app_nil_r. reflexivity.
Qed.

Lemma readable_world ts (w : World Client) : snd (readable float_seconds ts w) = w.
Proof.
  unfold readable, bind, lift. destruct (float_seconds ts) as [seconds|e]; [|reflexivity].
  destruct (readable_time seconds); reflexivity.
Qed.

Lemma reply_data_world reply (w : World Client) : snd (reply_data' reply w) = w.
Proof.
  unfold reply_data, bind, ret.
  pose proof (readable_world (Py.get_default (m_ts reply) "0") w) as Hw.
  destruct (readable _ _ w) as [[text|e] w1]; exact Hw.
Qed.

Lemma replies_data_trace replies : forall (w : World Client) entries w',
  for_each reply_data' replies w = (Returns entries, w') -> w' = w.
Proof.
  induction replies as [|reply replies IH]; intros w entries w' Hrun.
  - injection Hrun as _ <-. reflexivity.
  - cbn [for_each] in Hrun. unfold bind, ret in Hrun.
    pose proof (reply_data_world reply w) as Hw.
    destruct (reply_data' reply w) as [[entry|e] w1]; [|discriminate].
    cbn [snd] in Hw. subst w1.
    destruct (for_each reply_data' replies w) as [[entries'|e] w1] eqn:Hrest;
      [|discriminate].
    injection Hrun as _ <-. eapply IH. exact Hrest.
Qed.

Lemma message_data_trace msg (w : World Client) entry w' :
  message_data' msg w = (Returns entry, w') ->
  trace w' = trace w ++ asked (thread_roots [msg]).
Proof.
  unfold message_data, bind, ret. intros Hrun.
  destruct (is_thread_root msg) eqn:Hroot.
  - destruct (expand_thread channel_id msg w) as [[replies|e] w1] eqn:Hexp;
      [|discriminate].
    destruct (for_each _ replies w1) as [[entries|e] w2] eqn:Hrs; [|discriminate].
    apply replies_data_trace in Hrs. subst w2.
    pose proof (readable_world (Py.get_default (m_ts msg) "0") w1) as Hw.
    destruct (readable _ _ w1) as [[text|e] w3]; [|discriminate].
    cbn [snd] in Hw. subst w3. injection Hrun as _ <-.
    exact (expand_thread_trace _ _ _ _ Hroot Hexp).
  - pose proof (readable_world (Py.get_default (m_ts msg) "0") w) as Hw.
    destruct (readable _ _ w) as [[text|e] w3]; [|discriminate].
    cbn [snd] in Hw. subst w3. injection Hrun as _ <-.
    rewrite (not_root_asks_nothing _ Hroot). symmetry. apply app_nil_r.
Qed.

Lemma chat_data_trace messages : forall (w : World Client) entries w',
  for_each message_data' messages w = (Returns entries, w') ->
  trace w' = trace w ++ asked (thread_roots messages).
Proof.
  induction messages as [|msg messages IH]; intros w entries w' Hrun.
  - injection Hrun as _ <-. symmetry. apply app_nil_r.
  - change (msg :: messages) with ([msg] ++ messages).
    rewrite thread_roots_app, map_app, app_assoc.
    cbn [app for_each] in Hrun. unfold bind, ret in Hrun.
    destruct (message_data' msg w) as [[entry|e] w1] eqn:Hmsg; [|discriminate].
    destruct (for_each message_data' messages w1) as [[entries'|e] w2] eqn:Hrest;
      [|discriminate].
    injection Hrun as _ <-.
    rewrite (IH _ _ _ Hrest), (message_data_trace _ _ _ _ Hmsg). reflexivity.
Qed.

Lemma lookups_length user_ids : forall c : Client,
  length (lookups c user_ids) = length user_ids.
Proof.
  induction user_ids as [|u rest IH]; intros c; [reflexivity|].
  cbn [lookups]. destruct (users_info c u) as [o c']. cbn. rewrite IH. reflexivity.
Qed.

Lemma lookup_events_looked_up user_ids : forall outcomes,
  length outcomes = length user_ids ->
  looked_up (concat (zip_with lookup_events user_ids outcomes)) = user_ids
  /\ expansions (concat (zip_with lookup_events user_ids outcomes)) = [].
Proof.
  induction user_ids as [|u rest IH]; intros [|o outcomes] Hlen;
    try discriminate; [split; reflexivity|].
  injection Hlen as Hlen. destruct (IH outcomes Hlen) as [Hl He].
  cbn [zip_with concat]. unfold looked_up, expansions in *.
  rewrite !omap_app, Hl, He. destruct o; split; reflexivity.
Qed.

Lemma asked_expansions roots :
  expansions (asked roots) = map (pair channel_id) roots
  /\ looked_up (asked roots) = [].
Proof.
  induction roots as [|ts roots [IHe IHl]]; [split; reflexivity|].
  cbn. unfold expansions, looked_up in *. cbn. rewrite IHe, IHl. split; reflexivity.
Qed.

(** The requests of one export, in order: first pass, lookups, second
    pass. *)
Lemma export_data_trace messages start_date end_date (w : World Client) doc w' :
  export messages channel_id start_date end_date w = (Returns doc, w') ->
  exists ids outcomes,
    length outcomes = length (iter_order ids)
    /\ (forall msg, msg ∈ messages -> user_of msg ∈ ids)
    /\ trace w'
       = trace w ++ asked (thread_roots messages)
           ++ concat (zip_with lookup_events (iter_order ids) outcomes)
           ++ asked (rev (thread_roots messages)).
Proof.
  unfold export_data, bind, ret. intros Hrun.
  destruct (collect_user_ids channel_id ∅ messages w) as [[ids|e] w1] eqn:Hcol;
    [|discriminate].
  destruct (fetch_user_info (iter_order ids) w1) as [[info|e] w2] eqn:Hres;
    [|discriminate].
  destruct (for_each _ (rev messages) w2) as [[entries|e] w3] eqn:Hch; [|discriminate].
  injection Hrun as _ <-.
  exists ids, (lookups (client w1) (iter_order ids)).
  split; [apply lookups_length|].
  split; [eapply collect_grows; exact Hcol|].
  rewrite (chat_data_trace _ _ _ _ Hch), thread_roots_rev.
  destruct (fetch_user_info_from_returns _ _ _ _ _ Hres) as [_ ->].
  rewrite (collect_trace _ _ _ _ _ Hcol), <- !app_assoc. reflexivity.
Qed.

(** X17. An export that returns has expanded every thread root exactly
    twice and no other message: once for each root in the order the
    messages were received, then, after the user lookups, once for each
    root in the reverse order. *)
Theorem thread_roots_are_expanded_twice messages start_date end_date
    (w : World Client) doc w' :
  export_data iter_order float_seconds messages channel_id start_date end_date w
    = (Returns doc, w') ->
  exists added,
    trace w' = trace w ++ added
    /\ expansions added
       = map (pair channel_id) (thread_roots messages)
           ++ map (pair channel_id) (rev (thread_roots messages)).
Proof.
  intros Hrun.
  destruct (export_data_trace _ _ _ _ _ _ Hrun) as (ids & outcomes & Hlen & _ & Ht).
  eexists. split; [exact Ht|].
  unfold expansions. rewrite !omap_app. fold (expansions (asked (thread_roots messages))).
  fold (expansions (asked (rev (thread_roots messages)))).
  fold (expansions (concat (zip_with lookup_events (iter_order ids) outcomes))).
  rewrite (proj1 (asked_expansions _)), (proj1 (asked_expansions _)).
  rewrite (proj2 (lookup_events_looked_up _ _ Hlen)). reflexivity.
Qed.

(** X18. An export that returns has looked up the author of every
    top-level message, and no identifier twice, however many messages
    carry it. *)
Theorem authors_are_looked_up_once messages start_date end_date
    (w : World Client) doc w' :
  (forall s, iter_order s ≡ₚ elements s) ->
  export_data iter_order float_seconds messages channel_id start_date end_date w
    = (Returns doc, w') ->
  exists added,
    trace w' = trace w ++ added
    /\ NoDup (looked_up added)
    /\ forall msg, msg ∈ messages -> user_of msg ∈ looked_up added.
Proof.
  intros Hperm Hrun.
  destruct (export_data_trace _ _ _ _ _ _ Hrun) as (ids & outcomes & Hlen & Hin & Ht).
  eexists. split; [exact Ht|].
  unfold looked_up. rewrite !omap_app. fold (looked_up (asked (thread_roots messages))).
  fold (looked_up (asked (rev (thread_roots messages)))).
  fold (looked_up (concat (zip_with lookup_events (iter_order ids) outcomes))).
  rewrite (proj2 (asked_expansions _)), (proj2 (asked_expansions _)).
  rewrite (proj1 (lookup_events_looked_up _ _ Hlen)), app_nil_r. cbn [app].
  split.
  - rewrite (Hperm ids). apply NoDup_elements.
  - intros msg Hmsg. rewrite (Hperm ids). apply elem_of_elements. apply Hin. exact Hmsg.
Qed.

(** X19. Only thread roots carry replies: a message that is not the root
    of a thread is exported with an empty reply list, also when its
    thread marker names another message. *)
Theorem only_thread_roots_carry_replies messages start_date end_date
    (w : World Client) doc w' :
  export_data iter_order float_seconds messages channel_id start_date end_date w
    = (Returns doc, w') ->
  Forall2 (fun msg entry => is_thread_root msg = false -> sm_thread_replies entry = [])
    (rev messages) (chat doc).
Proof.
  intros Hrun. destruct (export_data_chat _ _ _ _ _ _ _ _ _ Hrun) as (w1 & w2 & Hch).
  eapply for_each_Forall2; [|exact Hch].
  intros msg wi entry wi' Hmsg Hroot.
  pose proof (message_data_replies _ _ _ _ _ _ Hmsg) as Hrep.
  rewrite Hroot in Hrep. exact Hrep.
Qed.

End AssemblerRuns.

(** ** Export assembler and entry point: the files *)

Section Files.

Context {Client : Type} `{Transport Client}.

Variable iter_order : gset string -> list string.
Variable float_seconds : string -> Outcome Z.
Variable writable : string -> bool.

Local Abbreviation export := (export_data iter_order float_seconds).
Local Abbreviation save := (save_messages_to_file iter_order float_seconds writable).
Local Abbreviation main' := (main iter_order float_seconds writable).

Lemma keeps_disk_ret {A} (a : A) : keeps_disk (@ret Client A a).
Proof. intros w. reflexivity. Qed.

Lemma keeps_disk_raise {A} e : keeps_disk (@raise Client A e).
Proof. intros w. reflexivity. Qed.

Lemma keeps_disk_lift {A} (o : Outcome A) : keeps_disk (@lift Client A o).
Proof. intros w. reflexivity. Qed.

Lemma keeps_disk_bind {A B} (m : M Client A) (k : A -> M Client B) :
  keeps_disk m -> (forall a, keeps_disk (k a)) -> keeps_disk (bind m k).
Proof.
  intros Hm Hk w. unfold bind. specialize (Hm w).
  destruct (m w) as [[a|e] w1]; cbn [snd] in *; [|exact Hm].
  rewrite (Hk a w1). exact Hm.
Qed.

Lemma keeps_disk_try {A} (m : M Client A) (handler : exn -> M Client A) :
  keeps_disk m -> (forall e, keeps_disk (handler e)) -> keeps_disk (try_except m handler).
Proof.
  intros Hm Hh w. unfold try_except. specialize (Hm w).
  destruct (m w) as [[a|e] w1]; cbn [snd] in *; [exact Hm|].
  rewrite (Hh e w1). exact Hm.
Qed.

Lemma keeps_disk_sleep seconds : keeps_disk (@sleep Client seconds).
Proof. intros w. unfold sleep, emit, raise. destruct (seconds <? 0); reflexivity. Qed.

Lemma keeps_disk_replies channel_id ts : keeps_disk (call_replies channel_id ts).
Proof.
  intros w. unfold call_replies.
  destruct (conversations_replies (client w) channel_id ts). reflexivity.
Qed.

Lemma keeps_disk_users_info user : keeps_disk (call_users_info user).
Proof.
  intros w. unfold call_users_info. destruct (users_info (client w) user). reflexivity.
Qed.

Lemma keeps_disk_for_each {A B} (f : A -> M Client B) l :
  (forall x, keeps_disk (f x)) -> keeps_disk (for_each f l).
Proof.
  intros Hf. induction l as [|x l IH]; cbn [for_each]; [apply keeps_disk_ret|].
  apply keeps_disk_bind; [apply Hf|]. intros y.
  apply keeps_disk_bind; [exact IH|]. intros ys. apply keeps_disk_ret.
Qed.

Lemma keeps_disk_thread channel_id ts : keeps_disk (fetch_thread_messages channel_id ts).
Proof.
  unfold fetch_thread_messages. apply keeps_disk_try.
  - apply keeps_disk_bind; [apply keeps_disk_replies|]. intros response.
    destruct (r_ok response); [|apply keeps_disk_ret].
    destruct (r_messages response); [apply keeps_disk_ret | apply keeps_disk_raise].
  - intros e. destruct e; (apply keeps_disk_ret || apply keeps_disk_raise).
Qed.

Lemma keeps_disk_expand channel_id msg : keeps_disk (expand_thread channel_id msg).
Proof.
  unfold expand_thread.
  destruct (m_ts msg); [apply keeps_disk_thread | apply keeps_disk_raise].
Qed.

Lemma keeps_disk_collect channel_id messages : forall user_ids,
  keeps_disk (collect_user_ids channel_id user_ids messages).
Proof.
  induction messages as [|msg messages IH]; intros user_ids;
    cbn [collect_user_ids]; [apply keeps_disk_ret|].
  apply keeps_disk_bind; [|intros ids; apply IH].
  destruct (is_thread_root msg); [|apply keeps_disk_ret].
  apply keeps_disk_bind; [apply keeps_disk_expand|]. intros replies. apply keeps_disk_ret.
Qed.

Lemma keeps_disk_resolve user_info user_id : keeps_disk (resolve_user user_info user_id).
Proof.
  unfold resolve_user. apply keeps_disk_try.
  - apply keeps_disk_bind; [apply keeps_disk_users_info|]. intros response.
    apply keeps_disk_bind.
    + destruct (ui_ok response); [|apply keeps_disk_ret].
      destruct (ui_user response); [apply keeps_disk_ret | apply keeps_disk_raise].
    + intros info. apply keeps_disk_bind; [apply keeps_disk_sleep|].
      intros _. apply keeps_disk_ret.
  - intros e. destruct e; (apply keeps_disk_ret || apply keeps_disk_raise).
Qed.

Lemma keeps_disk_fetch_user_info user_ids : forall user_info,
  keeps_disk (fetch_user_info_from user_info user_ids).
Proof.
  induction user_ids as [|u rest IH]; intros user_info;
    cbn [fetch_user_info_from]; [apply keeps_disk_ret|].
  apply keeps_disk_bind; [apply keeps_disk_resolve | intros info; apply IH].
Qed.

Lemma keeps_disk_readable ts : keeps_disk (@readable Client float_seconds ts).
Proof.
  unfold readable. apply keeps_disk_bind; [apply keeps_disk_lift|].
  intros seconds. apply keeps_disk_lift.
Qed.

Lemma keeps_disk_reply reply : keeps_disk (@reply_data Client float_seconds reply).
Proof.
  unfold reply_data. apply keeps_disk_bind; [apply keeps_disk_readable|].
  intros text. apply keeps_disk_ret.
Qed.

Lemma keeps_disk_message channel_id msg :
  keeps_disk (message_data float_seconds channel_id msg).
Proof.
  unfold message_data. apply keeps_disk_bind.
  - destruct (is_thread_root msg); [|apply keeps_disk_ret].
    apply keeps_disk_bind; [apply keeps_disk_expand|]. intros replies.
    apply keeps_disk_for_each. apply keeps_disk_reply.
  - intros replies. apply keeps_disk_bind; [apply keeps_disk_readable|].
    intros text. apply keeps_disk_ret.
Qed.

(** Assembling the document writes no file. *)
Lemma keeps_disk_export messages channel_id start_date end_date :
  keeps_disk (export messages channel_id start_date end_date).
Proof.
  unfold export_data.
  apply keeps_disk_bind; [apply keeps_disk_collect|]. intros ids.
  apply keeps_disk_bind; [apply keeps_disk_fetch_user_info|]. intros info.
  apply keeps_disk_bind;
    [apply keeps_disk_for_each; intros msg; apply keeps_disk_message|].
  intros chat. apply keeps_disk_ret.
Qed.

Lemma save_disk messages channel_id filename start_date end_date (w : World Client) f :
  f <> filename ->
  disk (snd (save messages channel_id filename start_date end_date w)) !! f
  = disk w !! f.
Proof.
  intros Hf. unfold save_messages_to_file, try_except, bind, write_file.
  pose proof (keeps_disk_export messages channel_id start_date end_date w) as Hd.
  destruct (export messages channel_id start_date end_date w) as [[doc|e] w1];
    cbn [snd] in Hd.
  - destruct (writable filename); cbn; [|rewrite Hd; reflexivity].
    rewrite lookup_insert_ne by congruence. rewrite Hd. reflexivity.
  - destruct e; cbn; rewrite Hd; reflexivity.
Qed.

(** X20. Whatever the transport does, [save_messages_to_file] never
    raises an [OSError], and the only file it can change is the one it
    was given the name of. *)
Theorem save_changes_only_its_file messages channel_id filename start_date end_date
    (w : World Client) :
  (forall msg,
      fst (save_messages_to_file iter_order float_seconds writable
             messages channel_id filename start_date end_date w)
      <> Raises (OSError msg))
  /\ forall f,
       f <> filename ->
       disk (snd (save_messages_to_file iter_order float_seconds writable
                    messages channel_id filename start_date end_date w)) !! f
       = disk w !! f.
Proof.
  split; [|intros f Hf; apply save_disk; exact Hf].
  intros msg. unfold save_messages_to_file, try_except, bind, write_file.
  destruct (export messages channel_id start_date end_date w) as [[doc|e] w1].
  - destruct (writable filename); cbn; discriminate.
  - destruct e; cbn; discriminate.
Qed.

(** X21. An [OSError] is absorbed wherever it comes from: when the file
    cannot be opened, and when the transport raises one while the
    document is assembled, the function returns normally and the files are
    as they were. *)
Theorem os_errors_are_absorbed messages channel_id filename start_date end_date
    (w : World Client) :
  (forall doc w',
      export_data iter_order float_seconds messages channel_id start_date end_date w
        = (Returns doc, w') ->
      writable filename = false ->
      save_messages_to_file iter_order float_seconds writable
        messages channel_id filename start_date end_date w = (Returns tt, w')
      /\ disk w' = disk w)
  /\ (forall msg w',
        export_data iter_order float_seconds messages channel_id start_date end_date w
          = (Raises (OSError msg), w') ->
        save_messages_to_file iter_order float_seconds writable
          messages channel_id filename start_date end_date w = (Returns tt, w')
        /\ disk w' = disk w).
Proof.
  pose proof (keeps_disk_export messages channel_id start_date end_date w) as Hd.
  split.
  - intros doc w' Hrun Hw. rewrite Hrun in Hd.
    unfold save_messages_to_file, try_except, bind, write_file.
    rewrite Hrun, Hw. split; [reflexivity | exact Hd].
  - intros msg w' Hrun. rewrite Hrun in Hd.
    unfold save_messages_to_file, try_except, bind.
    rewrite Hrun. split; [reflexivity | exact Hd].
Qed.

(** X22. A run of the whole program changes no file but the output file:
    the one named on the command line or, without a name, the one named
    after the channel and the clock. *)
Theorem main_changes_only_the_output_file fuel now args (w : World Client) f :
  generate_output_filename now (arg_channel_id args) (arg_output args) <> Returns f ->
  disk (snd (main iter_order float_seconds writable fuel now args w)) !! f
  = disk w !! f.
Proof.
  intros Hf. unfold main.
  destruct (String.eqb (arg_channel_id args) ""); [reflexivity|].
  destruct (convert_datetime_to_timestamp (arg_start_date args) "00:00:00")
    as [[oldest|]|e]; [| |reflexivity];
    (destruct (convert_datetime_to_timestamp (arg_end_date args) "23:59:59")
       as [[latest|]|e']; try reflexivity).
  destruct (readable_time oldest) as [start_date_str|e]; [|reflexivity].
  destruct (readable_time latest) as [end_date_str|e]; [|reflexivity].
  pose proof (history_loop_disk fuel (arg_channel_id args) oldest latest
                {| all_messages := []; cursor := None |} w) as Hd.
  unfold fetch_messages_for_period.
  destruct (history_loop fuel (arg_channel_id args) oldest latest _ w)
    as [[[messages|e]|] w1]; cbn [snd] in *; try (rewrite Hd; reflexivity).
  destruct messages as [|msg messages]; [cbn; rewrite Hd; reflexivity|].
  destruct (generate_output_filename now (arg_channel_id args) (arg_output args))
    as [output_filename|e]; [|cbn; rewrite Hd; reflexivity].
  pose proof (save_disk (msg :: messages) (arg_channel_id args) output_filename
                start_date_str end_date_str w1 f) as Hs.
  destruct (save (msg :: messages) (arg_channel_id args) output_filename
              start_date_str end_date_str w1) as [o w2].
  cbn [snd] in *. rewrite Hs, Hd; [reflexivity|]. congruence.
Qed.

End Files.

(** ** The export completes *)

Section Completion.

Context {Client : Type} `{Transport Client}.

Variable iter_order : gset string -> list string.
Variable float_seconds : string -> Outcome Z.
Variable writable : string -> bool.
Variable channel_id : string.

(** The states the client can be in. *)
Variable reachable : Client -> Prop.

Hypothesis replies_reachable : forall c channel ts,
  reachable c -> reachable (snd (conversations_replies c channel ts)).
Hypothesis users_reachable : forall c user,
  reachable c -> reachable (snd (users_info c user)).


End Completion.

(** ** Messages without a timestamp *)

Section Defaults.

Context {Client : Type} `{Transport Client}.

Variable float_seconds : string -> Outcome Z.
Variable channel_id : string.

Lemma epoch_readable : readable_time 0 = Returns "1970-01-01 09:00:00".
Proof. vm_compute. reflexivity. Qed.

(** X24. A message without a timestamp is exported all the same: its
    timestamp is the empty string, its readable time that of the epoch in
    Tokyo, and it is never taken for a thread root, so that no request is
    made for it; a reply without a timestamp gets the same two values. *)
Theorem undated_message_gets_defaults msg (w : World Client) :
  float_seconds "0" = Returns 0 ->
  m_ts msg = None ->
  message_data float_seconds channel_id msg w
  = (Returns {| sm_timestamp := ""; sm_readable_time := "1970-01-01 09:00:00";
                sm_user := user_of msg; sm_text := Py.get_default (m_text msg) "";
                sm_thread_replies := [] |}, w)
  /\ reply_data float_seconds msg w
     = (Returns {| tr_timestamp := ""; tr_readable_time := "1970-01-01 09:00:00";
                   tr_user := user_of msg; tr_text := Py.get_default (m_text msg) "" |},
        w).
Proof.
  intros Hzero Hts.
  assert (is_thread_root msg = false) as Hroot.
  { unfold is_thread_root. rewrite Hts.
    destruct (m_thread_ts msg) as [ts|]; [|reflexivity].
    rewrite bool_decide_eq_false_2 by discriminate. apply andb_false_r. }
  unfold message_data, reply_data, bind, ret, readable, lift.
  rewrite Hroot, Hts. cbn [Py.get_default].
  rewrite Hzero. unfold bind. rewrite epoch_readable. split; reflexivity.
Qed.

End Defaults.

(** ** The assembler's properties on concrete runs *)

Lemma export_run :
  export_data elements_order whole_seconds export_messages "C123"
    "2023-01-01 00:00:00" "2023-01-02 23:59:59" (start_world export_client)
  = (Returns export_doc, after_export).
Proof. vm_compute. reflexivity. Qed.

Lemma thread_roots_are_expanded_twice_witness :
  exists added,
    trace after_export = [] ++ added
    /\ expansions added
       = map (pair "C123") (thread_roots export_messages)
           ++ map (pair "C123") (rev (thread_roots export_messages)).
Proof.
  exact (thread_roots_are_expanded_twice elements_order whole_seconds "C123"
           export_messages "2023-01-01 00:00:00" "2023-01-02 23:59:59"
           (start_world export_client) export_doc after_export export_run).
Defined.

Lemma authors_are_looked_up_once_witness :
  exists added,
    trace after_export = [] ++ added
    /\ NoDup (looked_up added)
    /\ forall msg, msg ∈ export_messages -> user_of msg ∈ looked_up added.
Proof.
  exact (authors_are_looked_up_once elements_order whole_seconds "C123"
           export_messages "2023-01-01 00:00:00" "2023-01-02 23:59:59"
           (start_world export_client) export_doc after_export
           elements_order_perm export_run).
Defined.

Lemma only_thread_roots_carry_replies_witness :
  Forall2 (fun msg entry => is_thread_root msg = false -> sm_thread_replies entry = [])
    (rev export_messages) (chat export_doc).
Proof.
  exact (only_thread_roots_carry_replies elements_order whole_seconds "C123"
           export_messages "2023-01-01 00:00:00" "2023-01-02 23:59:59"
           (start_world export_client) export_doc after_export export_run).
Defined.

Lemma save_changes_only_its_file_witness :
  disk (snd (save_messages_to_file elements_order whole_seconds always_writable
               export_messages "C123" "out.json"
               "2023-01-01 00:00:00" "2023-01-02 23:59:59"
               (start_world export_client))) !! "other.json"
  = disk (start_world export_client) !! "other.json".
Proof.
  apply (proj2 (save_changes_only_its_file elements_order whole_seconds always_writable
                  export_messages "C123" "out.json"
                  "2023-01-01 00:00:00" "2023-01-02 23:59:59"
                  (start_world export_client)) "other.json").
  discriminate.
Defined.

Lemma thread_connection_run :
  export_data elements_order whole_seconds export_messages "C123"
    "2023-01-01 00:00:00" "2023-01-02 23:59:59" (start_world thread_connection_client)
  = (Raises (OSError "connection failed"),
     world_with thread_connection_client [EvReplies "C123" "100"] ∅).
Proof. vm_compute. reflexivity. Qed.

Lemma os_errors_are_absorbed_witness :
  (save_messages_to_file elements_order whole_seconds never_writable
     export_messages "C123" "out.json" "2023-01-01 00:00:00" "2023-01-02 23:59:59"
     (start_world export_client) = (Returns tt, after_export)
   /\ disk after_export = disk (start_world export_client))
  /\ (save_messages_to_file elements_order whole_seconds always_writable
        export_messages "C123" "out.json" "2023-01-01 00:00:00" "2023-01-02 23:59:59"
        (start_world thread_connection_client)
      = (Returns tt, world_with thread_connection_client [EvReplies "C123" "100"] ∅)
      /\ disk (world_with thread_connection_client [EvReplies "C123" "100"] ∅)
         = disk (start_world thread_connection_client)).
Proof.
  split.
  - apply (proj1 (os_errors_are_absorbed elements_order whole_seconds never_writable
                    export_messages "C123" "out.json"
                    "2023-01-01 00:00:00" "2023-01-02 23:59:59"
                    (start_world export_client))
             export_doc after_export export_run).
    reflexivity.
  - apply (proj2 (os_errors_are_absorbed elements_order whole_seconds always_writable
                    export_messages "C123" "out.json"
                    "2023-01-01 00:00:00" "2023-01-02 23:59:59"
                    (start_world thread_connection_client))
             "connection failed"
             (world_with thread_connection_client [EvReplies "C123" "100"] ∅)
             thread_connection_run).
Defined.

Lemma main_changes_only_the_output_file_witness :
  disk (snd (main elements_order whole_seconds always_writable 1 0 export_args
               (start_world export_client))) !! "other.json"
  = disk (start_world export_client) !! "other.json".
Proof.
  apply (main_changes_only_the_output_file elements_order whole_seconds always_writable
           1 0 export_args (start_world export_client) "other.json").
  discriminate.
Defined.

Lemma same_tables_replies c0 (c : Scripted) channel ts :
  same_tables c0 c -> same_tables c0 (snd (conversations_replies c channel ts)).
Proof. intros Hc. exact Hc. Qed.

Lemma same_tables_users c0 (c : Scripted) user :
  same_tables c0 c -> same_tables c0 (snd (users_info c user)).
Proof. intros Hc. exact Hc. Qed.

Lemma whole_seconds_formattable ts seconds text :
  Py.int ts = Some seconds -> readable_time seconds = Returns text ->
  forall msg, m_ts msg = Some ts -> formattable whole_seconds msg.
Proof.
  intros Hint Htext msg Hts. exists seconds, text.
  rewrite Hts. cbn [Py.get_default]. unfold whole_seconds. rewrite Hint.
  split; [reflexivity | exact Htext].
Qed.

Lemma export_client_replies c channel ts :
  same_tables export_client c ->
  replies_answered whole_seconds (fst (conversations_replies c channel ts)).
Proof.
  intros [Hr _]. cbn. rewrite Hr. right. eexists. split; [reflexivity|].
  cbn. constructor; [|constructor].
  apply (whole_seconds_formattable "101" 101 "1970-01-01 09:01:41");
    vm_compute; reflexivity.
Qed.

Lemma export_client_users c user :
  same_tables export_client c -> answered (fst (users_info c user)).
Proof. intros [_ Hu]. cbn. rewrite Hu. right. eexists. reflexivity. Qed.

Lemma export_messages_formattable : Forall (formattable whole_seconds) export_messages.
Proof.
  constructor; [|constructor; [|constructor]].
  - apply (whole_seconds_formattable "100" 100 "1970-01-01 09:01:40");
      vm_compute; reflexivity.
  - apply (whole_seconds_formattable "200" 200 "1970-01-01 09:03:20");
      vm_compute; reflexivity.
Qed.


Lemma undated_message_gets_defaults_witness :
  message_data whole_seconds "C123" undated (start_world export_client)
  = (Returns {| sm_timestamp := ""; sm_readable_time := "1970-01-01 09:00:00";
                sm_user := user_of undated;
                sm_text := Py.get_default (m_text undated) "";
                sm_thread_replies := [] |}, start_world export_client)
  /\ reply_data whole_seconds undated (start_world export_client)
     = (Returns {| tr_timestamp := ""; tr_readable_time := "1970-01-01 09:00:00";
                   tr_user := user_of undated;
                   tr_text := Py.get_default (m_text undated) "" |},
        start_world export_client).
Proof.
  apply (undated_message_gets_defaults whole_seconds "C123" undated
           (start_world export_client)); reflexivity.
Defined.

(** ** The period of a run *)

Section Period.

Import DateTime.
Import Pytz.

(** From the first of January 1952 on, every reading of the clock in
    Tokyo is nine hours ahead of UTC. *)
Lemma localize_standard_time L :
  -577926000 <= L <= MAX_SECONDS - 86400 ->
  localize L = Returns {| wall := L; tz := JST |}.
Proof.
  intros HL.
  assert (in_gap L = false) as Hgap.
  { unfold in_gap. cbn [existsb].
    repeat match goal with
           | |- context [?a <=? ?b] => destruct (Z.leb_spec a b); try lia
           | |- context [?a <? ?b] => destruct (Z.ltb_spec a b); try lia
           end; reflexivity. }
  destruct (localize_fromtimestamp L) as (a & Hl & Hf & Hwall);
    [unfold START; lia | exact Hgap |].
  rewrite Hl. f_equal.
  unfold fromtimestamp, fromutc in Hf.
  destruct (in_range (utc_of a)); [|discriminate].
  pose proof (utcoffset_bounds (utc_of a)) as Hb.
  destruct (add_seconds (utc_of a) (utcoffset (info_at (utc_of a)))) as [l|e] eqn:Hadd;
    [|discriminate].
  injection Hf as Hf.
  assert (tz a = info_at (utc_of a)) as Htz by (rewrite <- Hf at 1; reflexivity).
  assert (info_at (utc_of a) = JST) as Hjst.
  { assert (-577962000 <= utc_of a) as Hu.
    { unfold utc_of. rewrite Htz, Hwall. lia. }
    destruct (info_at_cases (utc_of a))
      as [[? _] | [[? _] | [[? _] | [[? _] | [[? _] | [[? _]
          | [[? _] | [[? _] | [[? _] | [_ E]]]]]]]]]]; try lia.
    exact E. }
  rewrite Hjst in Htz. clear - Hwall Htz.
  destruct a as [wa tza]. cbn [wall tz] in Hwall, Htz. subst. reflexivity.
Qed.

Lemma convert_standard_time d t y m dd h mi s :
  parse_ymd d = Some (y, m, dd, EmptyString) ->
  parse_hms t = Some (h, mi, s, EmptyString) ->
  valid_date y m dd = true -> valid_time h mi s = true ->
  1952 <= y -> ~ (y = 9999 /\ m = 12 /\ dd = 31) ->
  convert_datetime_to_timestamp d t
  = Returns (Some ((ymd2ord y m dd - 719163) * 86400 + h * 3600 + mi * 60 + s - 32400)).
Proof.
  intros Hpd Hpt Hvd Hvt Hy Hlast.
  set (dt := {| year := y; month := m; day := dd;
                hour := h; minute := mi; second := s |}).
  pose proof (valid_datetime_parsed _ _ _ _ _ _ _ _ Hpd Hpt Hvd Hvt) as Hv.
  fold dt in Hv.
  pose proof (window_range dt Hv ltac:(cbn; lia) ltac:(cbn; lia)) as [_ Hhi].
  destruct (valid_datetime_fields dt Hv) as (_ & Hh & Hmi & Hs). cbn in Hh, Hmi, Hs.
  destruct (ymd2ord_bounds _ _ _ Hvd) as (Hb & _).
  pose proof (days_before_year_mono 1952 y ltac:(lia)) as Hlo.
  change (days_before_year 1952) with 712587 in Hlo.
  unfold convert_datetime_to_timestamp.
  rewrite (strptime_well_formed _ _ _ _ _ _ _ _ Hpd Hpt Hvd Hvt). fold dt.
  rewrite localize_standard_time.
  - unfold utc_of, to_seconds. cbn. reflexivity.
  - split; [|exact Hhi]. unfold to_seconds. cbn. lia.
Qed.

(** X25. For a start date and an end date from 1952 on, the period
    handed to the paginator runs from the first second of the start date
    to the last second of the end date, every day counting for 86 400
    seconds: a run over one date covers 86 399 seconds, and an end date
    before the start date gives bounds in the wrong order. *)
Theorem period_covers_whole_days start_date end_date :
  well_formed_date start_date = true -> after_summer_time start_date = true ->
  well_formed_date end_date = true -> after_summer_time end_date = true ->
  exists oldest latest,
    convert_datetime_to_timestamp start_date "00:00:00" = Returns (Some oldest)
    /\ convert_datetime_to_timestamp end_date "23:59:59" = Returns (Some latest)
    /\ latest - oldest
       = 86400 * (toordinal end_date - toordinal start_date) + 86399.
Proof.
  unfold well_formed_date, after_summer_time, toordinal.
  intros Hw1 Ha1 Hw2 Ha2.
  destruct (parse_ymd start_date) as [[[[y1 m1] d1] [|? ?]]|] eqn:Hp1;
    try discriminate.
  destruct (parse_ymd end_date) as [[[[y2 m2] d2] [|? ?]]|] eqn:Hp2;
    try discriminate.
  eexists _, _. split; [|split].
  - apply (convert_standard_time start_date "00:00:00" y1 m1 d1 0 0 0 Hp1);
      [reflexivity | exact Hw1 | reflexivity | lia | lia].
  - apply (convert_standard_time end_date "23:59:59" y2 m2 d2 23 59 59 Hp2);
      [reflexivity | exact Hw2 | reflexivity | lia | lia].
  - lia.
Qed.

End Period.

Lemma period_covers_whole_days_witness :
  exists oldest latest,
    convert_datetime_to_timestamp "2023-01-01" "00:00:00" = Returns (Some oldest)
    /\ convert_datetime_to_timestamp "2023-01-02" "23:59:59" = Returns (Some latest)
    /\ latest - oldest
       = 86400 * (toordinal "2023-01-02" - toordinal "2023-01-01") + 86399.
Proof.
  apply (period_covers_whole_days "2023-01-01" "2023-01-02"); reflexivity.
Defined.

(** ** From timestamps back to dates *)

Section Calendar.

Import DateTime.
Import Pytz.

Lemma days_before_year_succ y :
  days_before_year (y + 1) = days_before_year y + 365 + (if is_leap y then 1 else 0).
Proof.
  unfold days_before_year, is_leap. cbv zeta.
  replace (y + 1 - 1) with y by lia.
  destruct (Z.eqb_spec (y mod 4) 0); destruct (Z.eqb_spec (y mod 100) 0);
    destruct (Z.eqb_spec (y mod 400) 0); cbn [andb orb negb];
    Z.to_euclidean_division_equations; lia.
Qed.

(** Every day number falls in some year. *)
Lemma year_of_ordinal k n :
  0 <= k -> 0 < n <= days_before_year (1 + k) ->
  exists y, 1 <= y <= k /\ days_before_year y < n <= days_before_year (y + 1).
Proof.
  intros Hk. revert n. pattern k. apply natlike_ind; [| |exact Hk]; clear k Hk.
  - intros n Hn. change (days_before_year (1 + 0)) with 0 in Hn. lia.
  - intros k Hk IH n Hn.
    destruct (Z_le_gt_dec n (days_before_year (1 + k))) as [Hle | Hgt].
    + destruct (IH n ltac:(lia)) as (y & Hy & Hb). exists y. split; [lia | exact Hb].
    + exists (1 + k). split; [lia|].
      replace (1 + k + 1) with (1 + Z.succ k) by lia. lia.
Qed.

(** Every day number from 1 to 3 652 059 is that of a calendar date. *)
Lemma ordinal_is_a_date n :
  1 <= n <= 3652059 ->
  exists y m d, valid_date y m d = true /\ ymd2ord y m d = n.
Proof.
  intros Hn.
  destruct (year_of_ordinal 9999 n) as (y & Hy & Hb); [lia | |].
  { change (days_before_year (1 + 9999)) with 3652059. lia. }
  rewrite days_before_year_succ in Hb.
  set (r := n - days_before_year y).
  assert (n = days_before_year y + r) as Hr by (unfold r; lia).
  clearbody r. subst n.
  unfold valid_date, ymd2ord, days_before_month, days_in_month.
  destruct (is_leap y) eqn:Hl.
  - assert (r <= 31 \/ 31 < r <= 60 \/ 60 < r <= 91 \/ 91 < r <= 121
            \/ 121 < r <= 152 \/ 152 < r <= 182 \/ 182 < r <= 213
            \/ 213 < r <= 244 \/ 244 < r <= 274 \/ 274 < r <= 305
            \/ 305 < r <= 335 \/ 335 < r) as Hc by lia.
    destruct Hc as [Hc | [Hc | [Hc | [Hc | [Hc | [Hc | [Hc | [Hc | [Hc | [Hc
                     | [Hc | Hc]]]]]]]]]]];
      [ exists y, 1, r | exists y, 2, (r - 31) | exists y, 3, (r - 60)
      | exists y, 4, (r - 91) | exists y, 5, (r - 121) | exists y, 6, (r - 152)
      | exists y, 7, (r - 182) | exists y, 8, (r - 213) | exists y, 9, (r - 244)
      | exists y, 10, (r - 274) | exists y, 11, (r - 305) | exists y, 12, (r - 335) ];
      rewrite Hl;
      cbn [DAYS_IN_MONTH DAYS_BEFORE_MONTH Z.eqb Pos.eqb Z.ltb Z.compare
           Pos.compare Pos.compare_cont andb]; (split; lia).
  - assert (r <= 31 \/ 31 < r <= 59 \/ 59 < r <= 90 \/ 90 < r <= 120
            \/ 120 < r <= 151 \/ 151 < r <= 181 \/ 181 < r <= 212
            \/ 212 < r <= 243 \/ 243 < r <= 273 \/ 273 < r <= 304
            \/ 304 < r <= 334 \/ 334 < r) as Hc by lia.
    destruct Hc as [Hc | [Hc | [Hc | [Hc | [Hc | [Hc | [Hc | [Hc | [Hc | [Hc
                     | [Hc | Hc]]]]]]]]]]];
      [ exists y, 1, r | exists y, 2, (r - 31) | exists y, 3, (r - 59)
      | exists y, 4, (r - 90) | exists y, 5, (r - 120) | exists y, 6, (r - 151)
      | exists y, 7, (r - 181) | exists y, 8, (r - 212) | exists y, 9, (r - 243)
      | exists y, 10, (r - 273) | exists y, 11, (r - 304) | exists y, 12, (r - 334) ];
      rewrite Hl;
      cbn [DAYS_IN_MONTH DAYS_BEFORE_MONTH Z.eqb Pos.eqb Z.ltb Z.compare
           Pos.compare Pos.compare_cont andb]; (split; lia).
Qed.

Lemma ymd2ord_ord2ymd n :
  1 <= n <= 3652059 ->
  exists y m d, ord2ymd n = (y, m, d) /\ valid_date y m d = true /\ ymd2ord y m d = n.
Proof.
  intros Hn. destruct (ordinal_is_a_date n Hn) as (y & m & d & Hv & Ho).
  exists y, m, d. split; [|split; [exact Hv | exact Ho]].
  rewrite <- Ho. apply ord2ymd_ymd2ord. exact Hv.
Qed.

(** Every reading between [datetime.min] and [datetime.max] has its six
    fields in range, and they give the reading back. *)
Lemma to_seconds_of_seconds z :
  MIN_SECONDS <= z <= MAX_SECONDS ->
  valid_datetime (of_seconds z) = true /\ to_seconds (of_seconds z) = z.
Proof.
  unfold MIN_SECONDS, MAX_SECONDS. intros Hz.
  destruct (ymd2ord_ord2ymd (z / 86400 + 719163)) as (y & m & d & Ho & Hv & Hn).
  { Z.to_euclidean_division_equations; lia. }
  unfold of_seconds. rewrite Ho.
  unfold valid_datetime, valid_time, to_seconds. cbn [year month day hour minute second].
  rewrite Hv, Hn. split.
  - Z.to_euclidean_division_equations; lia.
  - Z.to_euclidean_division_equations; lia.
Qed.

Lemma digits2_pad2 n rest : 0 <= n <= 99 -> digits 2 0 (pad2 n rest) = Some (n, rest).
Proof.
  intros Hn. unfold pad2. cbn [digits].
  rewrite !digit_of_char by (Z.to_euclidean_division_equations; lia).
  f_equal. f_equal. Z.to_euclidean_division_equations; lia.
Qed.

Lemma digits4_pad4 n rest : 0 <= n <= 9999 -> digits 4 0 (pad4 n rest) = Some (n, rest).
Proof.
  intros Hn. unfold pad4, pad2. cbn [digits].
  rewrite !digit_of_char by (Z.to_euclidean_division_equations; lia).
  f_equal. f_equal. Z.to_euclidean_division_equations; lia.
Qed.

Lemma parse_ymd_format y m d rest :
  0 <= y <= 9999 -> 0 <= m <= 99 -> 0 <= d <= 99 ->
  parse_ymd (pad4 y (sep "-" (pad2 m (sep "-" (pad2 d rest))))) = Some (y, m, d, rest).
Proof.
  intros Hy Hm Hd. unfold parse_ymd, sep.
  rewrite digits4_pad4 by exact Hy. cbn [mbind option_bind lit]. rewrite Ascii.eqb_refl.
  cbn [mbind option_bind]. rewrite digits2_pad2 by exact Hm.
  cbn [mbind option_bind lit]. rewrite Ascii.eqb_refl.
  cbn [mbind option_bind]. rewrite digits2_pad2 by exact Hd. reflexivity.
Qed.

Lemma parse_hms_format h mi s rest :
  0 <= h <= 99 -> 0 <= mi <= 99 -> 0 <= s <= 99 ->
  parse_hms (pad2 h (sep ":" (pad2 mi (sep ":" (pad2 s rest))))) = Some (h, mi, s, rest).
Proof.
  intros Hh Hmi Hs. unfold parse_hms, sep.
  rewrite digits2_pad2 by exact Hh. cbn [mbind option_bind lit]. rewrite Ascii.eqb_refl.
  cbn [mbind option_bind]. rewrite digits2_pad2 by exact Hmi.
  cbn [mbind option_bind lit]. rewrite Ascii.eqb_refl.
  cbn [mbind option_bind]. rewrite digits2_pad2 by exact Hs. reflexivity.
Qed.

Lemma valid_datetime_ranges dt :
  valid_datetime dt = true ->
  (1 <= year dt <= 9999 /\ 1 <= month dt <= 12 /\ 1 <= day dt <= 31)
  /\ 0 <= hour dt <= 23 /\ 0 <= minute dt <= 59 /\ 0 <= second dt <= 59.
Proof.
  intros Hv. destruct (valid_datetime_fields dt Hv) as (Hd & Hh & Hmi & Hs).
  split; [|lia]. unfold valid_date, days_in_month in Hd.
  assert (1 <= month dt <= 12) as Hm by lia.
  assert (month dt = 1 \/ month dt = 2 \/ month dt = 3 \/ month dt = 4
          \/ month dt = 5 \/ month dt = 6 \/ month dt = 7 \/ month dt = 8
          \/ month dt = 9 \/ month dt = 10 \/ month dt = 11 \/ month dt = 12)
    as Hc by lia.
  destruct (is_leap (year dt));
    repeat (destruct Hc as [Hc | Hc]); rewrite Hc in Hd |- *; cbn in Hd; lia.
Qed.

(** From [STANDARD_TIME] on, a timestamp reads nine hours ahead of
    UTC. *)
Lemma fromtimestamp_standard_time ts :
  standard_time ts = true ->
  fromtimestamp ts = Returns {| wall := ts + 32400; tz := JST |}.
Proof.
  unfold standard_time, STANDARD_TIME, LAST_INSTANT. intros Hts.
  unfold fromtimestamp, fromutc, in_range, MIN_SECONDS, MAX_SECONDS.
  destruct (Z.leb_spec (-62135596800) ts); [|lia].
  destruct (Z.leb_spec ts 253402300799); [|lia]. cbn [andb].
  destruct (info_at_cases ts)
    as [[? _] | [[? _] | [[? _] | [[? _] | [[? _] | [[? _]
        | [[? _] | [[? _] | [[? _] | [_ ->]]]]]]]]]]; try lia.
  cbn [utcoffset JST]. rewrite add_seconds_ok; [reflexivity|].
  unfold MIN_SECONDS, MAX_SECONDS. lia.
Qed.

(** X27. From 1951-09-09 01:00:00 on, what the export shows for a
    timestamp can be converted back: the readable time is a well-formed
    date, a space and a well-formed time of day, and converting the two
    gives the timestamp. *)
Theorem readable_time_converts_back ts :
  standard_time ts = true ->
  exists date_str time_str,
    readable_time ts = Returns (date_str ++ " " ++ time_str)%string
    /\ well_formed_date date_str = true
    /\ well_formed_time time_str = true
    /\ convert_datetime_to_timestamp date_str time_str = Returns (Some ts).
Proof.
  intros Hts. pose proof Hts as Hrange.
  unfold standard_time, STANDARD_TIME, LAST_INSTANT in Hrange.
  destruct (to_seconds_of_seconds (ts + 32400)) as [Hv Hback].
  { unfold MIN_SECONDS, MAX_SECONDS. lia. }
  set (dt := of_seconds (ts + 32400)) in *.
  destruct (valid_datetime_ranges dt Hv) as ((Hy & Hm & Hd) & Hh & Hmi & Hs).
  destruct (valid_datetime_fields dt Hv) as (Hvd & _).
  assert (valid_time (hour dt) (minute dt) (second dt) = true) as Hvt
    by (unfold valid_time; lia).
  pose proof (parse_ymd_format (year dt) (month dt) (day dt) ""
                ltac:(lia) ltac:(lia) ltac:(lia)) as Hpd.
  pose proof (parse_hms_format (hour dt) (minute dt) (second dt) ""
                ltac:(lia) ltac:(lia) ltac:(lia)) as Hpt.
  exists (pad4 (year dt) (sep "-" (pad2 (month dt) (sep "-" (pad2 (day dt) ""))))),
         (pad2 (hour dt) (sep ":" (pad2 (minute dt) (sep ":" (pad2 (second dt) ""))))).
  split; [|split; [|split]].
  - unfold readable_time. rewrite (fromtimestamp_standard_time ts Hts).
    cbn [wall]. fold dt. reflexivity.
  - unfold well_formed_date. rewrite Hpd. exact Hvd.
  - unfold well_formed_time. rewrite Hpt. exact Hvt.
  - unfold convert_datetime_to_timestamp.
    rewrite (strptime_well_formed _ _ _ _ _ _ _ _ Hpd Hpt Hvd Hvt).
    replace {| year := year dt; month := month dt; day := day dt;
               hour := hour dt; minute := minute dt; second := second dt |}
      with dt by (destruct dt; reflexivity).
    rewrite Hback, localize_standard_time by (unfold MAX_SECONDS; lia).
    unfold utc_of. cbn [wall tz utcoffset JST]. do 2 f_equal. lia.
Qed.

Lemma readable_time_converts_back_witness :
  exists date_str time_str,
    readable_time 1672544096 = Returns (date_str ++ " " ++ time_str)%string
    /\ well_formed_date date_str = true
    /\ well_formed_time time_str = true
    /\ convert_datetime_to_timestamp date_str time_str = Returns (Some 1672544096).
Proof. apply (readable_time_converts_back 1672544096). reflexivity. Defined.

End Calendar.

(** ** Output file names *)

Section FileNames.

Import DateTime.
Import Pytz.

(** X26. A name given with [--output] is used as it is, whatever the
    channel and the clock, unless it is the empty string, which counts as
    no name at all. *)
Theorem output_name_is_used_unless_empty now channel_id output :
  generate_output_filename now channel_id (Some output)
  = if String.eqb output ""
    then generate_output_filename now channel_id None
    else Returns output.
Proof.
  unfold generate_output_filename. cbn [Py.truthy Py.get_default].
  destruct (String.eqb_spec output "") as [-> | Hne]; reflexivity.
Qed.

Lemma pad2_inj a b rest rest' :
  0 <= a <= 99 -> 0 <= b <= 99 -> pad2 a rest = pad2 b rest' -> a = b /\ rest = rest'.
Proof.
  intros Ha Hb Heq. apply (f_equal (digits 2 0)) in Heq.
  rewrite !digits2_pad2 in Heq by assumption. injection Heq as -> ->. split; reflexivity.
Qed.

Lemma pad4_inj a b rest rest' :
  0 <= a <= 9999 -> 0 <= b <= 9999 -> pad4 a rest = pad4 b rest' -> a = b /\ rest = rest'.
Proof.
  intros Ha Hb Heq. apply (f_equal (digits 4 0)) in Heq.
  rewrite !digits4_pad4 in Heq by assumption. injection Heq as -> ->. split; reflexivity.
Qed.

Lemma append_cancel (p s t : string) : (p ++ s)%string = (p ++ t)%string -> s = t.
Proof.
  induction p as [|c p IH]; cbn; [auto|]. intros [= Heq]. apply IH. exact Heq.
Qed.

Lemma strftime_compact_inj dt1 dt2 rest :
  valid_datetime dt1 = true -> valid_datetime dt2 = true ->
  (strftime_compact dt1 ++ rest)%string = (strftime_compact dt2 ++ rest)%string ->
  dt1 = dt2.
Proof.
  intros Hv1 Hv2 Heq.
  destruct (valid_datetime_ranges dt1 Hv1) as ((Hy1 & Hm1 & Hd1) & Hh1 & Hmi1 & Hs1).
  destruct (valid_datetime_ranges dt2 Hv2) as ((Hy2 & Hm2 & Hd2) & Hh2 & Hmi2 & Hs2).
  change (pad4 (year dt1) (pad2 (month dt1) (pad2 (day dt1) (sep "-"
            (pad2 (hour dt1) (pad2 (minute dt1) (pad2 (second dt1) rest))))))
          = pad4 (year dt2) (pad2 (month dt2) (pad2 (day dt2) (sep "-"
              (pad2 (hour dt2) (pad2 (minute dt2) (pad2 (second dt2) rest)))))))
    in Heq.
  apply pad4_inj in Heq as [Hy Heq]; [|lia|lia].
  apply pad2_inj in Heq as [Hm Heq]; [|lia|lia].
  apply pad2_inj in Heq as [Hd Heq]; [|lia|lia].
  apply (append_cancel "-") in Heq.
  apply pad2_inj in Heq as [Hh Heq]; [|lia|lia].
  apply pad2_inj in Heq as [Hmi Heq]; [|lia|lia].
  apply pad2_inj in Heq as [Hs _]; [|lia|lia].
  destruct dt1, dt2. cbn in *. congruence.
Qed.

Lemma default_name now channel_id :
  standard_time now = true ->
  generate_output_filename now channel_id None
  = Returns (channel_id ++ "-" ++ strftime_compact (of_seconds (now + 32400))
             ++ ".json")%string.
Proof.
  intros Hnow. unfold generate_output_filename. cbn [Py.truthy].
  rewrite (fromtimestamp_standard_time now Hnow). reflexivity.
Qed.



End FileNames.

(** ** The boundaries of the document *)

Section Boundaries.

Context {Client : Type} `{Transport Client}.

Variable iter_order : gset string -> list string.
Variable float_seconds : string -> Outcome Z.
Variable writable : string -> bool.

Import DateTime.
Import Pytz.

(** From 1952 on a date and a time of day are converted and read back
    without loss. *)
Lemma convert_then_readable d t :
  well_formed_date d = true -> after_summer_time d = true ->
  well_formed_time t = true ->
  exists ts,
    convert_datetime_to_timestamp d t = Returns (Some ts)
    /\ readable_time ts = Returns (d ++ " " ++ t)%string.
Proof.
  unfold well_formed_date, after_summer_time, well_formed_time.
  intros Hwd Ha Hwt.
  destruct (parse_ymd d) as [[[[y m] dd] [|? ?]]|] eqn:Hpd; try discriminate.
  destruct (parse_hms t) as [[[[h mi] s] [|? ?]]|] eqn:Hpt; try discriminate.
  set (dt := {| year := y; month := m; day := dd;
                hour := h; minute := mi; second := s |}).
  pose proof (valid_datetime_parsed _ _ _ _ _ _ _ _ Hpd Hpt Hwd Hwt) as Hv.
  fold dt in Hv.
  pose proof (window_range dt Hv ltac:(cbn; lia) ltac:(cbn; lia)) as [_ Hhi].
  destruct (valid_datetime_fields dt Hv) as (_ & Hh & Hmi & Hs). cbn in Hh, Hmi, Hs.
  destruct (ymd2ord_bounds _ _ _ Hwd) as (Hb & _).
  pose proof (days_before_year_mono 1952 y ltac:(lia)) as Hlo.
  change (days_before_year 1952) with 712587 in Hlo.
  eexists. split.
  - apply (convert_standard_time d t y m dd h mi s Hpd Hpt Hwd Hwt); lia.
  - unfold readable_time. rewrite fromtimestamp_standard_time.
    + cbn [wall].
      replace ((ymd2ord y m dd - 719163) * 86400 + h * 3600 + mi * 60 + s
               - 32400 + 32400) with (to_seconds dt) by (unfold to_seconds; cbn; lia).
      rewrite (of_seconds_to_seconds dt Hv). unfold dt.
      rewrite (strftime_well_formed _ _ _ _ _ _ _ _ Hpd Hpt). reflexivity.
    + unfold standard_time, STANDARD_TIME, LAST_INSTANT.
      unfold to_seconds, MAX_SECONDS in Hhi. cbn in Hhi. lia.
Qed.

Lemma export_data_boundaries messages channel_id start_date_str end_date_str
    (w : World Client) doc w' :
  export_data iter_order float_seconds messages channel_id start_date_str end_date_str w
    = (Returns doc, w') ->
  start_date doc = start_date_str /\ end_date doc = end_date_str.
Proof.
  unfold export_data, bind, ret. intros Hrun.
  destruct (collect_user_ids channel_id ∅ messages w) as [[ids|e] w1]; [|discriminate].
  destruct (fetch_user_info _ w1) as [[info|e] w2]; [|discriminate].
  destruct (for_each _ (rev messages) w2) as [[entries|e] w3]; [|discriminate].
  injection Hrun as <- _. split; reflexivity.
Qed.

(** X29. A document written by a run between two dates from 1952 on
    carries the dates of the command line as its boundaries: the start
    date at 00:00:00 and the end date at 23:59:59. *)
Theorem written_boundaries_are_the_dates fuel now args (w : World Client) f doc :
  well_formed_date (arg_start_date args) = true ->
  after_summer_time (arg_start_date args) = true ->
  well_formed_date (arg_end_date args) = true ->
  after_summer_time (arg_end_date args) = true ->
  disk w !! f = None ->
  disk (snd (main iter_order float_seconds writable fuel now args w)) !! f = Some doc ->
  start_date doc = (arg_start_date args ++ " 00:00:00")%string
  /\ end_date doc = (arg_end_date args ++ " 23:59:59")%string.
Proof.
  intros Hw1 Ha1 Hw2 Ha2 Hnew.
  destruct (convert_then_readable (arg_start_date args) "00:00:00" Hw1 Ha1 eq_refl)
    as (oldest & Hc1 & Hr1).
  destruct (convert_then_readable (arg_end_date args) "23:59:59" Hw2 Ha2 eq_refl)
    as (latest & Hc2 & Hr2).
  unfold main.
  destruct (String.eqb (arg_channel_id args) ""); [cbn; congruence|].
  rewrite Hc1, Hc2, Hr1, Hr2.
  pose proof (history_loop_disk fuel (arg_channel_id args) oldest latest
                {| all_messages := []; cursor := None |} w) as Hd.
  unfold fetch_messages_for_period.
  destruct (history_loop fuel (arg_channel_id args) oldest latest _ w)
    as [[[messages|e]|] w1]; cbn [snd] in *; try (rewrite Hd; congruence).
  destruct messages as [|msg messages]; [cbn; rewrite Hd; congruence|].
  destruct (generate_output_filename now (arg_channel_id args) (arg_output args))
    as [output_filename|e]; [|cbn; rewrite Hd; congruence].
  unfold save_messages_to_file, try_except, bind, write_file.
  pose proof (keeps_disk_export iter_order float_seconds (msg :: messages)
                (arg_channel_id args) (arg_start_date args ++ " 00:00:00")
                (arg_end_date args ++ " 23:59:59") w1) as Hk.
  destruct (export_data iter_order float_seconds (msg :: messages) _ _ _ w1)
    as [[doc'|e] w2] eqn:Hrun; cbn [snd] in Hk.
  - destruct (writable output_filename); cbn; [|rewrite Hk, Hd; congruence].
    destruct (decide (f = output_filename)) as [-> | Hne].
    + rewrite lookup_insert_eq. intros [= <-].
      eapply export_data_boundaries. exact Hrun.
    + rewrite lookup_insert_ne by congruence. rewrite Hk, Hd. congruence.
  - destruct e; cbn; rewrite Hk, Hd; congruence.
Qed.

End Boundaries.

Lemma export_program_run :
  disk (snd (main elements_order whole_seconds always_writable 1 0 export_args
               (start_world export_client))) !! "out.json"
  = Some export_doc.
Proof. vm_compute. reflexivity. Qed.

Lemma written_boundaries_are_the_dates_witness :
  start_date export_doc = (arg_start_date export_args ++ " 00:00:00")%string
  /\ end_date export_doc = (arg_end_date export_args ++ " 23:59:59")%string.
Proof.
  apply (written_boundaries_are_the_dates elements_order whole_seconds always_writable
           1 0 export_args (start_world export_client) "out.json" export_doc);
    [reflexivity | reflexivity | reflexivity | reflexivity | reflexivity
    | exact export_program_run].
Defined.
